(** * PolymarketSocial: the squad leaderboard and weekly-winner routes

    A shallow embedding of the two route handlers of the squads router,
    [GET /:id/leaderboard] and [POST /:id/calculate-winner], with the
    state they share: the in-process [pnlCache], the [squad_winners]
    table, the upstream requests they issue and the chat broadcasts
    they emit.

    Conventions of the model.
    - A JavaScript number is an exact rational ([Q]).  The rounding
      error of floating-point [+], [NaN] and the infinities are not
      modelled; [0] is the only falsy number.
    - A [Date] is its time value, milliseconds since the epoch ([Z]).
      Local time is a zone with a constant offset [tza] (no daylight
      transitions), so that [setDate(getDate() - k)] moves the time
      value back by [k] days.
    - The bodies of the market-data service are typed as the handlers
      read them: an array of positions whose [realizedPnl] and
      [timestamp] are numbers when present, an object whose [value] is
      a number when present ([Json]).
    - The tables the handlers only read ([squad_members], [users]) and
      the market-data service are collaborators: each call receives
      their answers in an environment [Env].  The state the handlers
      write is threaded explicitly ([Sys]); a handler is a function
      from the state to an answer or a value, and the next state
      ([Handler]). *)

From Stdlib Require Import ZArith QArith Qabs Qround Lia List String Ascii.
From Stdlib Require Import DecimalString DecimalN Sorting.Sorted Sorting.Permutation.
From stdpp Require Import gmap strings list.

Open Scope Z_scope.

(** ** Decimal text *)

Module Dec.

Definition is_digit (c : ascii) : bool :=
  (48 <=? nat_of_ascii c)%nat && (nat_of_ascii c <=? 57)%nat.

Fixpoint all_digits (s : string) : bool :=
  match s with
  | EmptyString => true
  | String c s' => is_digit c && all_digits s'
  end.

(** The longest prefix of digits, and what follows it. *)
Fixpoint span_digits (s : string) : string * string :=
  match s with
  | String c s' =>
      if is_digit c
      then let (d, r) := span_digits s' in (String c d, r)
      else (EmptyString, s)
  | EmptyString => (EmptyString, EmptyString)
  end.

(** Decimal digits of a natural number, no leading zero ("0" for 0). *)
Definition of_N (n : N) : string := NilEmpty.string_of_uint (N.to_uint n).

(** Value of a string of digits; the empty string counts 0. *)
Definition to_N (s : string) : N :=
  match NilEmpty.uint_of_string s with
  | Some u => N.of_uint u
  | None => 0%N
  end.

(** [String(z)] for an integer [z]. *)
Definition of_Z (z : Z) : string :=
  (if z <? 0 then "-" else "") +:+ of_N (Z.abs_N z).

(** A fraction of two digits, zero padded. *)
Definition two_digits (r : Z) : string :=
  (if r <? 10 then "0" else "") +:+ of_N (Z.to_N r).

End Dec.

(** ** Numbers *)

(** Truthiness of a number: [0] is falsy. *)
Definition truthy (x : Q) : bool := negb (Qnum x =? 0).

(** [v || 0] for an optional numeric field (absent fields are
    [undefined], which is falsy). *)
Definition orZero (v : option Q) : Q :=
  match v with
  | Some x => if truthy x then x else 0%Q
  | None => 0%Q
  end.

(** [!v] for an optional numeric field. *)
Definition falsy_field (v : option Q) : bool :=
  match v with
  | Some x => negb (truthy x)
  | None => true
  end.

(** The integer [n] of [Number.prototype.toFixed(2)] for [x >= 0]: the
    one for which [n / 100 - x] is closest to zero, the larger when two
    are as close. *)
Definition nearest_cents (x : Q) : Z :=
  (200 * Qnum x + Z.pos (Qden x)) / (2 * Z.pos (Qden x)).

(** [x.toFixed(2)] (below [1e21], where the digits are plain). *)
Definition toFixed2 (x : Q) : string :=
  let n := nearest_cents (Qabs x) in
  (if Qnum x <? 0 then "-" else "")
  +:+ Dec.of_N (Z.to_N (n / 100)) +:+ "." +:+ Dec.two_digits (n mod 100).

(** A leading sign of a numeric text, and the rest. *)
Definition read_sign (s : string) : bool * string :=
  match s with
  | String c r =>
      if Ascii.eqb c "-" then (true, r)
      else if Ascii.eqb c "+" then (false, r)
      else (false, s)
  | EmptyString => (false, s)
  end.

(** The digits behind a decimal point, if the text starts with one. *)
Definition read_fraction (s : string) : string :=
  match s with
  | String c r => if Ascii.eqb c "." then fst (Dec.span_digits r) else EmptyString
  | EmptyString => EmptyString
  end.

(** [parseFloat(s)] on plain decimal text: an optional sign, digits, an
    optional point and digits; what follows is ignored.  [None] is
    [NaN]. *)
Definition parseFloat (s : string) : option Q :=
  let '(neg, s1) := read_sign s in
  let '(ip, rest) := Dec.span_digits s1 in
  let fp := read_fraction rest in
  if (String.length ip + String.length fp =? 0)%nat then None
  else
    let v := (inject_Z (Z.of_N (Dec.to_N ip))
              + (Z.of_N (Dec.to_N fp) # Pos.pow 10 (Pos.of_nat (String.length fp))))%Q in
    Some (if neg then (- v)%Q else v).

(** [parseFloat(x.toFixed(2))]. *)
Definition toCents (x : Q) : Q :=
  match parseFloat (toFixed2 x) with
  | Some v => v
  | None => 0%Q
  end.

(** [Math.abs]. *)
Definition Math_abs (x : Q) : Q := Qabs x.

(** The specification's rounding: [x] rounded to two decimal places,
    halves away from zero. *)
Definition round2 (x : Q) : Q :=
  (Z.sgn (Qnum x) * Qfloor (Qabs x * 100 + (1 # 2)) # 100)%Q.

(** ** Dates *)

Module Date.

Definition msPerDay : Z := 86400000.

(** Day number of a time value. *)
Definition Day (t : Z) : Z := t / msPerDay.

(** Day number of the first day of year [y]. *)
Definition DayFromYear (y : Z) : Z :=
  365 * (y - 1970) + (y - 1969) / 4 - (y - 1901) / 100 + (y - 1601) / 400.

Definition TimeFromYear (y : Z) : Z := msPerDay * DayFromYear y.

(** Walk up from [y] while the next year has begun by day [d]. *)
Fixpoint year_search (fuel : nat) (y d : Z) : Z :=
  match fuel with
  | O => y
  | S fuel' =>
      if DayFromYear (y + 1) <=? d then year_search fuel' (y + 1) d else y
  end.

(** The year of day [d]: 400 years are 146097 days, so the search
    runs inside one such cycle. *)
Definition YearFromDay (d : Z) : Z :=
  400 * (d / 146097) + year_search 400 1970 (d mod 146097).

(** The largest [y] with [TimeFromYear y <= t]. *)
Definition YearFromTime (t : Z) : Z := YearFromDay (Day t).

Definition DayWithinYear (t : Z) : Z := Day t - DayFromYear (YearFromTime t).

(** [d.getFullYear()] in the zone of offset [tza]. *)
Definition getFullYear (tza t : Z) : Z := YearFromTime (t + tza).

(** Time value of [new Date(y, 0, 1)]: local midnight, 1 January. *)
Definition newYear (tza y : Z) : Z := TimeFromYear y - tza.

(** Time value after [d.setDate(d.getDate() - k)]. *)
Definition minusDays (k t : Z) : Z := t - k * msPerDay.

End Date.

(** The week number of [calculate-winner], at time value [now]. *)
Definition weekNumber (tza now : Z) : Z :=
  let start := Date.newYear tza (Date.getFullYear tza now) in
  let diff := now - start in
  let oneWeek := 1000 * 60 * 60 * 24 * 7 in
  diff / oneWeek + 1.

(** The window start of the leaderboard query, epoch seconds; [None] is
    [null]. *)
Definition startTimestamp (timeframe : string) (now : Z) : option Z :=
  if String.eqb timeframe "weekly" then Some (Date.minusDays 7 now / 1000)
  else if String.eqb timeframe "daily" then Some (Date.minusDays 1 now / 1000)
  else None.

(** Truthiness of [startTimestamp]. *)
Definition cutoffActive (st : option Z) : bool :=
  match st with
  | Some c => negb (c =? 0)
  | None => false
  end.

(** ** Data *)

(** A row of [users]. *)
Module User.
Record t := {
  evmAddress : string;
  username : option string;
  avatarUrl : option string;
  polymarketUserAddress : option string;
}.
End User.

(** A closed position of the market-data service. *)
Module Position.
Record t := {
  realizedPnl : option Q;
  timestamp : option Q;
}.
End Position.

(** A leaderboard entry; the winner route builds its entries without
    [avatarUrl]. *)
Module Entry.
Record t := {
  evmAddress : string;
  username : string;
  avatarUrl : option string;
  totalLivePnl : Q;
}.
End Entry.

(** A row of [squad_winners]. *)
Module Winner.
Record t := {
  squadId : Z;
  winnerAddress : string;
  week : Z;
  pnl : Q;
}.
End Winner.

(** A row of [squad_members]. *)
Module Member.
Record t := {
  squadId : Z;
  userId : string;
}.
End Member.

(** What [response.json()] of the market-data service can hold: the
    array of closed positions ([Array.isArray] holds of it alone), an
    object with an optional [value], or [null]. *)
Inductive Json :=
| JArray (positions : list Position.t)
| JObject (value : option Q)
| JNull.

(** The outcome of one [fetch]: the promise rejects, or a response
    arrives; [body = None] makes [response.json()] reject. *)
Inductive FetchResult :=
| Rejected
| Responded (ok : bool) (status : Z) (body : option Json).

(** The outcome of a database query: [{ data, error }]. *)
Inductive DbResult (A : Type) :=
| DbError
| DbData (data : A).
Arguments DbError {A}.
Arguments DbData {A} data.

(** [s || d] on an optional string: absent and empty are falsy. *)
Definition orString (v : option string) (d : string) : string :=
  match v with
  | Some s => if String.eqb s "" then d else s
  | None => d
  end.

(** [!s] on an optional string. *)
Definition falsy_string (v : option string) : bool :=
  match v with
  | Some s => String.eqb s ""
  | None => true
  end.

(** [valueData?.value]. *)
Definition valueOf (j : Json) : option Q :=
  match j with
  | JObject v => v
  | _ => None
  end.

(** ** The cache *)

Record CacheData := {
  cached : list Entry.t;   (* the [leaderboard] of the stored object *)
  expires : Z;             (* time value after which the entry is stale *)
}.

(** [new NodeCache({ stdTTL: 30 })]: seconds. *)
Definition stdTTL : Z := 30.

(** Modelled from the spec: the cache store (package [node-cache], not
    among the sources).  A read returns the stored value if it has not
    expired yet, else misses and drops the entry. *)
Definition cache_get (key : string) (now : Z) (c : gmap string CacheData)
  : option (list Entry.t) * gmap string CacheData :=
  match c !! key with
  | Some d => if expires d <? now then (None, delete key c) else (Some (cached d), c)
  | None => (None, c)
  end.

(** Modelled from the spec: the cache store (package [node-cache], not
    among the sources).  A write overwrites unconditionally and restarts
    the time to live. *)
Definition cache_set (key : string) (v : list Entry.t) (now : Z)
    (c : gmap string CacheData) : gmap string CacheData :=
  <[key := {| cached := v; expires := now + stdTTL * 1000 |}]> c.

(** ** State, environment and the handler monad *)

Record Broadcast := {
  event : string;
  room : Z;                (* [squadId] of the payload *)
  message : string;
}.

(** Writes issued to the winner store. *)
Inductive StoreOp :=
| OpDelete (squadId week : Z)
| OpInsert (row : Winner.t).

Record Sys := {
  pnlCache : gmap string CacheData;
  squad_winners : list Winner.t;
  requests : list string;        (* upstream URLs fetched, oldest first *)
  broadcasts : list Broadcast;   (* [socket.emit], oldest first *)
  store_ops : list StoreOp;      (* winner-store writes, oldest first *)
}.

Record Env := {
  clock_read : Z;    (* the clock when [pnlCache.get] runs *)
  clock_date : Z;    (* the clock at [new Date()] *)
  clock_write : Z;   (* the clock when [pnlCache.set] runs *)
  tza : Z;           (* offset of local time, milliseconds *)
  db_membership : Z -> string -> DbResult Member.t;       (* [.single()] *)
  db_memberRows : Z -> DbResult (list string);
  db_users : list string -> DbResult (list User.t);
  fetch : string -> FetchResult;
  select_fails : bool;   (* the winner store refuses the lookup *)
  delete_fails : bool;   (* ... the delete *)
  insert_fails : bool;   (* ... the insert *)
  delivered : bool;      (* the broadcast reaches the chat server *)
}.

Record Request := {
  params_id : option Z;              (* [parseInt(req.params.id)]; [None] is [NaN] *)
  userId : string;
  query_timeframe : option string;
}.

Inductive Body :=
| Message (message : string)
| ErrorBody (error : string)
| Leaderboard (leaderboard : list Entry.t)
| WinnerCalculated (message evmAddress username : string) (pnl : Q) (week : Z).

Record Response := {
  status : Z;
  body : Body;
}.

(** A handler step either answers the request (and the handler
    returns) or yields a value to the rest of the handler. *)
Inductive Step (A : Type) :=
| Answer (r : Response)
| Next (a : A).
Arguments Answer {A} r.
Arguments Next {A} a.

Definition Handler (A : Type) : Type := Sys -> Step A * Sys.

Definition ret {A} (a : A) : Handler A := fun s => (Next a, s).

Definition bind {A B} (m : Handler A) (k : A -> Handler B) : Handler B :=
  fun s =>
    match m s with
    | (Answer r, s') => (Answer r, s')
    | (Next a, s') => k a s'
    end.

Notation "'bind!' x <- m 'in' k" := (bind m (fun x => k))
  (at level 10, x name, m at level 100, k at level 200,
   format "'[v' 'bind!'  x  <-  m  'in' '/' k ']'").
Notation "'step!' m 'in' k" := (bind m (fun _ => k))
  (at level 10, m at level 100, k at level 200,
   format "'[v' 'step!'  m  'in' '/' k ']'").

(** [return res.status(code).json(body)]. *)
Definition respond {A} (code : Z) (b : Body) : Handler A :=
  fun s => (Answer {| status := code; body := b |}, s).

(** [return] the answer unless [ok]. *)
Definition guard (ok : bool) (code : Z) (b : Body) : Handler unit :=
  if ok then ret tt else respond code b.

Definition run (h : Handler Response) (s : Sys) : Response * Sys :=
  match h s with
  | (Answer r, s') => (r, s')
  | (Next r, s') => (r, s')
  end.

Definition set_pnlCache (c : gmap string CacheData) (s : Sys) : Sys :=
  {| pnlCache := c; squad_winners := squad_winners s; requests := requests s;
     broadcasts := broadcasts s; store_ops := store_ops s |}.

Definition set_winners (w : list Winner.t) (op : StoreOp) (s : Sys) : Sys :=
  {| pnlCache := pnlCache s; squad_winners := w; requests := requests s;
     broadcasts := broadcasts s; store_ops := store_ops s ++ [op] |}.

Definition add_requests (l : list string) (s : Sys) : Sys :=
  {| pnlCache := pnlCache s; squad_winners := squad_winners s;
     requests := requests s ++ l;
     broadcasts := broadcasts s; store_ops := store_ops s |}.

Definition add_broadcast (b : Broadcast) (s : Sys) : Sys :=
  {| pnlCache := pnlCache s; squad_winners := squad_winners s;
     requests := requests s;
     broadcasts := broadcasts s ++ [b]; store_ops := store_ops s |}.

(** [pnlCache.get(key)]. *)
Definition cacheGet (key : string) (now : Z) : Handler (option (list Entry.t)) :=
  fun s =>
    let (v, c) := cache_get key now (pnlCache s) in (Next v, set_pnlCache c s).

(** [pnlCache.set(key, value)]. *)
Definition cacheSet (key : string) (v : list Entry.t) (now : Z) : Handler unit :=
  fun s => (Next tt, set_pnlCache (cache_set key v now (pnlCache s)) s).

(** ** Sorting *)

(** The comparator of both routes: [(a, b) => b.totalLivePnl - a.totalLivePnl]. *)
Definition compareFn (a b : Entry.t) : Q :=
  (Entry.totalLivePnl b - Entry.totalLivePnl a)%Q.

Definition positive (q : Q) : bool := 0 <? Qnum q.

(** [Array.prototype.sort] is stable: an element moves behind another
    only when the comparator puts it strictly after. *)
Fixpoint insertBy {A} (cmp : A -> A -> Q) (x : A) (l : list A) : list A :=
  match l with
  | [] => [x]
  | y :: l' => if positive (cmp x y) then y :: insertBy cmp x l' else x :: l
  end.

Definition sortBy {A} (cmp : A -> A -> Q) (l : list A) : list A :=
  fold_right (insertBy cmp) [] l.

(** ** GET /:id/leaderboard *)

Definition closedUrl (address : string) (st : option Z) : string :=
  let all := "https://data-api.polymarket.com/closed-positions?user="
             +:+ address +:+ "&limit=50&sortBy=REALIZEDPNL" in
  match st with
  | Some c => if cutoffActive st then all +:+ "&start=" +:+ Dec.of_Z c else all
  | None => all
  end.

Definition valueUrl (address : string) : string :=
  "https://data-api.polymarket.com/value?user=" +:+ address.

Definition queryEntry (user : User.t) (total : Q) : Entry.t :=
  {| Entry.evmAddress := User.evmAddress user;
     Entry.username := orString (User.username user) "Anonymous";
     Entry.avatarUrl :=
       Some (orString (User.avatarUrl user)
               ("https://api.dicebear.com/9.x/pixel-art/svg?seed="
                +:+ User.evmAddress user));
     Entry.totalLivePnl := total |}.

(** The filter callback: the position is kept when its timestamp is
    truthy and not before the cutoff. *)
Definition keepPosition (c : Z) (pos : Position.t) : bool :=
  match Position.timestamp pos with
  | Some ts => if truthy ts then Qle_bool (inject_Z c) ts else false
  | None => false
  end.

(** [filteredClosedPositions]. *)
Definition filterClosed (st : option Z) (closedPositions : Json) : Json :=
  match st, closedPositions with
  | Some c, JArray l =>
      if cutoffActive st then JArray (List.filter (keepPosition c) l)
      else closedPositions
  | _, _ => closedPositions
  end.

Definition sumPositions (l : list Position.t) : Q :=
  fold_left (fun sum pos => (sum + orZero (Position.realizedPnl pos))%Q) l 0%Q.

(** [realizedPnl]: the [reduce] over the positions, 0 when they are
    not an array. *)
Definition sumRealized (positions : Json) : Q :=
  match positions with
  | JArray l => sumPositions l
  | _ => 0%Q
  end.

Definition openPositionsValue (timeframe : string) (valueData : Json) : Q :=
  if String.eqb timeframe "all" then orZero (valueOf valueData) else 0%Q.

(** The callback of [users.map]: the member's entry, and the URLs it
    fetched. *)
Definition memberPnl (env : Env) (timeframe : string) (st : option Z)
    (user : User.t) : Entry.t * list string :=
  if falsy_string (User.polymarketUserAddress user) then (queryEntry user 0%Q, [])
  else
    let address := orString (User.polymarketUserAddress user) "" in
    let entry :=
      match fetch env (closedUrl address st), fetch env (valueUrl address) with
      | Responded closedOk _ closedBody, Responded valueOk _ valueBody =>
          if negb closedOk || negb valueOk then queryEntry user 0%Q
          else
            match closedBody, valueBody with
            | Some closedPositions, Some valueData =>
                let realizedPnl := sumRealized (filterClosed st closedPositions) in
                let totalLivePnl :=
                  (realizedPnl + openPositionsValue timeframe valueData)%Q in
                queryEntry user (toCents totalLivePnl)
            | _, _ => queryEntry user 0%Q      (* [json()] rejects: [catch] *)
            end
      | _, _ => queryEntry user 0%Q            (* [fetch] rejects: [catch] *)
      end in
    (entry, [closedUrl address st; valueUrl address]).

(** [Promise.all(users.map(...))]: every callback runs up to its two
    fetches in turn; the entries come back in the order of [users]. *)
Definition fetchAll (member : User.t -> Entry.t * list string)
    (users : list User.t) : Handler (list Entry.t) :=
  fun s =>
    (Next (map (fun u => fst (member u)) users),
     add_requests (concat (map (fun u => snd (member u)) users)) s).

Definition leaderboardKey (squadId : Z) (timeframe : string) : string :=
  "leaderboard:" +:+ Dec.of_Z squadId +:+ ":" +:+ timeframe.

Definition hasData {A} (r : DbResult A) : bool :=
  match r with
  | DbData _ => true
  | DbError => false
  end.

(** [req.query.timeframe || 'all']. *)
Definition timeframeOf (req : Request) : string :=
  orString (query_timeframe req) "all".

Definition getLeaderboard (env : Env) (req : Request) : Handler Response :=
  match params_id req with
  | None => respond 400 (Message "Invalid squad ID")
  | Some squadId =>
      let timeframe := timeframeOf req in
      step! guard (hasData (db_membership env squadId (userId req)))
              403 (Message "You are not a member of this squad") in
      let cacheKey := leaderboardKey squadId timeframe in
      bind! hit <- cacheGet cacheKey (clock_read env) in
      match hit with
      | Some result => respond 200 (Leaderboard result)
      | None =>
          match db_memberRows env squadId with
          | DbError | DbData [] => respond 200 (Leaderboard [])
          | DbData userIds =>
              match db_users env userIds with
              | DbError => respond 500 (Message "Failed to fetch users")
              | DbData users =>
                  let st := startTimestamp timeframe (clock_date env) in
                  bind! entries <- fetchAll (memberPnl env timeframe st) users in
                  let leaderboard := sortBy compareFn entries in
                  step! cacheSet cacheKey leaderboard (clock_write env) in
                  respond 200 (Leaderboard leaderboard)
              end
          end
      end
  end.

(** ** POST /:id/calculate-winner *)

Definition winnerEntry (user : User.t) (total : Q) : Entry.t :=
  {| Entry.evmAddress := User.evmAddress user;
     Entry.username := orString (User.username user) "Anonymous";
     Entry.avatarUrl := None;
     Entry.totalLivePnl := total |}.

(** The all-time pass of the winner route, written out again there. *)
Definition winnerPnl (env : Env) (user : User.t) : Entry.t * list string :=
  if falsy_string (User.polymarketUserAddress user) then (winnerEntry user 0%Q, [])
  else
    let address := orString (User.polymarketUserAddress user) "" in
    let entry :=
      match fetch env (closedUrl address None), fetch env (valueUrl address) with
      | Responded closedOk _ closedBody, Responded valueOk _ valueBody =>
          if negb closedOk || negb valueOk then winnerEntry user 0%Q
          else
            match closedBody, valueBody with
            | Some closedPositions, Some valueData =>
                let realizedPnl := sumRealized closedPositions in
                let openPositionsValue := orZero (valueOf valueData) in
                let totalLivePnl := (realizedPnl + openPositionsValue)%Q in
                winnerEntry user (toCents totalLivePnl)
            | _, _ => winnerEntry user 0%Q
            end
      | _, _ => winnerEntry user 0%Q
      end in
    (entry, [closedUrl address None; valueUrl address]).

Definition winnerKey (squadId : Z) : string :=
  "leaderboard:" +:+ Dec.of_Z squadId.

Definition sameWeek (squadId week : Z) (w : Winner.t) : bool :=
  (Winner.squadId w =? squadId) && (Winner.week w =? week).

(** [select('*').eq(squadId).eq(week).single()]: data only when exactly
    one row matches. *)
Definition selectWinner (env : Env) (squadId week : Z) : Handler (option Winner.t) :=
  fun s =>
    (Next (if select_fails env then None
           else match List.filter (sameWeek squadId week) (squad_winners s) with
                | [w] => Some w
                | _ => None
                end), s).

(** [delete().eq(squadId).eq(week)]; its result is not looked at. *)
Definition deleteWinner (env : Env) (squadId week : Z) : Handler unit :=
  fun s =>
    (Next tt,
     set_winners
       (if delete_fails env then squad_winners s
        else List.filter (fun w => negb (sameWeek squadId week w)) (squad_winners s))
       (OpDelete squadId week) s).

(** [insert(row)]: yields [insertError]. *)
Definition insertWinner (env : Env) (row : Winner.t) : Handler bool :=
  fun s =>
    if insert_fails env then (Next true, set_winners (squad_winners s) (OpInsert row) s)
    else (Next false, set_winners (squad_winners s ++ [row]) (OpInsert row) s).

(** [socket.emit('bot:broadcast', ...)]: nothing comes back. *)
Definition emit (b : Broadcast) : Handler unit :=
  fun s => (Next tt, add_broadcast b s).

Definition pnlDisplay (pnl : Q) : string :=
  if Qle_bool 0 pnl then "+$" +:+ toFixed2 pnl
  else "-$" +:+ toFixed2 (Math_abs pnl).

(** The two emoji of the announcement, as the source text holds them. *)
Definition trophy : string := "üèÜ".
Definition party : string := "üéâ".

Definition winnerMessage (week : Z) (username : string) (pnl : Q) : string :=
  trophy +:+ " Week " +:+ Dec.of_Z week +:+ " MVP: " +:+ username +:+ " with "
  +:+ pnlDisplay pnl +:+ " PnL! Congratulations! " +:+ party.

(** The fresh all-time pass of the winner route. *)
Definition freshLeaderboard (env : Env) (squadId : Z) : Handler (list Entry.t) :=
  match db_memberRows env squadId with
  | DbError | DbData [] => respond 400 (Message "No members in squad")
  | DbData userIds =>
      match db_users env userIds with
      | DbError => respond 500 (Message "Failed to fetch users")
      | DbData users =>
          bind! entries <- fetchAll (winnerPnl env) users in
          ret (sortBy compareFn entries)
      end
  end.

(** The leaderboard the winner is taken from: the cached one if there
    is one, else the fresh pass. *)
Definition winnerLeaderboard (env : Env) (squadId : Z) : Handler (list Entry.t) :=
  bind! hit <- cacheGet (winnerKey squadId) (clock_read env) in
  match hit with
  | Some leaderboard => ret leaderboard
  | None => freshLeaderboard env squadId
  end.

(** The second half of the route: store [winner] as the winner of
    the current week, announce it, answer. *)
Definition crownWinner (env : Env) (squadId : Z) (winner : Entry.t)
  : Handler Response :=
  let week := weekNumber (tza env) (clock_date env) in
  bind! existingWinner <- selectWinner env squadId week in
  step! match existingWinner with
        | Some _ => deleteWinner env squadId week
        | None => ret tt
        end in
  bind! insertError <-
    insertWinner env
      {| Winner.squadId := squadId;
         Winner.winnerAddress := Entry.evmAddress winner;
         Winner.week := week;
         Winner.pnl := Entry.totalLivePnl winner |} in
  step! guard (negb insertError) 500 (ErrorBody "Failed to save winner") in
  step! emit {| event := "bot:broadcast"; room := squadId;
                message := winnerMessage week (Entry.username winner)
                             (Entry.totalLivePnl winner) |} in
  respond 200
    (WinnerCalculated "Winner calculated successfully"
       (Entry.evmAddress winner) (Entry.username winner)
       (Entry.totalLivePnl winner) week).

Definition calculateWinner (env : Env) (req : Request) : Handler Response :=
  match params_id req with
  | None => respond 400 (Message "Invalid squad ID")
  | Some squadId =>
      step! guard (hasData (db_membership env squadId (userId req)))
              403 (Message "You are not a member of this squad") in
      bind! leaderboard <- winnerLeaderboard env squadId in
      match leaderboard with
      | [] => respond 400 (Message "No leaderboard data available")
      | winner :: _ => crownWinner env squadId winner
      end
  end.

(** * The other routes of the squads router

    [generateInviteCode], [getSquadWithMembers] and the routes
    [GET /], [GET /:id], [POST /create], [POST /join] and
    [GET /:id/messages].  Here the tables are state ([Db.t]): the
    routes read and write [squads] and [squad_members], and every query
    is computed from the rows.  A query can fail for reasons of its
    own; which of the query sites of a call fail, and what
    [Math.random()] returns, is given by a context ([Ctx]).  The
    tables hold no constraint of their own: an insert the store refuses,
    for a constraint or for any other reason, is a failing insert site.
    The store numbers the squads in increasing order ([Db.next_id]).
    Calls are handled one after the other.  Text is ASCII: [trim]
    strips TAB, LF, VT, FF, CR and SP, [toUpperCase] maps [a]-[z]. *)

(** ** Text *)

Module Text.

Definition is_space (c : ascii) : bool :=
  let n := nat_of_ascii c in
  ((9 <=? n)%nat && (n <=? 13)%nat) || (n =? 32)%nat.

Fixpoint trimStart (s : string) : string :=
  match s with
  | String c r => if is_space c then trimStart r else s
  | EmptyString => EmptyString
  end.

Fixpoint trimEnd (s : string) : string :=
  match s with
  | String c r =>
      match trimEnd r with
      | EmptyString => if is_space c then EmptyString else String c EmptyString
      | r' => String c r'
      end
  | EmptyString => EmptyString
  end.

(** [s.trim()]. *)
Definition trim (s : string) : string := trimEnd (trimStart s).

Definition upper (c : ascii) : ascii :=
  let n := nat_of_ascii c in
  if (97 <=? n)%nat && (n <=? 122)%nat then ascii_of_nat (n - 32) else c.

Definition lower (c : ascii) : ascii :=
  let n := nat_of_ascii c in
  if (65 <=? n)%nat && (n <=? 90)%nat then ascii_of_nat (n + 32) else c.

(** [s.toUpperCase()]. *)
Fixpoint toUpperCase (s : string) : string :=
  match s with
  | String c r => String (upper c) (toUpperCase r)
  | EmptyString => EmptyString
  end.

(** [s.toLowerCase()]. *)
Fixpoint toLowerCase (s : string) : string :=
  match s with
  | String c r => String (lower c) (toLowerCase r)
  | EmptyString => EmptyString
  end.

(** [s.charAt(i)]: the empty string out of range. *)
Definition charAt (s : string) (i : Z) : string :=
  if i <? 0 then EmptyString
  else match String.get (Z.to_nat i) s with
       | Some c => String c EmptyString
       | None => EmptyString
       end.

End Text.

(** ** The invite code *)

Definition chars : string := "ABCDEFGHIJKLMNOPQRSTUVWXYZ0123456789".

(** One round of the loop: [code += chars.charAt(Math.floor(r * chars.length))]. *)
Definition appendChar (code : string) (r : Q) : string :=
  code +:+ Text.charAt chars
             (Qfloor (r * inject_Z (Z.of_nat (String.length chars)))).

(** [generateInviteCode()]; [random i] is what [Math.random()] returns
    in round [i]. *)
Definition generateInviteCode (random : nat -> Q) : string :=
  fold_left (fun code i => appendChar code (random i)) (seq 0 6) EmptyString.

(** ** Tables *)

(** A row of [squads]. *)
Module Squad.
Record t := {
  id : Z;
  name : string;
  inviteCode : string;
}.
End Squad.

(** A row of [chat_messages]. *)
Module Chat.
Record t := {
  id : Z;
  squadId : Z;
  authorAddress : option string;
  content : string;
  isBot : bool;
  timestamp : Z;          (* the time of the message, as the store orders it *)
}.
End Chat.

Module Db.
Record t := {
  squads : list Squad.t;
  squad_members : list Member.t;
  users : list User.t;
  chat_messages : list Chat.t;
  next_id : Z;            (* the id the next inserted squad gets *)
}.
End Db.

(** The places of the source where a query is issued. *)
Inductive Site :=
| AtSquad (squadId : Z)      (* [getSquadWithMembers]: the squad *)
| AtMembers (squadId : Z)    (* ... its member rows *)
| AtUsers (squadId : Z)      (* ... their profiles *)
| AtMySquads                 (* [GET /]: the caller's member rows *)
| AtMembership               (* the membership check of a route *)
| AtInsertSquad              (* [POST /create]: the squad *)
| AtAddMember                (* [POST /create], [POST /join]: the member row *)
| AtFindByCode               (* [POST /join]: the squad of the code *)
| AtExisting                 (* ... the caller's member row *)
| AtCount                    (* ... the member rows counted *)
| AtMessages                 (* [GET /:id/messages]: the messages *)
| AtAuthors                  (* ... their authors *)
| AtProfiles.                (* the leaderboard routes: the profiles *)

Record Ctx := {
  fails : Site -> bool;
  random : nat -> Q;
}.

(** [.single()]: data only when exactly one row is selected. *)
Definition single {A} (rows : list A) : option A :=
  match rows with
  | [row] => Some row
  | _ => None
  end.

Definition inSquad (squadId : Z) (m : Member.t) : bool :=
  Member.squadId m =? squadId.

Definition isMembership (squadId : Z) (userId : string) (m : Member.t) : bool :=
  (Member.squadId m =? squadId) && String.eqb (Member.userId m) userId.

(** [select('userId').eq('squadId', squadId)], mapped to the ids. *)
Definition userIdsOf (d : Db.t) (squadId : Z) : list string :=
  map Member.userId (List.filter (inSquad squadId) (Db.squad_members d)).

(** [select('*').in('evmAddress', userIds)]. *)
Definition usersIn (d : Db.t) (userIds : list string) : list User.t :=
  List.filter (fun u => existsb (String.eqb (User.evmAddress u)) userIds)
    (Db.users d).

(** [select('*').eq('squadId', squadId).eq('userId', userId).single()]. *)
Definition membershipOf (d : Db.t) (squadId : Z) (userId : string)
  : option Member.t :=
  single (List.filter (isMembership squadId userId) (Db.squad_members d)).

Definition avatarOf (evmAddress : string) : string :=
  "https://api.dicebear.com/9.x/pixel-art/svg?seed=" +:+ evmAddress.

(** [{ ...user, avatarUrl: ... }]. *)
Definition withAvatar (user : User.t) : User.t :=
  {| User.evmAddress := User.evmAddress user;
     User.username := User.username user;
     User.avatarUrl := Some (avatarOf (User.evmAddress user));
     User.polymarketUserAddress := User.polymarketUserAddress user |}.

(** [{ ...squad, members }]. *)
Record FullSquad := {
  squad : Squad.t;
  members : list User.t;
}.

(** [getSquadWithMembers(squadId)]; [None] is [null]. *)
Definition getSquadWithMembers (ctx : Ctx) (d : Db.t) (squadId : Z)
  : option FullSquad :=
  match (if fails ctx (AtSquad squadId) then None
         else single (List.filter (fun s => Squad.id s =? squadId) (Db.squads d)))
  with
  | None => None
  | Some squad =>
      if fails ctx (AtMembers squadId) then None
      else
        match userIdsOf d squadId with
        | [] => Some {| squad := squad; members := [] |}
        | userIds =>
            if fails ctx (AtUsers squadId) then None
            else Some {| squad := squad;
                         members := map withAvatar (usersIn d userIds) |}
        end
  end.

(** ** Replies *)

Module Author.
Record t := {
  evmAddress : string;
  username : string;
  avatarUrl : string;
}.
End Author.

(** A message as [GET /:id/messages] sends it. *)
Module Formatted.
Record t := {
  id : string;
  squadId : string;
  author : Author.t;
  content : string;
  isBot : bool;
  timestamp : Z;
}.
End Formatted.

Inductive Payload :=
| Failure (message : string)                              (* [{ message }] *)
| OneSquad (squad : option FullSquad) (message : option string)
| Squads (squads : list FullSquad)
| Messages (messages : list Formatted.t).

Record Reply := {
  code : Z;
  payload : Payload;
}.

Definition internalError : Reply :=
  {| code := 500; payload := Failure "Internal server error" |}.

Definition notMember : Reply :=
  {| code := 403; payload := Failure "You are not a member of this squad" |}.

(** ** GET / *)

Definition getSquads (ctx : Ctx) (userId : string) (d : Db.t) : Reply :=
  if fails ctx AtMySquads then internalError
  else
    let squadIds :=
      map Member.squadId
        (List.filter (fun m => String.eqb (Member.userId m) userId)
           (Db.squad_members d)) in
    match squadIds with
    | [] => {| code := 200; payload := Squads [] |}
    | _ =>
        let squads := map (getSquadWithMembers ctx d) squadIds in
        {| code := 200; payload := Squads (omap id squads) |}
    end.

(** ** GET /:id *)

Definition getSquad (ctx : Ctx) (userId : string) (params_id : option Z)
    (d : Db.t) : Reply :=
  match params_id with
  | None => {| code := 400; payload := Failure "Invalid squad ID" |}
  | Some squadId =>
      match (if fails ctx AtMembership then None
             else membershipOf d squadId userId) with
      | None => notMember
      | Some _ =>
          match getSquadWithMembers ctx d squadId with
          | None => {| code := 404; payload := Failure "Squad not found" |}
          | Some squad => {| code := 200; payload := OneSquad (Some squad) None |}
          end
      end
  end.

(** ** POST /create *)

Definition insertSquad (row : Squad.t) (d : Db.t) : Db.t :=
  {| Db.squads := Db.squads d ++ [row];
     Db.squad_members := Db.squad_members d;
     Db.users := Db.users d;
     Db.chat_messages := Db.chat_messages d;
     Db.next_id := Db.next_id d + 1 |}.

Definition insertMember (row : Member.t) (d : Db.t) : Db.t :=
  {| Db.squads := Db.squads d;
     Db.squad_members := Db.squad_members d ++ [row];
     Db.users := Db.users d;
     Db.chat_messages := Db.chat_messages d;
     Db.next_id := Db.next_id d |}.

(** [name] is [req.body.name] when it is a string; [None] is any other
    value. *)
Definition createSquad (ctx : Ctx) (userId : string) (name : option string)
    (d : Db.t) : Reply * Db.t :=
  match name with
  | None => ({| code := 400; payload := Failure "Squad name is required" |}, d)
  | Some name =>
      if (String.length name =? 0)%nat || (String.length (Text.trim name) =? 0)%nat
      then ({| code := 400; payload := Failure "Squad name is required" |}, d)
      else
        let inviteCode := generateInviteCode (random ctx) in
        if fails ctx AtInsertSquad then (internalError, d)
        else
          let squad := {| Squad.id := Db.next_id d;
                          Squad.name := Text.trim name;
                          Squad.inviteCode := inviteCode |} in
          let d1 := insertSquad squad d in
          if fails ctx AtAddMember then (internalError, d1)
          else
            let d2 := insertMember {| Member.squadId := Squad.id squad;
                                      Member.userId := userId |} d1 in
            let fullSquad := getSquadWithMembers ctx d2 (Squad.id squad) in
            ({| code := 200; payload := OneSquad fullSquad None |}, d2)
  end.

(** ** POST /join *)

(** [inviteCode.trim().toUpperCase()]. *)
Definition normalise (inviteCode : string) : string :=
  Text.toUpperCase (Text.trim inviteCode).

Definition joinSquad (ctx : Ctx) (userId : string) (inviteCode : option string)
    (d : Db.t) : Reply * Db.t :=
  match inviteCode with
  | None => ({| code := 400; payload := Failure "Invite code is required" |}, d)
  | Some inviteCode =>
      if (String.length inviteCode =? 0)%nat
      then ({| code := 400; payload := Failure "Invite code is required" |}, d)
      else
        match (if fails ctx AtFindByCode then None
               else single (List.filter
                              (fun s => String.eqb (Squad.inviteCode s)
                                          (normalise inviteCode))
                              (Db.squads d)))
        with
        | None =>
            ({| code := 404;
                payload := Failure "Squad not found with that invite code" |}, d)
        | Some squad =>
            match (if fails ctx AtExisting then None
                   else membershipOf d (Squad.id squad) userId) with
            | Some _ =>
                ({| code := 200;
                    payload := OneSquad (getSquadWithMembers ctx d (Squad.id squad))
                                 (Some "You are already a member of this squad") |},
                 d)
            | None =>
                if fails ctx AtCount then (internalError, d)
                else
                  let members := userIdsOf d (Squad.id squad) in
                  if (10 <=? length members)%nat
                  then ({| code := 400;
                           payload := Failure "Squad is full (max 10 members)" |}, d)
                  else if fails ctx AtAddMember then (internalError, d)
                  else
                    let d1 := insertMember {| Member.squadId := Squad.id squad;
                                              Member.userId := userId |} d in
                    ({| code := 200;
                        payload := OneSquad
                                     (getSquadWithMembers ctx d1 (Squad.id squad))
                                     None |}, d1)
            end
        end
  end.

(** ** GET /:id/messages *)

(** Ascending by [timestamp]. *)
Definition byTimestamp (a b : Chat.t) : Q :=
  inject_Z (Chat.timestamp a - Chat.timestamp b).

(** [select('*').eq('squadId', squadId).order('timestamp', { ascending:
    true }).limit(200)].  Rows of one timestamp come in the order of the
    table; the store leaves their order open, and no statement below
    depends on it. *)
Definition messagesOf (d : Db.t) (squadId : Z) : list Chat.t :=
  firstn 200
    (sortBy byTimestamp
       (List.filter (fun m => Chat.squadId m =? squadId) (Db.chat_messages d))).

(** [new Map(users.map(u => [u.evmAddress, u]))]: a later row of the
    same address replaces an earlier one. *)
Definition userMapOf (users : list User.t) : gmap string User.t :=
  fold_left (fun m u => <[User.evmAddress u := u]> m) users ∅.

Definition botAuthor : Author.t :=
  {| Author.evmAddress := "bot";
     Author.username := "Bot";
     Author.avatarUrl := "https://api.dicebear.com/9.x/pixel-art/svg?seed=bot" |}.

Definition formatMessage (squadId : Z) (userMap : gmap string User.t)
    (msg : Chat.t) : Formatted.t :=
  let author :=
    if falsy_string (Chat.authorAddress msg) then None
    else userMap !! orString (Chat.authorAddress msg) "" in
  {| Formatted.id := Dec.of_Z (Chat.id msg);
     Formatted.squadId := Dec.of_Z squadId;
     Formatted.author :=
       match author with
       | Some author =>
           {| Author.evmAddress := User.evmAddress author;
              Author.username := orString (User.username author) "Anonymous";
              Author.avatarUrl := avatarOf (User.evmAddress author) |}
       | None => botAuthor
       end;
     Formatted.content := Chat.content msg;
     Formatted.isBot := Chat.isBot msg;
     Formatted.timestamp := Chat.timestamp msg |}.

(** [[...new Set(messages.map(m => m.authorAddress).filter(Boolean))]]. *)
Definition authorAddressesOf (messages : list Chat.t) : list string :=
  remove_dups
    (omap (fun m => if falsy_string (Chat.authorAddress m) then None
                    else Chat.authorAddress m) messages).

Definition getMessages (ctx : Ctx) (userId : string) (params_id : option Z)
    (d : Db.t) : Reply :=
  match params_id with
  | None => {| code := 400; payload := Failure "Invalid squad ID" |}
  | Some squadId =>
      match (if fails ctx AtMembership then None
             else membershipOf d squadId userId) with
      | None => notMember
      | Some _ =>
          if fails ctx AtMessages then internalError
          else
            let messages := messagesOf d squadId in
            let authorAddresses := authorAddressesOf messages in
            if fails ctx AtAuthors then internalError
            else
              let users := usersIn d authorAddresses in
              let userMap := userMapOf users in
              {| code := 200;
                 payload := Messages (map (formatMessage squadId userMap) messages) |}
      end
  end.

(** ** The tables behind the leaderboard routes *)

(** The environment of a leaderboard call whose three table lookups are
    computed from the rows of [d]. *)
Definition onTables (base : Env) (ctx : Ctx) (d : Db.t) : Env :=
  {| clock_read := clock_read base; clock_date := clock_date base;
     clock_write := clock_write base; tza := tza base;
     db_membership := fun squadId userId =>
       if fails ctx AtMembership then DbError
       else match membershipOf d squadId userId with
            | Some row => DbData row
            | None => DbError
            end;
     db_memberRows := fun squadId =>
       if fails ctx (AtMembers squadId) then DbError
       else DbData (userIdsOf d squadId);
     db_users := fun userIds =>
       if fails ctx AtProfiles then DbError else DbData (usersIn d userIds);
     fetch := fetch base;
     select_fails := select_fails base; delete_fails := delete_fails base;
     insert_fails := insert_fails base; delivered := delivered base |}.

(** ** The leaderboard panel of the squad page *)

(** The amount of an entry: [{pnl > 0 ? '+' : ''}${pnl.toFixed(2)}]. *)
Definition amountText (totalLivePnl : Q) : string :=
  (if positive totalLivePnl then "+" else "") +:+ "$" +:+ toFixed2 totalLivePnl.

(** * Vocabulary of the statements *)

(** ** Decimal text *)



(** ** Order of a leaderboard *)

(** [a] may stand before [b] in a leaderboard. *)
Definition descending (a b : Entry.t) : Prop :=
  (Entry.totalLivePnl b <= Entry.totalLivePnl a)%Q.

(** The entries whose total is [v], in their order in [l]. *)
Definition withTotal (v : Q) (l : list Entry.t) : list Entry.t :=
  List.filter (fun e => Qeq_bool (Entry.totalLivePnl e) v) l.

(** [sorted] is [arrival] put in descending order of total, entries of
    equal total staying in their order of arrival. *)
Definition stablySorted (arrival sorted : list Entry.t) : Prop :=
  StronglySorted descending sorted
  /\ Permutation arrival sorted
  /\ forall v, withTotal v sorted = withTotal v arrival.

(** ** The leaderboard query *)

(** The request names squad [squadId] and its caller is a member. *)
Definition authorized (env : Env) (req : Request) (squadId : Z) : Prop :=
  params_id req = Some squadId
  /\ hasData (db_membership env squadId (userId req)) = true.

(** The member list and the profiles are read: [users] are the rows a
    fresh pass works on. *)
Definition membersResolve (env : Env) (squadId : Z) (users : list User.t) : Prop :=
  exists id ids, db_memberRows env squadId = DbData (id :: ids)
                 /\ db_users env (id :: ids) = DbData users.

(** The cache holds nothing usable for the query at the time it looks. *)
Definition cacheMisses (env : Env) (req : Request) (squadId : Z) (s : Sys) : Prop :=
  fst (cache_get (leaderboardKey squadId (timeframeOf req)) (clock_read env)
         (pnlCache s)) = None.

(** The window start of a query. *)
Definition windowOf (env : Env) (req : Request) : option Z :=
  startTimestamp (timeframeOf req) (clock_date env).

(** The entries of a fresh pass of the query, in the order of [users]. *)
Definition queryEntries (env : Env) (req : Request) (users : list User.t)
  : list Entry.t :=
  map (fun u => fst (memberPnl env (timeframeOf req) (windowOf env req) u)) users.

(** The URLs a fresh pass of the query fetches, in order. *)
Definition queryRequests (env : Env) (req : Request) (users : list User.t)
  : list string :=
  concat (map (fun u => snd (memberPnl env (timeframeOf req) (windowOf env req) u))
            users).

(** The address is used: it is present and not empty. *)
Definition hasIdentity (user : User.t) (address : string) : Prop :=
  User.polymarketUserAddress user = Some address /\ address <> EmptyString.


(** A fetch that throws or answers with a non-success status. *)
Definition fetchFails (r : FetchResult) : Prop :=
  match r with
  | Rejected => True
  | Responded ok _ _ => ok = false
  end.

(** The position closed before second [c]. *)
Definition closedBefore (c : Z) (pos : Position.t) : Prop :=
  exists ts, Position.timestamp pos = Some ts /\ (ts < inject_Z c)%Q.

(** The position closed at second [c] or later. *)
Definition closedSince (c : Z) (pos : Position.t) : Prop :=
  exists ts, Position.timestamp pos = Some ts /\ (inject_Z c <= ts)%Q.

(** The position has no timestamp, or a falsy one. *)
Definition noTimestamp (pos : Position.t) : Prop :=
  falsy_field (Position.timestamp pos) = true.

(** ** The winner route *)

(** The winner route finds nothing usable in the cache. *)
Definition winnerCacheMisses (env : Env) (squadId : Z) (s : Sys) : Prop :=
  fst (cache_get (winnerKey squadId) (clock_read env) (pnlCache s)) = None.

(** The entries of the fresh pass of the winner route, in the order of
    [users]. *)
Definition winnerEntries (env : Env) (users : list User.t) : list Entry.t :=
  map (fun u => fst (winnerPnl env u)) users.

(** What [crownWinner] computes along the way. *)
Definition weekOf (env : Env) : Z := weekNumber (tza env) (clock_date env).

Definition newRow (env : Env) (squadId : Z) (winner : Entry.t) : Winner.t :=
  {| Winner.squadId := squadId;
     Winner.winnerAddress := Entry.evmAddress winner;
     Winner.week := weekOf env;
     Winner.pnl := Entry.totalLivePnl winner |}.

Definition existingWinner (env : Env) (squadId : Z) (s : Sys) : option Winner.t :=
  if select_fails env then None
  else match List.filter (sameWeek squadId (weekOf env)) (squad_winners s) with
       | [w] => Some w
       | _ => None
       end.

Definition winnersAfterDelete (env : Env) (squadId : Z) (s : Sys) : list Winner.t :=
  match existingWinner env squadId s with
  | Some _ =>
      if delete_fails env then squad_winners s
      else List.filter (fun w => negb (sameWeek squadId (weekOf env) w))
             (squad_winners s)
  | None => squad_winners s
  end.

Definition deleteOps (env : Env) (squadId : Z) (s : Sys) : list StoreOp :=
  match existingWinner env squadId s with
  | Some _ => [OpDelete squadId (weekOf env)]
  | None => []
  end.

Definition announcement (env : Env) (squadId : Z) (winner : Entry.t) : Broadcast :=
  {| event := "bot:broadcast"; room := squadId;
     message := winnerMessage (weekOf env) (Entry.username winner)
                  (Entry.totalLivePnl winner) |}.

Definition winnerSummary (env : Env) (winner : Entry.t) : Response :=
  {| status := 200;
     body := WinnerCalculated "Winner calculated successfully"
               (Entry.evmAddress winner) (Entry.username winner)
               (Entry.totalLivePnl winner) (weekOf env) |}.

(** The rows of squad [squadId] and week [week]. *)
Definition winnersOf (squadId week : Z) (rows : list Winner.t) : list Winner.t :=
  List.filter (sameWeek squadId week) rows.

(** The invariant of [squad_winners]: at most one row per squad and
    week. *)
Definition atMostOnePerWeek (rows : list Winner.t) : Prop :=
  forall squadId week, (length (winnersOf squadId week rows) <= 1)%nat.

(** The winner store answers the lookup and carries out the delete. *)
Definition storeResponds (env : Env) : Prop :=
  select_fails env = false /\ delete_fails env = false.



(** The environment in which the insert into the winner store fails. *)
Definition withInsertFailure (env : Env) : Env :=
  {| clock_read := clock_read env; clock_date := clock_date env;
     clock_write := clock_write env; tza := tza env;
     db_membership := db_membership env; db_memberRows := db_memberRows env;
     db_users := db_users env; fetch := fetch env;
     select_fails := select_fails env; delete_fails := delete_fails env;
     insert_fails := true; delivered := delivered env |}.

(** ** The states a server reaches *)

(** Every key of the cache is a key of the leaderboard query, with a
    timeframe that is not empty. *)
Definition keysQualified (c : gmap string CacheData) : Prop :=
  forall key, is_Some (c !! key) ->
              exists squadId timeframe,
                timeframe <> EmptyString /\ key = leaderboardKey squadId timeframe.

(** The states of a running server: it starts with an empty cache, and
    serves leaderboard queries and winner calculations one at a time. *)
Inductive reachable : Sys -> Prop :=
| reach_start (s : Sys) :
    pnlCache s = ∅ -> reachable s
| reach_query (env : Env) (req : Request) (s : Sys) :
    reachable s -> reachable (snd (run (getLeaderboard env req) s))
| reach_winner (env : Env) (req : Request) (s : Sys) :
    reachable s -> reachable (snd (run (calculateWinner env req) s)).

(** The states of a server whose winner table starts empty and whose
    winner store responds to every call. *)
Inductive served : Sys -> Prop :=
| served_start (s : Sys) :
    squad_winners s = [] -> served s
| served_query (env : Env) (req : Request) (s : Sys) :
    served s -> served (snd (run (getLeaderboard env req) s))
| served_winner (env : Env) (req : Request) (s : Sys) :
    storeResponds env -> served s ->
    served (snd (run (calculateWinner env req) s)).

(** ** A squad of three, used to run the model

    Alice has no trading identity; Bob has closed one position, worth
    120.50, on 20 October 2025 and holds open positions worth 30; the
    service answers 500 for Carol.  The clock stands at 2 November
    2025, 00:00 UTC. *)
Module Sample.

Definition alice : User.t :=
  {| User.evmAddress := "0xA"; User.username := Some "alice";
     User.avatarUrl := None; User.polymarketUserAddress := None |}.

Definition bob : User.t :=
  {| User.evmAddress := "0xB"; User.username := Some "bob";
     User.avatarUrl := None; User.polymarketUserAddress := Some "0xb0b" |}.

Definition carol : User.t :=
  {| User.evmAddress := "0xC"; User.username := None;
     User.avatarUrl := Some "c.png"; User.polymarketUserAddress := Some "0xca01" |}.

Definition bobClosed : list Position.t :=
  [ {| Position.realizedPnl := Some (1205 # 10);
       Position.timestamp := Some (1760961600 # 1) |} ].


Definition now : Z := 1762041600000.

(** The world of the squad: Bob's open positions are worth [bobOpen],
    the clock stands [seconds] after [now], and the member list lookup
    answers [rows]. *)
Definition world (bobOpen : Q) (seconds : Z) (rows : DbResult (list string)) : Env :=
  {| clock_read := now + seconds * 1000;
     clock_date := now + seconds * 1000;
     clock_write := now + seconds * 1000 + 1000;
     tza := 0;
     db_membership := fun squadId userId =>
       if squadId =? 7
       then DbData {| Member.squadId := squadId; Member.userId := userId |}
       else DbError;
     db_memberRows := fun _ => rows;
     db_users := fun _ => DbData [alice; bob; carol];
     fetch := fun url =>
       if String.eqb url (valueUrl "0xb0b")
       then Responded true 200 (Some (JObject (Some bobOpen)))
       else if String.prefix
                 "https://data-api.polymarket.com/closed-positions?user=0xb0b" url
       then Responded true 200 (Some (JArray bobClosed))
       else Responded false 500 None;
     select_fails := false;
     delete_fails := false;
     insert_fails := false;
     delivered := true |}.

Definition env : Env := world (30 # 1) 0 (DbData ["0xA"; "0xB"; "0xC"]).

(** The same, with another answer to the member list lookup. *)
Definition withMemberRows (rows : DbResult (list string)) : Env :=
  world (30 # 1) 0 rows.

(** The same, [seconds] later. *)
Definition later (seconds : Z) : Env :=
  world (30 # 1) seconds (DbData ["0xA"; "0xB"; "0xC"]).

(** An hour later, Bob's open positions are worth 45. *)
Definition richer : Env := world (45 # 1) 3600 (DbData ["0xA"; "0xB"; "0xC"]).

Definition start : Sys :=
  {| pnlCache := ∅; squad_winners := []; requests := []; broadcasts := [];
     store_ops := [] |}.

Definition query (timeframe : option string) : Request :=
  {| params_id := Some 7; userId := "0xA"; query_timeframe := timeframe |}.

(** The three profiles, and the state after a first all-time query. *)
Definition squad : list User.t := [alice; bob; carol].

Definition afterQuery : Sys := snd (run (getLeaderboard env (query None)) start).

(** The state after a first winner calculation. *)
Definition afterWinner : Sys := snd (run (calculateWinner env (query None)) start).

End Sample.

(** * Vocabulary of the statements on the other routes *)

(** ** Invite codes *)

(** A character of [chars]: a capital letter or a digit. *)
Definition codeChar (c : ascii) : bool :=
  let n := nat_of_ascii c in
  ((65 <=? n)%nat && (n <=? 90)%nat) || Dec.is_digit c.

Fixpoint codeText (s : string) : bool :=
  match s with
  | String c r => codeChar c && codeText r
  | EmptyString => true
  end.

Fixpoint blank (s : string) : bool :=
  match s with
  | String c r => Text.is_space c && blank r
  | EmptyString => true
  end.

(** What [Math.random()] promises of the six draws of a code. *)
Definition fairDraws (random : nat -> Q) : Prop :=
  forall i, (i < 6)%nat -> (0 <= random i)%Q /\ (random i < 1)%Q.

(** Index [k] of [chars] holds one character, of the alphabet. *)
Definition charsAt_ok (k : nat) : bool :=
  match Text.charAt chars (Z.of_nat k) with
  | String c EmptyString => codeChar c
  | _ => false
  end.

(** Case is undone on a character of the alphabet, and it is no space
    in either case. *)
Definition caseChar_ok (k : nat) : bool :=
  let c := ascii_of_nat k in
  if codeChar c
  then Ascii.eqb (Text.upper (Text.lower c)) c
       && Ascii.eqb (Text.upper c) c
       && negb (Text.is_space c) && negb (Text.is_space (Text.lower c))
  else true.

(** A text without white space. *)
Fixpoint solid (s : string) : bool :=
  match s with
  | String c r => negb (Text.is_space c) && solid r
  | EmptyString => true
  end.

(** ** Tables *)

Definition memberRow (squadId : Z) (userId : string) : Member.t :=
  {| Member.squadId := squadId; Member.userId := userId |}.

(** The member rows of a squad, counted as [POST /join] counts them. *)
Definition memberCount (d : Db.t) (squadId : Z) : nat :=
  length (userIdsOf d squadId).

(** The rows the membership check of a route selects. *)
Definition rowsOf (d : Db.t) (squadId : Z) (userId : string) : list Member.t :=
  List.filter (isMembership squadId userId) (Db.squad_members d).

(** The squads an invite code selects. *)
Definition withCode (inviteCode : string) (d : Db.t) : list Squad.t :=
  List.filter (fun s => String.eqb (Squad.inviteCode s) inviteCode) (Db.squads d).

(** The ids of the store: every squad, and every squad a member row
    names, was numbered before [Db.next_id]. *)
Definition wellFormed (d : Db.t) : Prop :=
  Forall (fun s => Squad.id s < Db.next_id d) (Db.squads d)
  /\ Forall (fun m => Member.squadId m < Db.next_id d) (Db.squad_members d).

(** No pair of a squad and a user has two member rows. *)
Definition uniqueRows (d : Db.t) : Prop :=
  forall squadId userId, (length (rowsOf d squadId userId) <= 1)%nat.

(** The rows [getSquadWithMembers] selects its squad from. *)
Definition squadsOf (d : Db.t) (squadId : Z) : list Squad.t :=
  List.filter (fun s => Squad.id s =? squadId) (Db.squads d).

(** [id] is a key of [squads]. *)
Definition uniqueIds (d : Db.t) : Prop :=
  forall squadId, (length (squadsOf d squadId) <= 1)%nat.

(** The squads of a reply of [GET /]. *)
Definition listed (r : Reply) : list FullSquad :=
  match payload r with
  | Squads squads => squads
  | _ => []
  end.

(** Not sent later: the order of [GET /:id/messages]. *)
Definition earlier (a b : Chat.t) : Prop := Chat.timestamp a <= Chat.timestamp b.

(** The same order on the messages as they are sent. *)
Definition earlierSent (a b : Formatted.t) : Prop :=
  Formatted.timestamp a <= Formatted.timestamp b.

(** The messages of a reply of [GET /:id/messages]. *)
Definition sent (r : Reply) : list Formatted.t :=
  match payload r with
  | Messages messages => messages
  | _ => []
  end.

(** The author shown for a user row. *)
Definition authorOf (u : User.t) : Author.t :=
  {| Author.evmAddress := User.evmAddress u;
     Author.username := orString (User.username u) "Anonymous";
     Author.avatarUrl := avatarOf (User.evmAddress u) |}.

(** Every query of the call succeeds. *)
Definition works (ctx : Ctx) : Prop := forall site, fails ctx site = false.

(** A name [POST /create] accepts. *)
Definition named (name : string) : bool :=
  negb ((String.length name =? 0)%nat
        || (String.length (Text.trim name) =? 0)%nat).

Definition codeOf (ctx : Ctx) : string := generateInviteCode (random ctx).

(** The squad row [POST /create] inserts, and the tables after a call
    whose two inserts succeed. *)
Definition newSquad (ctx : Ctx) (name : string) (d : Db.t) : Squad.t :=
  {| Squad.id := Db.next_id d;
     Squad.name := Text.trim name;
     Squad.inviteCode := codeOf ctx |}.

Definition created (ctx : Ctx) (userId name : string) (d : Db.t) : Db.t :=
  insertMember (memberRow (Db.next_id d) userId) (insertSquad (newSquad ctx name d) d).

(** The tables that sequential calls of [POST /create] and [POST /join]
    build from empty ones. *)
Inductive grown : Db.t -> Prop :=
| grown_empty d :
    Db.squads d = [] -> Db.squad_members d = [] -> grown d
| grown_create ctx userId name d :
    grown d -> grown (snd (createSquad ctx userId name d))
| grown_join ctx userId inviteCode d :
    grown d -> grown (snd (joinSquad ctx userId inviteCode d)).

(** ** The leaderboard routes *)

(** Every leaderboard the cache holds is in descending order. *)
Definition cacheSorted (c : gmap string CacheData) : Prop :=
  forall key d, c !! key = Some d -> StronglySorted descending (cached d).

(** The closed positions the window of a timeframe keeps. *)
Definition keptBy (timeframe : string) (now : Z) (l : list Position.t)
  : list Position.t :=
  match filterClosed (startTimestamp timeframe now) (JArray l) with
  | JArray kept => kept
  | _ => []
  end.



(** The statuses a route answers with. *)
Definition answers (codes : list Z) (r : Response) : Prop := In (status r) codes.

(** The total the winner route computes for a member. *)
Definition winnerTotal (env : Env) (user : User.t) : Q :=
  Entry.totalLivePnl (fst (winnerPnl env user)).

(** The winner rows of a squad, of every week. *)
Definition historyOf (squadId : Z) (rows : list Winner.t) : list Winner.t :=
  List.filter (fun w => Winner.squadId w =? squadId) rows.

(** The week numbers a row can carry. *)
Definition weeks : list Z := map Z.of_nat (seq 1 53).

Definition weeksInRange (rows : list Winner.t) : Prop :=
  Forall (fun w => In (Winner.week w) weeks) rows.

(** The four parts of the statement on what the winner route writes,
    once the call has been run to a status and a state. *)
Ltac effects :=
  cbn [fst snd status squad_winners broadcasts store_ops add_requests set_pnlCache];
  split; [cbn; first [now left | now (right; left) | now (right; right; left)
                     | now (right; right; right; left)]|];
  split; [first [discriminate | intros _; eexists; reflexivity]|];
  split; [first [intros _; reflexivity
                | let H := fresh in intros H; exfalso; apply H; reflexivity]|];
  first [intros _; split; reflexivity
        | let H := fresh in intros [H|H]; discriminate].

(** ** More of the sample squad *)

Module Sample2.

(** Six draws of [Math.random()]: 0, 1/6, ..., 5/6. *)
Definition draws (i : nat) : Q := Z.of_nat i # 6.

Definition ok : Ctx := {| fails := fun _ => false; random := draws |}.

Definition empty : Db.t :=
  {| Db.squads := []; Db.squad_members := [];
     Db.users := [Sample.alice; Sample.bob; Sample.carol];
     Db.chat_messages := []; Db.next_id := 1 |}.

(** Alice creates a squad. *)
Definition founded : Db.t :=
  snd (createSquad ok (User.evmAddress Sample.alice) (Some " Whales ") empty).

(** A second squad that happens to draw the code of the first. *)
Definition collided : Db.t :=
  snd (createSquad ok (User.evmAddress Sample.carol) (Some "Minnows") founded).

(** The lookup of the caller's member row fails. *)
Definition blind : Ctx :=
  {| fails := fun site => match site with AtExisting => true | _ => false end;
     random := draws |}.

(** The insert of the member row fails. *)
Definition halfway : Ctx :=
  {| fails := fun site => match site with AtAddMember => true | _ => false end;
     random := draws |}.

(** Three messages of the squad, not in the order of their time; the
    last is of an address without a profile. *)
Definition chatted : Db.t :=
  {| Db.squads := Db.squads collided;
     Db.squad_members := [memberRow 1 "0xA"; memberRow 1 "0xB"];
     Db.users := [Sample.alice; Sample.bob; Sample.carol];
     Db.chat_messages :=
       [ {| Chat.id := 1; Chat.squadId := 1; Chat.authorAddress := Some "0xB";
            Chat.content := "gm"; Chat.isBot := false; Chat.timestamp := 30 |};
         {| Chat.id := 2; Chat.squadId := 1; Chat.authorAddress := None;
            Chat.content := "Week 1 MVP"; Chat.isBot := true; Chat.timestamp := 10 |};
         {| Chat.id := 3; Chat.squadId := 1; Chat.authorAddress := Some "0xD";
            Chat.content := "hello"; Chat.isBot := false; Chat.timestamp := 20 |} ];
     Db.next_id := 3 |}.

(** Bob joins it. *)
Definition joined : Db.t :=
  snd (joinSquad ok (User.evmAddress Sample.bob) (Some " agmsy4") founded).

End Sample2.

(** * Properties *)

(** ** Decimal text *)

Module DecFacts.
Import Dec.

Lemma all_digits_uint (u : Decimal.uint) :
  all_digits (NilEmpty.string_of_uint u) = true.
Proof. induction u; simpl; auto. Qed.

Lemma all_digits_of_N (n : N) : all_digits (of_N n) = true.
Proof. apply all_digits_uint. Qed.








(** No digit, and no minus sign, is a colon. *)
Lemma of_N_no_colon (n : N) (a b : string) : of_N n <> a +:+ ":" +:+ b.
Proof.
  intros H. pose proof (all_digits_of_N n) as Hd. rewrite H in Hd. clear H.
  induction a as [|c a IH]; simpl in Hd; [discriminate|].
  apply andb_prop in Hd as [_ Hd]. auto.
Qed.

End DecFacts.

(** ** Rounding to cents *)

Lemma nearest_cents_floor (x : Q) :
  nearest_cents x = Qfloor (x * 100 + (1 # 2)).
Proof.
  destruct x as [p q]. unfold nearest_cents, Qfloor. simpl.
  f_equal; lia.
Qed.






(** [round2 x] is a whole number of cents, nearest to [x]. *)
Lemma round2_nearest (x : Q) : (Qabs (round2 x - x) <= 1 # 200)%Q.
Proof.
  unfold round2. rewrite <- nearest_cents_floor.
  destruct x as [p q]. unfold nearest_cents, Qabs, Qminus, Qplus, Qopp, Qle.
  cbn [Qnum Qden].
  pose proof (Z.div_mod (200 * Z.abs p + Z.pos q) (2 * Z.pos q) ltac:(lia)) as Hdm.
  pose proof (Z.mod_pos_bound (200 * Z.abs p + Z.pos q) (2 * Z.pos q) ltac:(lia)) as Hb.
  set (n := (200 * Z.abs p + Z.pos q) / (2 * Z.pos q)) in *.
  set (r := (200 * Z.abs p + Z.pos q) mod (2 * Z.pos q)) in *.
  rewrite Pos2Z.inj_mul.
  destruct (Z.sgn_spec p) as [[Hp Hs]|[[Hp Hs]|[Hp Hs]]]; rewrite Hs; nia.
Qed.

(** ** Dates *)

Module DateFacts.
Import Date.

Lemma DayFromYear_cycle (y k : Z) :
  DayFromYear (y + 400 * k) = DayFromYear y + 146097 * k.
Proof.
  unfold DayFromYear.
  replace (y + 400 * k - 1969) with (y - 1969 + (100 * k) * 4) by lia.
  replace (y + 400 * k - 1901) with (y - 1901 + (4 * k) * 100) by lia.
  replace (y + 400 * k - 1601) with (y - 1601 + k * 400) by lia.
  rewrite !Z.div_add by lia. lia.
Qed.

Lemma DayFromYear_next (y : Z) :
  365 <= DayFromYear (y + 1) - DayFromYear y <= 366.
Proof. unfold DayFromYear. Z.to_euclidean_division_equations. lia. Qed.

Lemma year_search_spec (fuel : nat) (y d : Z) :
  DayFromYear y <= d < DayFromYear (y + Z.of_nat fuel) ->
  let y' := year_search fuel y d in
  DayFromYear y' <= d < DayFromYear (y' + 1).
Proof.
  revert y. induction fuel as [|fuel IH]; intros y H; cbn [year_search].
  - rewrite Z.add_0_r in H. lia.
  - destruct (DayFromYear (y + 1) <=? d) eqn:E.
    + apply Z.leb_le in E. apply IH.
      replace (y + 1 + Z.of_nat fuel) with (y + Z.of_nat (S fuel)) by lia. lia.
    + apply Z.leb_gt in E. cbv zeta. lia.
Qed.

Theorem YearFromDay_spec (d : Z) :
  DayFromYear (YearFromDay d) <= d < DayFromYear (YearFromDay d + 1).
Proof.
  unfold YearFromDay.
  pose proof (Z.mod_pos_bound d 146097 ltac:(lia)) as Hr.
  pose proof (Z.div_mod d 146097 ltac:(lia)) as Hd.
  pose proof (year_search_spec 400 1970 (d mod 146097)) as Hs.
  cbv zeta in Hs.
  assert (H0 : DayFromYear 1970 = 0) by reflexivity.
  assert (H4 : DayFromYear (1970 + Z.of_nat 400) = 146097) by reflexivity.
  specialize (Hs ltac:(lia)).
  set (y := year_search 400 1970 (d mod 146097)) in *.
  replace (400 * (d / 146097) + y) with (y + 400 * (d / 146097)) by lia.
  replace (y + 400 * (d / 146097) + 1) with (y + 1 + 400 * (d / 146097)) by lia.
  rewrite !DayFromYear_cycle. lia.
Qed.

Lemma DayFromYear_mono (y1 y2 : Z) : y1 < y2 -> DayFromYear y1 < DayFromYear y2.
Proof.
  unfold DayFromYear. intros H. Z.to_euclidean_division_equations. lia.
Qed.

(** The year of a day is the only year whose days include it. *)
Lemma YearFromDay_unique (d y : Z) :
  DayFromYear y <= d < DayFromYear (y + 1) -> YearFromDay d = y.
Proof.
  intros Hy. pose proof (YearFromDay_spec d) as Hs.
  destruct (Z.lt_trichotomy (YearFromDay d) y) as [Hlt | [Heq | Hgt]];
    [|exact Heq|].
  - assert (H : DayFromYear (YearFromDay d + 1) <= DayFromYear y).
    { destruct (Z.eq_dec (YearFromDay d + 1) y) as [->|Hne]; [lia|].
      apply Z.lt_le_incl, DayFromYear_mono. lia. }
    lia.
  - assert (H : DayFromYear (y + 1) <= DayFromYear (YearFromDay d)).
    { destruct (Z.eq_dec (y + 1) (YearFromDay d)) as [->|Hne]; [lia|].
      apply Z.lt_le_incl, DayFromYear_mono. lia. }
    lia.
Qed.

(** [YearFromTime t] is the largest year that has begun by [t]. *)
Theorem YearFromTime_largest (t : Z) :
  TimeFromYear (YearFromTime t) <= t
  /\ forall y, TimeFromYear y <= t -> y <= YearFromTime t.
Proof.
  unfold TimeFromYear, YearFromTime, Day, msPerDay.
  pose proof (YearFromDay_spec (t / 86400000)) as [Hlo Hhi].
  pose proof (Z.div_mod t 86400000 ltac:(lia)) as Hd.
  pose proof (Z.mod_pos_bound t 86400000 ltac:(lia)) as Hr.
  split; [lia|].
  intros y Hy.
  destruct (Z.le_gt_cases y (YearFromDay (t / 86400000))) as [Hle|Hgt]; [exact Hle|].
  assert (H : DayFromYear (YearFromDay (t / 86400000) + 1) <= DayFromYear y).
  { destruct (Z.eq_dec (YearFromDay (t / 86400000) + 1) y) as [->|Hne]; [lia|].
    apply Z.lt_le_incl, DayFromYear_mono. lia. }
  lia.
Qed.

Lemma DayWithinYear_range (t : Z) : 0 <= DayWithinYear t <= 365.
Proof.
  unfold DayWithinYear, YearFromTime.
  pose proof (YearFromDay_spec (Day t)).
  pose proof (DayFromYear_next (YearFromDay (Day t))). lia.
Qed.

End DateFacts.

(** The week number is the local day within the year, divided by 7 and
    floored, plus 1. *)
Lemma weekNumber_day_of_year (tza now : Z) :
  weekNumber tza now = Date.DayWithinYear (now + tza) / 7 + 1.
Proof.
  unfold weekNumber, Date.newYear, Date.getFullYear, Date.DayWithinYear,
    Date.TimeFromYear, Date.Day.
  set (y := Date.YearFromTime (now + tza)).
  f_equal.
  replace (now - (Date.msPerDay * Date.DayFromYear y - tza))
    with (now + tza + (- Date.DayFromYear y) * Date.msPerDay) by lia.
  change (1000 * 60 * 60 * 24 * 7) with (Date.msPerDay * 7).
  rewrite <- Z.div_div by (unfold Date.msPerDay; lia).
  rewrite Z.div_add by (unfold Date.msPerDay; lia).
  reflexivity.
Qed.

Lemma weekNumber_range (tza now : Z) : 1 <= weekNumber tza now <= 53.
Proof.
  rewrite weekNumber_day_of_year.
  pose proof (DateFacts.DayWithinYear_range (now + tza)).
  Z.to_euclidean_division_equations. lia.
Qed.

(** Two calls on the same local day compute the same week. *)
Lemma weekNumber_same_day (tza t1 t2 : Z) :
  Date.Day (t1 + tza) = Date.Day (t2 + tza) ->
  weekNumber tza t1 = weekNumber tza t2.
Proof.
  intros H. rewrite !weekNumber_day_of_year.
  unfold Date.DayWithinYear, Date.YearFromTime. now rewrite H.
Qed.

(** ** Sorting *)

Lemma positive_compareFn (a b : Entry.t) :
  positive (compareFn a b) = true
  <-> (Entry.totalLivePnl a < Entry.totalLivePnl b)%Q.
Proof.
  unfold positive, compareFn, Qlt, Qminus, Qplus, Qopp.
  destruct (Entry.totalLivePnl a) as [p q], (Entry.totalLivePnl b) as [p' q'].
  cbn [Qnum Qden]. rewrite Z.ltb_lt. lia.
Qed.

Lemma insertBy_perm {A} (cmp : A -> A -> Q) (x : A) (l : list A) :
  Permutation (x :: l) (insertBy cmp x l).
Proof.
  induction l as [|y l IH]; cbn [insertBy]; [reflexivity|].
  destruct (positive (cmp x y)); [|reflexivity].
  rewrite perm_swap. now apply perm_skip.
Qed.

Lemma sortBy_perm {A} (cmp : A -> A -> Q) (l : list A) :
  Permutation l (sortBy cmp l).
Proof.
  induction l as [|x l IH]; cbn [sortBy fold_right]; [reflexivity|].
  rewrite <- insertBy_perm. now apply perm_skip.
Qed.

Lemma insertBy_descending (x : Entry.t) (l : list Entry.t) :
  StronglySorted descending l ->
  StronglySorted descending (insertBy compareFn x l).
Proof.
  induction 1 as [|y l Hl IH Hy]; cbn [insertBy].
  - repeat constructor.
  - destruct (positive (compareFn x y)) eqn:E.
    + apply positive_compareFn in E. constructor; [exact IH|].
      rewrite <- insertBy_perm. constructor; [|exact Hy].
      unfold descending. now apply Qlt_le_weak.
    + assert (Hxy : descending x y).
      { unfold descending. apply Qnot_lt_le. intros Hlt.
        apply positive_compareFn in Hlt. congruence. }
      constructor; [now constructor|].
      constructor; [exact Hxy|].
      eapply Forall_impl; [exact Hy|].
      unfold descending in *. intros z Hz. eapply Qle_trans; eassumption.
Qed.

Lemma sortBy_descending (l : list Entry.t) :
  StronglySorted descending (sortBy compareFn l).
Proof.
  induction l as [|x l IH]; cbn [sortBy fold_right]; [constructor|].
  now apply insertBy_descending.
Qed.

Lemma insertBy_withTotal (v : Q) (x : Entry.t) (l : list Entry.t) :
  withTotal v (insertBy compareFn x l) = withTotal v (x :: l).
Proof.
  unfold withTotal. induction l as [|y l IH]; cbn [insertBy]; [reflexivity|].
  destruct (positive (compareFn x y)) eqn:E; [|reflexivity].
  apply positive_compareFn in E.
  cbn [List.filter] in *. rewrite IH.
  destruct (Qeq_bool (Entry.totalLivePnl x) v) eqn:Ex; [|reflexivity].
  destruct (Qeq_bool (Entry.totalLivePnl y) v) eqn:Ey; [|reflexivity].
  apply Qeq_bool_iff in Ex, Ey. rewrite Ex, Ey in E.
  now apply Qlt_irrefl in E.
Qed.

Lemma sortBy_stable (v : Q) (l : list Entry.t) :
  withTotal v (sortBy compareFn l) = withTotal v l.
Proof.
  induction l as [|x l IH]; cbn [sortBy fold_right]; [reflexivity|].
  rewrite insertBy_withTotal. unfold withTotal in *. cbn [List.filter].
  fold (sortBy compareFn l). now rewrite IH.
Qed.

Lemma withTotal_head (e : Entry.t) (l : list Entry.t) :
  withTotal (Entry.totalLivePnl e) (e :: l)
  = e :: withTotal (Entry.totalLivePnl e) l.
Proof.
  unfold withTotal. cbn [List.filter].
  now rewrite (proj2 (Qeq_bool_iff _ _) (Qeq_refl _)).
Qed.

Lemma withTotal_below (v : Q) (a : Entry.t) (l : list Entry.t) :
  Forall (descending a) l -> (Entry.totalLivePnl a < v)%Q -> withTotal v l = [].
Proof.
  intros Hall Hlt. unfold withTotal.
  induction Hall as [|x l Hx _ IH]; [reflexivity|]. cbn [List.filter].
  destruct (Qeq_bool (Entry.totalLivePnl x) v) eqn:E; [|exact IH].
  apply Qeq_bool_iff in E. unfold descending in Hx. rewrite E in Hx.
  now apply Qle_not_lt in Hx.
Qed.

(** Heads of two descending lists with the same entries per total have
    the same total. *)
Lemma heads_agree (a b : Entry.t) (l1 l2 : list Entry.t) :
  Forall (descending a) l1 ->
  (forall v, withTotal v (a :: l1) = withTotal v (b :: l2)) ->
  (Entry.totalLivePnl b <= Entry.totalLivePnl a)%Q.
Proof.
  intros Hall Hsame. apply Qnot_lt_le. intros Hlt.
  specialize (Hsame (Entry.totalLivePnl b)).
  rewrite withTotal_head in Hsame.
  unfold withTotal at 1 in Hsame. cbn [List.filter] in Hsame.
  destruct (Qeq_bool (Entry.totalLivePnl a) (Entry.totalLivePnl b)) eqn:E.
  - apply Qeq_bool_iff in E. rewrite E in Hlt. now apply Qlt_irrefl in Hlt.
  - fold (withTotal (Entry.totalLivePnl b) l1) in Hsame.
    now rewrite (withTotal_below _ a l1 Hall Hlt) in Hsame.
Qed.

(** A descending list is determined by its entries per total: the
    stable descending order of a list is unique. *)
Lemma descending_unique (l1 l2 : list Entry.t) :
  StronglySorted descending l1 ->
  StronglySorted descending l2 ->
  (forall v, withTotal v l1 = withTotal v l2) ->
  l1 = l2.
Proof.
  intros H1. revert l2.
  induction H1 as [|a l1 Hs1 IH Ha]; intros l2 H2 Hsame.
  - destruct l2 as [|b l2]; [reflexivity|].
    specialize (Hsame (Entry.totalLivePnl b)). rewrite withTotal_head in Hsame.
    discriminate.
  - destruct H2 as [|b l2 Hs2 Hb].
    + specialize (Hsame (Entry.totalLivePnl a)). rewrite withTotal_head in Hsame.
      discriminate.
    + assert (Hab : (Entry.totalLivePnl a == Entry.totalLivePnl b)%Q).
      { apply Qle_antisym.
        - apply (heads_agree b a l2 l1 Hb). intros v. symmetry. apply Hsame.
        - apply (heads_agree a b l1 l2 Ha Hsame). }
      assert (Hhead : a = b /\ forall v, withTotal v l1 = withTotal v l2).
      { split.
        - pose proof (Hsame (Entry.totalLivePnl a)) as H.
          rewrite withTotal_head in H. unfold withTotal in H.
          cbn [List.filter] in H.
          rewrite (proj2 (Qeq_bool_iff _ _) (Qeq_sym _ _ Hab)) in H.
          now injection H.
        - intros v. pose proof (Hsame v) as H. unfold withTotal in *.
          cbn [List.filter] in H.
          destruct (Qeq_bool (Entry.totalLivePnl a) v) eqn:Ea;
            destruct (Qeq_bool (Entry.totalLivePnl b) v) eqn:Eb.
          + now injection H.
          + apply Qeq_bool_iff in Ea. rewrite Hab in Ea.
            apply Qeq_bool_iff in Ea. congruence.
          + apply Qeq_bool_iff in Eb. rewrite <- Hab in Eb.
            apply Qeq_bool_iff in Eb. congruence.
          + exact H. }
      destruct Hhead as [-> Htail]. f_equal. now apply IH.
Qed.

(** ** The per-member pass of the leaderboard query *)


Lemma hasIdentity_truthy (user : User.t) (address : string) :
  hasIdentity user address ->
  falsy_string (User.polymarketUserAddress user) = false
  /\ orString (User.polymarketUserAddress user) "" = address.
Proof.
  intros [Ha Hne]. unfold falsy_string, orString. rewrite Ha.
  destruct (String.eqb_spec address ""); [contradiction|]. auto.
Qed.


(** ** The leaderboard query, path by path *)

Lemma timeframeOf_nonempty (req : Request) : timeframeOf req <> EmptyString.
Proof.
  unfold timeframeOf, orString. destruct (query_timeframe req) as [tf|]; [|discriminate].
  destruct (String.eqb_spec tf ""); [discriminate | assumption].
Qed.

Lemma set_pnlCache_same (s : Sys) : set_pnlCache (pnlCache s) s = s.
Proof. now destruct s. Qed.

Lemma getLeaderboard_hit (env : Env) (req : Request) (s : Sys) (squadId : Z)
    (result : list Entry.t) :
  authorized env req squadId ->
  cache_get (leaderboardKey squadId (timeframeOf req)) (clock_read env) (pnlCache s)
  = (Some result, pnlCache s) ->
  run (getLeaderboard env req) s
  = ({| status := 200; body := Leaderboard result |}, s).
Proof.
  intros [Hid Hm] Hc. unfold run, getLeaderboard, bind, guard, cacheGet.
  rewrite Hid, Hm. cbn. rewrite Hc. cbn.
  now rewrite set_pnlCache_same.
Qed.

Lemma getLeaderboard_fresh (env : Env) (req : Request) (s : Sys) (squadId : Z)
    (users : list User.t) (c : gmap string CacheData) :
  authorized env req squadId ->
  cache_get (leaderboardKey squadId (timeframeOf req)) (clock_read env) (pnlCache s)
  = (None, c) ->
  membersResolve env squadId users ->
  let leaderboard := sortBy compareFn (queryEntries env req users) in
  run (getLeaderboard env req) s
  = ({| status := 200; body := Leaderboard leaderboard |},
     {| pnlCache := cache_set (leaderboardKey squadId (timeframeOf req))
                      leaderboard (clock_write env) c;
        squad_winners := squad_winners s;
        requests := requests s ++ queryRequests env req users;
        broadcasts := broadcasts s;
        store_ops := store_ops s |}).
Proof.
  intros [Hid Hm] Hc (id & ids & Hrows & Husers) leaderboard.
  unfold run, getLeaderboard, bind, guard, cacheGet.
  rewrite Hid, Hm. cbn. rewrite Hc. cbn.
  rewrite Hrows, Husers. reflexivity.
Qed.

Lemma In_sortBy {A} (cmp : A -> A -> Q) (x : A) (l : list A) :
  In x l -> In x (sortBy cmp l).
Proof. apply Permutation_in, sortBy_perm. Qed.

Lemma getLeaderboard_fresh_response (env : Env) (req : Request) (s : Sys)
    (squadId : Z) (users : list User.t) :
  authorized env req squadId ->
  cacheMisses env req squadId s ->
  membersResolve env squadId users ->
  fst (run (getLeaderboard env req) s)
  = {| status := 200;
       body := Leaderboard (sortBy compareFn (queryEntries env req users)) |}.
Proof.
  intros Ha Hc Hm. unfold cacheMisses in Hc.
  destruct (cache_get _ _ _) as [hit c] eqn:E. cbn in Hc; subst hit.
  now rewrite (getLeaderboard_fresh env req s squadId users c Ha E Hm).
Qed.

(** ** C1: the total of a member *)



(** ** C2: the window filter *)

Lemma keepPosition_spec (c : Z) (pos : Position.t) :
  keepPosition c pos = true
  <-> exists ts, Position.timestamp pos = Some ts
                 /\ truthy ts = true /\ (inject_Z c <= ts)%Q.
Proof.
  unfold keepPosition. destruct (Position.timestamp pos) as [ts|].
  - destruct (truthy ts) eqn:Et.
    + rewrite Qle_bool_iff. split.
      * intros H. exists ts. auto.
      * intros (ts' & [= <-] & _ & H). exact H.
    + split; [discriminate|]. intros (ts' & [= <-] & Ht & _). congruence.
  - split; [discriminate|]. intros (ts' & [=] & _).
Qed.

Lemma truthy_positive (x : Q) : (0 < x)%Q -> truthy x = true.
Proof.
  destruct x as [p q]. unfold truthy, Qlt. cbn [Qnum Qden]. intros H.
  apply negb_true_iff, Z.eqb_neq. lia.
Qed.

(** Once the clock is past 8 January 1970 the window start of [daily]
    and [weekly] is a positive number of seconds. *)
Lemma startTimestamp_active (timeframe : string) (now : Z) :
  timeframe = "daily" \/ timeframe = "weekly" ->
  8 * Date.msPerDay <= now ->
  exists c, startTimestamp timeframe now = Some c /\ 0 < c.
Proof.
  unfold startTimestamp, Date.minusDays, Date.msPerDay.
  intros [-> | ->] Hnow; cbn [String.eqb Ascii.eqb Bool.eqb];
    eexists; (split; [reflexivity|]);
    Z.to_euclidean_division_equations; lia.
Qed.

(** C2. With the cutoff of [daily] or [weekly] active, the realized sum
    runs over the positions kept by the filter: a position closed
    before the cutoff is left out, one without a (truthy) timestamp is
    left out, one closed at the cutoff or later is kept.  With [all]
    there is no cutoff and the sum runs over every position. *)
Theorem window_filter (timeframe : string) (now : Z) (l : list Position.t) :
  (timeframe = "daily" \/ timeframe = "weekly" ->
   8 * Date.msPerDay <= now ->
   exists c kept,
     startTimestamp timeframe now = Some c
     /\ cutoffActive (startTimestamp timeframe now) = true
     /\ filterClosed (startTimestamp timeframe now) (JArray l) = JArray kept
     /\ sumRealized (filterClosed (startTimestamp timeframe now) (JArray l))
        = sumPositions kept
     /\ forall pos, In pos l ->
          (closedBefore c pos -> ~ In pos kept)
          /\ (noTimestamp pos -> ~ In pos kept)
          /\ (closedSince c pos -> In pos kept))
  /\ (timeframe = "all" ->
      startTimestamp timeframe now = None
      /\ filterClosed (startTimestamp timeframe now) (JArray l) = JArray l
      /\ sumRealized (filterClosed (startTimestamp timeframe now) (JArray l))
         = sumPositions l).
Proof.
  split.
  - intros Htf Hnow.
    destruct (startTimestamp_active timeframe now Htf Hnow) as (c & Hst & Hc).
    exists c, (List.filter (keepPosition c) l). rewrite Hst.
    assert (Hact : cutoffActive (Some c) = true).
    { cbn. apply negb_true_iff, Z.eqb_neq. lia. }
    repeat split.
    + exact Hact.
    + cbn [filterClosed]. now rewrite Hact.
    + cbn [filterClosed]. now rewrite Hact.
    + intros (ts & Hts & Hlt) Hin.
      apply filter_In in Hin as [_ Hk].
      apply keepPosition_spec in Hk as (ts' & Hts' & _ & Hle).
      rewrite Hts in Hts'. injection Hts' as <-.
      apply (Qlt_not_le _ _ Hlt Hle).
    + intros Hno Hin.
      apply filter_In in Hin as [_ Hk].
      apply keepPosition_spec in Hk as (ts' & Hts' & Ht & _).
      unfold noTimestamp in Hno. rewrite Hts' in Hno. cbn in Hno.
      rewrite Ht in Hno. discriminate.
    + intros (ts & Hts & Hle). apply filter_In. split; [assumption|].
      apply keepPosition_spec. exists ts. repeat split; auto.
      apply truthy_positive. eapply Qlt_le_trans; [|exact Hle].
      unfold Qlt. cbn. lia.
  - intros ->. repeat split.
Qed.

Lemma window_filter_witness :
  exists c kept,
    startTimestamp "weekly" Sample.now = Some c
    /\ cutoffActive (startTimestamp "weekly" Sample.now) = true
    /\ filterClosed (startTimestamp "weekly" Sample.now) (JArray Sample.bobClosed)
       = JArray kept
    /\ sumRealized (filterClosed (startTimestamp "weekly" Sample.now)
                      (JArray Sample.bobClosed))
       = sumPositions kept
    /\ forall pos, In pos Sample.bobClosed ->
         (closedBefore c pos -> ~ In pos kept)
         /\ (noTimestamp pos -> ~ In pos kept)
         /\ (closedSince c pos -> In pos kept).
Proof.
  apply (proj1 (window_filter "weekly" Sample.now Sample.bobClosed)).
  - right. reflexivity.
  - unfold Sample.now, Date.msPerDay. lia.
Defined.

(** ** C4: the week number *)

Lemma weekNumber_53 (tza now : Z) :
  weekNumber tza now = 53 <-> 364 <= Date.DayWithinYear (now + tza).
Proof.
  rewrite weekNumber_day_of_year.
  pose proof (DateFacts.DayWithinYear_range (now + tza)).
  Z.to_euclidean_division_equations. lia.
Qed.

(** On the last day of every year the week number is 53. *)
Lemma weekNumber_last_day (tza y ms : Z) :
  0 <= ms < Date.msPerDay ->
  weekNumber tza (Date.TimeFromYear (y + 1) - Date.msPerDay + ms - tza) = 53.
Proof.
  intros Hms. apply weekNumber_53.
  unfold Date.DayWithinYear, Date.YearFromTime, Date.TimeFromYear.
  replace (Date.msPerDay * Date.DayFromYear (y + 1) - Date.msPerDay + ms - tza + tza)
    with (ms + (Date.DayFromYear (y + 1) - 1) * Date.msPerDay) by lia.
  unfold Date.Day. rewrite Z.div_add by (unfold Date.msPerDay; lia).
  rewrite (Z.div_small ms) by lia. rewrite Z.add_0_l.
  pose proof (DateFacts.DayFromYear_next y) as Hn.
  rewrite (DateFacts.YearFromDay_unique _ y) by lia. lia.
Qed.

(** C4. At noon of 31 December 2025 (UTC) the computed week number is
    53: it is the floor of the day within the year (364) over 7, plus
    1, and it leaves the range 1 to 52. *)
Theorem week_of_31_december :
  Date.getFullYear 0 1767182400000 = 2025
  /\ Date.DayWithinYear 1767182400000 = 364
  /\ weekNumber 0 1767182400000 = 364 / 7 + 1
  /\ weekNumber 0 1767182400000 = 53.
Proof. repeat split; vm_compute; reflexivity. Qed.

(** ** C6: members without data *)

Lemma memberPnl_no_identity (env : Env) (timeframe : string) (st : option Z)
    (user : User.t) :
  falsy_string (User.polymarketUserAddress user) = true ->
  memberPnl env timeframe st user = (queryEntry user 0%Q, []).
Proof. intros H. unfold memberPnl. now rewrite H. Qed.

Lemma memberPnl_fetch_fails (env : Env) (timeframe : string) (st : option Z)
    (user : User.t) (address : string) :
  hasIdentity user address ->
  fetchFails (fetch env (closedUrl address st))
  \/ fetchFails (fetch env (valueUrl address)) ->
  fst (memberPnl env timeframe st user) = queryEntry user 0%Q.
Proof.
  intros Hid Hfail.
  destruct (hasIdentity_truthy _ _ Hid) as [Hf Ha].
  unfold memberPnl. rewrite Hf, Ha. cbn [fst].
  destruct (fetch env (closedUrl address st)) as [|ok1 c1 b1];
    destruct (fetch env (valueUrl address)) as [|ok2 c2 b2];
    cbn in Hfail; try reflexivity.
  destruct Hfail as [-> | ->]; [reflexivity|].
  now rewrite orb_true_r.
Qed.

Lemma queryEntries_length (env : Env) (req : Request) (users : list User.t) :
  length (queryEntries env req users) = length users.
Proof. unfold queryEntries. apply length_map. Qed.

Lemma sortBy_length {A} (cmp : A -> A -> Q) (l : list A) :
  length (sortBy cmp l) = length l.
Proof. symmetry. apply Permutation_length, sortBy_perm. Qed.

(** C6. In a fresh pass of the leaderboard query, a member without a
    trading identity, or one of whose two fetches throws or answers
    with a non-success status, is listed with a total of exactly 0; the
    query answers 200 with one entry per member; and the pass of a
    member without a trading identity fetches nothing, the requests of
    the query being those of its members' passes. *)
Theorem member_failure_yields_zero (env : Env) (req : Request) (s : Sys)
    (squadId : Z) (users : list User.t) (user : User.t) :
  authorized env req squadId ->
  cacheMisses env req squadId s ->
  membersResolve env squadId users ->
  In user users ->
  falsy_string (User.polymarketUserAddress user) = true
  \/ (exists address,
        hasIdentity user address
        /\ (fetchFails (fetch env (closedUrl address (windowOf env req)))
            \/ fetchFails (fetch env (valueUrl address)))) ->
  exists leaderboard,
    fst (run (getLeaderboard env req) s)
    = {| status := 200; body := Leaderboard leaderboard |}
    /\ length leaderboard = length users
    /\ In (queryEntry user 0%Q) leaderboard
    /\ Entry.totalLivePnl (queryEntry user 0%Q) = 0%Q
    /\ requests (snd (run (getLeaderboard env req) s))
       = requests s ++ queryRequests env req users
    /\ (falsy_string (User.polymarketUserAddress user) = true ->
        snd (memberPnl env (timeframeOf req) (windowOf env req) user) = []).
Proof.
  intros Ha Hc Hm Hin Hcase.
  exists (sortBy compareFn (queryEntries env req users)).
  split; [exact (getLeaderboard_fresh_response env req s squadId users Ha Hc Hm)|].
  split; [now rewrite sortBy_length, queryEntries_length|].
  split.
  { apply In_sortBy. unfold queryEntries.
    replace (queryEntry user 0%Q)
      with (fst (memberPnl env (timeframeOf req) (windowOf env req) user)).
    - apply (in_map (fun u => fst (memberPnl env (timeframeOf req)
                                     (windowOf env req) u))), Hin.
    - destruct Hcase as [Hno | (address & Hid & Hfail)].
      + now rewrite memberPnl_no_identity.
      + now apply memberPnl_fetch_fails with (address := address). }
  split; [reflexivity|].
  split.
  { unfold cacheMisses in Hc.
    destruct (cache_get _ _ _) as [hit c] eqn:E. cbn in Hc; subst hit.
    now rewrite (getLeaderboard_fresh env req s squadId users c Ha E Hm). }
  intros Hno. now rewrite memberPnl_no_identity.
Qed.

Lemma member_failure_yields_zero_witness :
  (exists leaderboard,
     fst (run (getLeaderboard Sample.env (Sample.query None)) Sample.start)
     = {| status := 200; body := Leaderboard leaderboard |}
     /\ length leaderboard = 3%nat
     /\ In (queryEntry Sample.alice 0%Q) leaderboard)
  /\ (exists leaderboard,
        fst (run (getLeaderboard Sample.env (Sample.query None)) Sample.start)
        = {| status := 200; body := Leaderboard leaderboard |}
        /\ In (queryEntry Sample.carol 0%Q) leaderboard).
Proof.
  split.
  - destruct (member_failure_yields_zero Sample.env (Sample.query None)
                Sample.start 7 [Sample.alice; Sample.bob; Sample.carol]
                Sample.alice)
      as (leaderboard & Hrun & Hlen & Hin & _).
    + split; reflexivity.
    + reflexivity.
    + exists "0xA", ["0xB"; "0xC"]. split; reflexivity.
    + simpl. auto.
    + left. reflexivity.
    + exists leaderboard. auto.
  - destruct (member_failure_yields_zero Sample.env (Sample.query None)
                Sample.start 7 [Sample.alice; Sample.bob; Sample.carol]
                Sample.carol)
      as (leaderboard & Hrun & _ & Hin & _).
    + split; reflexivity.
    + reflexivity.
    + exists "0xA", ["0xB"; "0xC"]. split; reflexivity.
    + simpl. auto.
    + right. exists "0xca01". split; [split; [reflexivity | discriminate]|].
      left. reflexivity.
    + exists leaderboard. auto.
Defined.

(** ** C7: the order of a computed leaderboard *)

Lemma sortBy_stablySorted (l : list Entry.t) :
  stablySorted l (sortBy compareFn l).
Proof.
  split; [apply sortBy_descending|].
  split; [apply sortBy_perm|].
  intros v. apply sortBy_stable.
Qed.

(** Whatever stable sort the engine runs, its result under this
    comparator is [sortBy compareFn]. *)
Lemma stablySorted_unique (arrival sorted : list Entry.t) :
  stablySorted arrival sorted -> sorted = sortBy compareFn arrival.
Proof.
  intros (Hs & _ & Hst). apply descending_unique; [exact Hs | apply sortBy_descending|].
  intros v. now rewrite Hst, sortBy_stable.
Qed.

Lemma freshLeaderboard_run (env : Env) (squadId : Z) (users : list User.t)
    (s : Sys) :
  membersResolve env squadId users ->
  freshLeaderboard env squadId s
  = (Next (sortBy compareFn (winnerEntries env users)),
     add_requests (concat (map (fun u => snd (winnerPnl env u)) users)) s).
Proof.
  intros (id & ids & Hrows & Husers).
  unfold freshLeaderboard. rewrite Hrows, Husers. reflexivity.
Qed.

Lemma winnerLeaderboard_miss (env : Env) (squadId : Z) (s : Sys) :
  winnerCacheMisses env squadId s ->
  winnerLeaderboard env squadId s
  = freshLeaderboard env squadId
      (set_pnlCache
         (snd (cache_get (winnerKey squadId) (clock_read env) (pnlCache s))) s).
Proof.
  unfold winnerCacheMisses, winnerLeaderboard, bind, cacheGet.
  destruct (cache_get _ _ _) as [hit c]. cbn. now intros ->.
Qed.

(** C7. The leaderboard a fresh pass of the query returns, and the one
    the fresh pass of the winner route picks its winner from, are the
    members' entries in descending order of total, entries of equal
    total keeping their order of arrival. *)
Theorem computed_leaderboard_sorted (env : Env) (req : Request) (s : Sys)
    (squadId : Z) (users : list User.t) :
  membersResolve env squadId users ->
  (authorized env req squadId ->
   cacheMisses env req squadId s ->
   exists leaderboard,
     fst (run (getLeaderboard env req) s)
     = {| status := 200; body := Leaderboard leaderboard |}
     /\ stablySorted (queryEntries env req users) leaderboard)
  /\ (winnerCacheMisses env squadId s ->
      exists leaderboard,
        fst (winnerLeaderboard env squadId s) = Next leaderboard
        /\ stablySorted (winnerEntries env users) leaderboard).
Proof.
  intros Hm. split.
  - intros Ha Hc. eexists.
    split; [exact (getLeaderboard_fresh_response env req s squadId users Ha Hc Hm)|].
    apply sortBy_stablySorted.
  - intros Hc. eexists. rewrite (winnerLeaderboard_miss _ _ _ Hc).
    rewrite (freshLeaderboard_run _ _ users _ Hm). cbn [fst].
    split; [reflexivity | apply sortBy_stablySorted].
Qed.

Lemma computed_leaderboard_sorted_witness :
  (exists leaderboard,
     fst (run (getLeaderboard Sample.env (Sample.query None)) Sample.start)
     = {| status := 200; body := Leaderboard leaderboard |}
     /\ stablySorted
          (queryEntries Sample.env (Sample.query None)
             [Sample.alice; Sample.bob; Sample.carol]) leaderboard)
  /\ (exists leaderboard,
        fst (winnerLeaderboard Sample.env 7 Sample.start) = Next leaderboard
        /\ stablySorted
             (winnerEntries Sample.env [Sample.alice; Sample.bob; Sample.carol])
             leaderboard).
Proof.
  destruct (computed_leaderboard_sorted Sample.env (Sample.query None)
              Sample.start 7 [Sample.alice; Sample.bob; Sample.carol])
    as [Hquery Hwinner].
  - exists "0xA", ["0xB"; "0xC"]. split; reflexivity.
  - split.
    + apply Hquery; [split; reflexivity | reflexivity].
    + apply Hwinner. reflexivity.
Defined.

(** The order in the sample squad: Bob first, then Alice and Carol, who
    tie at 0, in their order of arrival. *)
Example sample_order :
  map Entry.evmAddress
    (sortBy compareFn (queryEntries Sample.env (Sample.query None)
                         [Sample.alice; Sample.bob; Sample.carol]))
  = ["0xB"; "0xA"; "0xC"].
Proof. vm_compute. reflexivity. Qed.

(** ** C10: a failed member lookup *)

(** C10. When the member list cannot be read, the query answers as it
    does for a squad without members: 200 with an empty leaderboard in
    both cases, not an internal error, and no request is issued. *)
Theorem member_lookup_failure_is_empty (env env' : Env) (req : Request)
    (s : Sys) (squadId : Z) :
  authorized env req squadId ->
  authorized env' req squadId ->
  cacheMisses env req squadId s ->
  cacheMisses env' req squadId s ->
  db_memberRows env squadId = DbError ->
  db_memberRows env' squadId = DbData [] ->
  fst (run (getLeaderboard env req) s)
  = {| status := 200; body := Leaderboard [] |}
  /\ fst (run (getLeaderboard env' req) s)
     = {| status := 200; body := Leaderboard [] |}
  /\ requests (snd (run (getLeaderboard env req) s)) = requests s.
Proof.
  intros [Hid Hm] [_ Hm'] Hc Hc' Hrows Hrows'.
  unfold cacheMisses in Hc, Hc'.
  unfold run, getLeaderboard, bind, guard, cacheGet.
  rewrite Hid, Hm, Hm'. cbn.
  destruct (cache_get _ (clock_read env) _) as [hit c].
  destruct (cache_get _ (clock_read env') _) as [hit' c'].
  cbn in Hc, Hc'. subst hit hit'. cbn. rewrite Hrows, Hrows'. auto.
Qed.

Lemma member_lookup_failure_is_empty_witness :
  fst (run (getLeaderboard (Sample.withMemberRows DbError) (Sample.query None))
         Sample.start)
  = {| status := 200; body := Leaderboard [] |}
  /\ fst (run (getLeaderboard (Sample.withMemberRows (DbData []))
                 (Sample.query None)) Sample.start)
     = {| status := 200; body := Leaderboard [] |}
  /\ requests (snd (run (getLeaderboard (Sample.withMemberRows DbError)
                           (Sample.query None)) Sample.start))
     = requests Sample.start.
Proof.
  apply (member_lookup_failure_is_empty
           (Sample.withMemberRows DbError) (Sample.withMemberRows (DbData []))
           (Sample.query None) Sample.start 7).
  - split; reflexivity.
  - split; reflexivity.
  - reflexivity.
  - reflexivity.
  - reflexivity.
  - reflexivity.
Defined.

(** ** C5: the time to live of a cached leaderboard *)

Lemma cache_set_lookup (key : string) (v : list Entry.t) (now : Z)
    (c : gmap string CacheData) :
  cache_set key v now c !! key
  = Some {| cached := v; expires := now + stdTTL * 1000 |}.
Proof. unfold cache_set. apply lookup_insert_eq. Qed.

Lemma cache_get_fresh (key : string) (now : Z) (c : gmap string CacheData)
    (d : CacheData) :
  c !! key = Some d -> now <= expires d ->
  cache_get key now c = (Some (cached d), c).
Proof.
  intros Hk Ht. unfold cache_get. rewrite Hk.
  destruct (expires d <? now) eqn:E; [apply Z.ltb_lt in E; lia | reflexivity].
Qed.

Lemma cache_get_stale (key : string) (now : Z) (c : gmap string CacheData)
    (d : CacheData) :
  c !! key = Some d -> expires d < now ->
  cache_get key now c = (None, delete key c).
Proof.
  intros Hk Ht. unfold cache_get. rewrite Hk.
  destruct (expires d <? now) eqn:E; [reflexivity | apply Z.ltb_ge in E; lia].
Qed.

(** C5. Let the cache hold, for the pair of the query, the leaderboard
    [written] at time value [w].  A query that looks at most 30 seconds
    after [w] answers [written] and leaves the state as it is: no
    request is issued.  A query that looks later than that misses; it
    runs one fresh pass, whose requests are the only ones issued,
    answers its result and stores it under the same key, to expire 30
    seconds after the time of this write. *)
Theorem cache_time_to_live (env : Env) (req : Request) (s : Sys) (squadId : Z)
    (written : list Entry.t) (w : Z) :
  authorized env req squadId ->
  pnlCache s !! leaderboardKey squadId (timeframeOf req)
  = Some {| cached := written; expires := w + 30 * 1000 |} ->
  (clock_read env - w <= 30 * 1000 ->
   run (getLeaderboard env req) s
   = ({| status := 200; body := Leaderboard written |}, s))
  /\ (30 * 1000 < clock_read env - w ->
      forall users, membersResolve env squadId users ->
      let fresh := sortBy compareFn (queryEntries env req users) in
      let s' := snd (run (getLeaderboard env req) s) in
      fst (run (getLeaderboard env req) s)
      = {| status := 200; body := Leaderboard fresh |}
      /\ requests s' = requests s ++ queryRequests env req users
      /\ pnlCache s' !! leaderboardKey squadId (timeframeOf req)
         = Some {| cached := fresh; expires := clock_write env + 30 * 1000 |}).
Proof.
  intros Ha Hk. split.
  - intros Ht. apply (getLeaderboard_hit env req s squadId written Ha).
    apply (cache_get_fresh _ _ _ _ Hk). cbn. lia.
  - intros Ht users Hm fresh s'.
    assert (Hget : cache_get (leaderboardKey squadId (timeframeOf req))
                     (clock_read env) (pnlCache s)
                   = (None, delete (leaderboardKey squadId (timeframeOf req))
                              (pnlCache s))).
    { apply (cache_get_stale _ _ _ _ Hk). cbn. lia. }
    unfold s'. rewrite (getLeaderboard_fresh env req s squadId users _ Ha Hget Hm).
    cbn [fst snd requests pnlCache]. repeat split. apply cache_set_lookup.
Qed.

Lemma cache_time_to_live_witness :
  run (getLeaderboard (Sample.later 20) (Sample.query None)) Sample.afterQuery
  = (fst (run (getLeaderboard Sample.env (Sample.query None)) Sample.start),
     Sample.afterQuery)
  /\ requests (snd (run (getLeaderboard (Sample.later 40) (Sample.query None))
                      Sample.afterQuery))
     = requests Sample.afterQuery
       ++ queryRequests (Sample.later 40) (Sample.query None) Sample.squad.
Proof.
  destruct (cache_time_to_live (Sample.later 20) (Sample.query None)
              Sample.afterQuery 7
              (sortBy compareFn
                 (queryEntries Sample.env (Sample.query None) Sample.squad))
              (Sample.now + 1000)) as [Hhit _].
  { split; reflexivity. }
  { vm_compute. reflexivity. }
  destruct (cache_time_to_live (Sample.later 40) (Sample.query None)
              Sample.afterQuery 7
              (sortBy compareFn
                 (queryEntries Sample.env (Sample.query None) Sample.squad))
              (Sample.now + 1000)) as [_ Hmiss].
  { split; reflexivity. }
  { vm_compute. reflexivity. }
  split.
  - apply Hhit. vm_compute. discriminate.
  - apply (Hmiss ltac:(vm_compute; reflexivity) Sample.squad).
    exists "0xA", ["0xB"; "0xC"]. split; reflexivity.
Defined.

(** ** C9: the two shapes of cache key *)

Lemma of_Z_no_colon (z : Z) (a b : string) : Dec.of_Z z <> a +:+ ":" +:+ b.
Proof.
  unfold Dec.of_Z. destruct (z <? 0).
  - destruct a as [|c a]; cbn; [discriminate|].
    intros [= _ H]. now apply DecFacts.of_N_no_colon in H.
  - apply DecFacts.of_N_no_colon.
Qed.

Lemma keys_differ (squadId squadId' : Z) (timeframe : string) :
  leaderboardKey squadId timeframe <> winnerKey squadId'.
Proof.
  unfold leaderboardKey, winnerKey. cbn. intros [= H].
  symmetry in H. now apply of_Z_no_colon in H.
Qed.




Lemma keysQualified_empty : keysQualified ∅.
Proof. intros key [d Hd]. now rewrite lookup_empty in Hd. Qed.

Lemma keysQualified_delete (key : string) (c : gmap string CacheData) :
  keysQualified c -> keysQualified (delete key c).
Proof.
  intros Hc k [d Hd]. apply Hc.
  destruct (decide (key = k)) as [->|Hne].
  - now rewrite lookup_delete_eq in Hd.
  - rewrite lookup_delete_ne in Hd by assumption. eauto.
Qed.

Lemma keysQualified_get (key : string) (now : Z) (c : gmap string CacheData) :
  keysQualified c -> keysQualified (snd (cache_get key now c)).
Proof.
  intros Hc. unfold cache_get. destruct (c !! key) as [d|]; [|exact Hc].
  destruct (expires d <? now); [now apply keysQualified_delete | exact Hc].
Qed.

Lemma keysQualified_set (squadId : Z) (timeframe : string) (v : list Entry.t)
    (now : Z) (c : gmap string CacheData) :
  timeframe <> EmptyString ->
  keysQualified c ->
  keysQualified (cache_set (leaderboardKey squadId timeframe) v now c).
Proof.
  intros Htf Hc k [d Hd]. unfold cache_set in Hd.
  destruct (decide (leaderboardKey squadId timeframe = k)) as [<-|Hne].
  - eauto.
  - rewrite lookup_insert_ne in Hd by assumption. apply Hc. eauto.
Qed.

Lemma keysQualified_winnerKey (c : gmap string CacheData) (squadId : Z) :
  keysQualified c -> c !! winnerKey squadId = None.
Proof.
  intros Hc. destruct (c !! winnerKey squadId) as [d|] eqn:E; [|reflexivity].
  destruct (Hc (winnerKey squadId)) as (sq & tf & _ & Hkey); [eauto|].
  symmetry in Hkey. now apply keys_differ in Hkey.
Qed.

(** The cache after a leaderboard query: untouched, or looked up, or
    looked up and written under the key of the query. *)
Lemma getLeaderboard_cache (env : Env) (req : Request) (s : Sys) :
  let c' := pnlCache (snd (run (getLeaderboard env req) s)) in
  c' = pnlCache s
  \/ exists squadId,
       let key := leaderboardKey squadId (timeframeOf req) in
       let looked := snd (cache_get key (clock_read env) (pnlCache s)) in
       c' = looked
       \/ exists v, c' = cache_set key v (clock_write env) looked.
Proof.
  unfold run, getLeaderboard, bind, guard, cacheGet.
  destruct (params_id req) as [squadId|]; [|now left].
  destruct (hasData _); [|now left]. cbn.
  right. exists squadId.
  destruct (cache_get _ _ _) as [[result|] c]; cbn; [now left|].
  destruct (db_memberRows env squadId) as [|[|id ids]]; cbn; [now left | now left|].
  destruct (db_users env (id :: ids)) as [|users]; cbn; [now left|].
  right. eauto.
Qed.

Lemma getLeaderboard_keys (env : Env) (req : Request) (s : Sys) :
  keysQualified (pnlCache s) ->
  keysQualified (pnlCache (snd (run (getLeaderboard env req) s))).
Proof.
  intros Hc.
  destruct (getLeaderboard_cache env req s) as [-> | (sq & [-> | (v & ->)])].
  - exact Hc.
  - now apply keysQualified_get.
  - apply keysQualified_set; [apply timeframeOf_nonempty|].
    now apply keysQualified_get.
Qed.

(** ** The winner route, path by path *)

Lemma crownWinner_run (env : Env) (squadId : Z) (winner : Entry.t) (s : Sys) :
  run (crownWinner env squadId winner) s
  = if insert_fails env
    then ({| status := 500; body := ErrorBody "Failed to save winner" |},
          {| pnlCache := pnlCache s;
             squad_winners := winnersAfterDelete env squadId s;
             requests := requests s;
             broadcasts := broadcasts s;
             store_ops := store_ops s ++ deleteOps env squadId s
                          ++ [OpInsert (newRow env squadId winner)] |})
    else (winnerSummary env winner,
          {| pnlCache := pnlCache s;
             squad_winners := winnersAfterDelete env squadId s
                              ++ [newRow env squadId winner];
             requests := requests s;
             broadcasts := broadcasts s ++ [announcement env squadId winner];
             store_ops := store_ops s ++ deleteOps env squadId s
                          ++ [OpInsert (newRow env squadId winner)] |}).
Proof.
  unfold run, crownWinner, bind, selectWinner, winnersAfterDelete, deleteOps.
  fold (weekOf env). fold (existingWinner env squadId s).
  destruct (existingWinner env squadId s) as [old|];
    unfold deleteWinner, ret, insertWinner, guard, emit, respond, set_winners,
      add_broadcast;
    destruct (insert_fails env); cbn;
    rewrite <- ?app_assoc; reflexivity.
Qed.

Lemma calculateWinner_run (env : Env) (req : Request) (s : Sys) :
  run (calculateWinner env req) s
  = match params_id req with
    | None => ({| status := 400; body := Message "Invalid squad ID" |}, s)
    | Some squadId =>
        if hasData (db_membership env squadId (userId req))
        then match winnerLeaderboard env squadId s with
             | (Answer r, s1) => (r, s1)
             | (Next [], s1) =>
                 ({| status := 400;
                     body := Message "No leaderboard data available" |}, s1)
             | (Next (winner :: _), s1) =>
                 run (crownWinner env squadId winner) s1
             end
        else ({| status := 403;
                 body := Message "You are not a member of this squad" |}, s)
    end.
Proof.
  unfold run at 1. unfold calculateWinner, bind, guard.
  destruct (params_id req) as [squadId|]; [|reflexivity].
  destruct (hasData _); [|reflexivity]. cbn.
  destruct (winnerLeaderboard env squadId s) as [[r|[|winner rest]] s1];
    reflexivity.
Qed.

(** The leaderboard stage touches the cache and the request log only,
    and when it answers, it answers with an error. *)
Lemma winnerLeaderboard_frame (env : Env) (squadId : Z) (s : Sys) :
  let s1 := snd (winnerLeaderboard env squadId s) in
  squad_winners s1 = squad_winners s
  /\ broadcasts s1 = broadcasts s
  /\ store_ops s1 = store_ops s
  /\ pnlCache s1
     = snd (cache_get (winnerKey squadId) (clock_read env) (pnlCache s))
  /\ forall r, fst (winnerLeaderboard env squadId s) = Answer r -> status r <> 200.
Proof.
  unfold winnerLeaderboard, freshLeaderboard, bind, cacheGet.
  destruct (cache_get _ _ _) as [[leaderboard|] c]; cbn.
  { repeat split. discriminate. }
  destruct (db_memberRows env squadId) as [|[|id ids]]; cbn;
    try (repeat split; intros r [= <-]; discriminate).
  destruct (db_users env (id :: ids)) as [|users]; cbn;
    repeat split; try discriminate; intros r [= <-]; discriminate.
Qed.

Lemma crownWinner_cache (env : Env) (squadId : Z) (winner : Entry.t) (s : Sys) :
  pnlCache (snd (run (crownWinner env squadId winner) s)) = pnlCache s.
Proof. rewrite crownWinner_run. now destruct (insert_fails env). Qed.

Lemma calculateWinner_keys (env : Env) (req : Request) (s : Sys) :
  keysQualified (pnlCache s) ->
  keysQualified (pnlCache (snd (run (calculateWinner env req) s))).
Proof.
  intros Hc. rewrite calculateWinner_run.
  destruct (params_id req) as [squadId|]; [|exact Hc].
  destruct (hasData _); [|exact Hc].
  destruct (winnerLeaderboard_frame env squadId s) as (_ & _ & _ & Hcache & _).
  destruct (winnerLeaderboard env squadId s) as [[r|[|winner rest]] s1];
    cbn [snd] in *; rewrite ?crownWinner_cache, Hcache;
    now apply keysQualified_get.
Qed.

Lemma reachable_keys (s : Sys) : reachable s -> keysQualified (pnlCache s).
Proof.
  induction 1 as [s H| env req s _ IH | env req s _ IH].
  - rewrite H. apply keysQualified_empty.
  - now apply getLeaderboard_keys.
  - now apply calculateWinner_keys.
Qed.



(** The cache of the sample is not empty when the winner route looks:
    it holds the all-time leaderboard of the squad, under the key of
    the query. *)
Example sample_cache_holds_all :
  is_Some (pnlCache Sample.afterQuery !! leaderboardKey 7 "all").
Proof. vm_compute. eauto. Qed.

(** ** C3: one winner per squad and week *)

Lemma sameWeek_newRow (env : Env) (squadId : Z) (winner : Entry.t) :
  sameWeek squadId (weekOf env) (newRow env squadId winner) = true.
Proof. unfold sameWeek, newRow. cbn. now rewrite !Z.eqb_refl. Qed.

Lemma filter_none_of_rest {A} (f : A -> bool) (l : list A) :
  List.filter f (List.filter (fun x => negb (f x)) l) = [].
Proof.
  induction l as [|x l IH]; [reflexivity|]. cbn.
  destruct (f x) eqn:E; cbn; [exact IH|]. now rewrite E.
Qed.

Lemma filter_rest_all {A} (f : A -> bool) (l : list A) :
  List.filter f l = [] -> List.filter (fun x => negb (f x)) l = l.
Proof.
  induction l as [|x l IH]; [reflexivity|]. cbn.
  destruct (f x); cbn; [discriminate|]. intros H. now rewrite IH.
Qed.


(** With a store that responds, [crownWinner] leaves exactly the new
    row for its squad and week when there was at most one before. *)
Lemma winnersAfterDelete_none (env : Env) (squadId : Z) (s : Sys) :
  storeResponds env ->
  (length (winnersOf squadId (weekOf env) (squad_winners s)) <= 1)%nat ->
  winnersAfterDelete env squadId s
  = List.filter (fun w => negb (sameWeek squadId (weekOf env) w)) (squad_winners s)
  /\ deleteOps env squadId s
     = match winnersOf squadId (weekOf env) (squad_winners s) with
       | [] => []
       | _ => [OpDelete squadId (weekOf env)]
       end.
Proof.
  intros [Hsel Hdel] Hone.
  unfold winnersAfterDelete, deleteOps, existingWinner, winnersOf in *.
  rewrite Hsel, Hdel.
  destruct (List.filter (sameWeek squadId (weekOf env)) (squad_winners s))
    as [|old [|other rest]] eqn:E; cbn in Hone; try lia.
  - now rewrite (filter_rest_all _ _ E).
  - auto.
Qed.


(** *** The invariant is kept *)

Lemma filter_filter_length {A} (f g : A -> bool) (l : list A) :
  (length (List.filter f (List.filter g l)) <= length (List.filter f l))%nat.
Proof.
  induction l as [|x l IH]; [reflexivity|]. cbn.
  destruct (g x), (f x) eqn:E; cbn; rewrite ?E; cbn; lia.
Qed.

Lemma sameWeek_inj (squadId week squadId' week' : Z) (w : Winner.t) :
  sameWeek squadId week w = true -> sameWeek squadId' week' w = true ->
  squadId' = squadId /\ week' = week.
Proof. unfold sameWeek. lia. Qed.

Lemma crownWinner_keeps_invariant (env : Env) (squadId : Z) (winner : Entry.t)
    (s : Sys) :
  storeResponds env ->
  atMostOnePerWeek (squad_winners s) ->
  atMostOnePerWeek (squad_winners (snd (run (crownWinner env squadId winner) s))).
Proof.
  intros Hstore Hinv.
  destruct (winnersAfterDelete_none env squadId s Hstore (Hinv _ _)) as [Hafter _].
  rewrite crownWinner_run.
  assert (Hrest : atMostOnePerWeek (winnersAfterDelete env squadId s)).
  { intros sq wk. rewrite Hafter. unfold winnersOf.
    etransitivity; [apply filter_filter_length | apply Hinv]. }
  destruct (insert_fails env); cbn [snd squad_winners]; [exact Hrest|].
  intros sq wk. unfold winnersOf. rewrite List.filter_app, length_app.
  cbn [List.filter].
  destruct (sameWeek sq wk (newRow env squadId winner)) eqn:E; cbn [length].
  - destruct (sameWeek_inj _ _ _ _ _ (sameWeek_newRow env squadId winner) E)
      as [-> ->].
    rewrite Hafter, filter_none_of_rest. cbn. lia.
  - specialize (Hrest sq wk). unfold winnersOf in Hrest. lia.
Qed.

Lemma calculateWinner_keeps_invariant (env : Env) (req : Request) (s : Sys) :
  storeResponds env ->
  atMostOnePerWeek (squad_winners s) ->
  atMostOnePerWeek (squad_winners (snd (run (calculateWinner env req) s))).
Proof.
  intros Hstore Hinv. rewrite calculateWinner_run.
  destruct (params_id req) as [squadId|]; [|exact Hinv].
  destruct (hasData _); [|exact Hinv].
  destruct (winnerLeaderboard_frame env squadId s) as (Hw & _).
  destruct (winnerLeaderboard env squadId s) as [[r|[|winner rest]] s1];
    cbn [snd] in *; try (now rewrite Hw).
  apply crownWinner_keeps_invariant; [exact Hstore | now rewrite Hw].
Qed.

Lemma getLeaderboard_winners (env : Env) (req : Request) (s : Sys) :
  squad_winners (snd (run (getLeaderboard env req) s)) = squad_winners s.
Proof.
  unfold run, getLeaderboard, bind, guard, cacheGet.
  destruct (params_id req) as [squadId|]; [|reflexivity].
  destruct (hasData _); [|reflexivity]. cbn.
  destruct (cache_get _ _ _) as [[result|] c]; cbn; [reflexivity|].
  destruct (db_memberRows env squadId) as [|[|id ids]]; cbn; try reflexivity.
  destruct (db_users env (id :: ids)) as [|users]; reflexivity.
Qed.

(** Calls made one after the other keep at most one row per squad and
    week. *)
Lemma served_invariant (s : Sys) :
  served s -> atMostOnePerWeek (squad_winners s).
Proof.
  induction 1 as [s H | env req s _ IH | env req s Hstore _ IH].
  - rewrite H. intros sq wk. cbn. lia.
  - now rewrite getLeaderboard_winners.
  - now apply calculateWinner_keeps_invariant.
Qed.


(** ** C8: persistence and the announcement *)

Lemma toFixed2_nonneg (y : Q) :
  0 <= Qnum y ->
  toFixed2 y
  = Dec.of_N (Z.to_N (nearest_cents y / 100))
    +:+ "." +:+ Dec.two_digits (nearest_cents y mod 100).
Proof.
  intros Hy. unfold toFixed2.
  assert (Habs : Qabs y = y).
  { destruct y as [p q]. cbn in *. now rewrite Z.abs_eq. }
  rewrite Habs.
  destruct (Qnum y <? 0) eqn:E; [apply Z.ltb_lt in E; lia | reflexivity].
Qed.






(** The announcement of the sample squad. *)
Example sample_announcement :
  map message
    (broadcasts (snd (run (calculateWinner Sample.env (Sample.query None))
                        Sample.start)))
  = [trophy +:+ " Week 44 MVP: bob with +$150.50 PnL! Congratulations! " +:+ party].
Proof. vm_compute. reflexivity. Qed.

(** ** The scenarios of the specification, run on the sample squad *)

(** The all-time leaderboard is 150.50, 0, 0. *)
Example sample_all_time :
  match fst (run (getLeaderboard Sample.env (Sample.query None)) Sample.start) with
  | {| status := 200; body := Leaderboard l |} =>
      map (fun e => (Entry.username e, Qred (Entry.totalLivePnl e))) l
  | _ => []
  end
  = [("bob", 301 # 2); ("alice", 0); ("Anonymous", 0)]%Q.
Proof. vm_compute. reflexivity. Qed.

(** The weekly leaderboard leaves out Bob's position, closed 13 days
    before the query, and his open positions. *)
Example sample_weekly :
  match fst (run (getLeaderboard Sample.env (Sample.query (Some "weekly")))
               Sample.start) with
  | {| status := 200; body := Leaderboard l |} =>
      map (fun e => (Entry.username e, Qred (Entry.totalLivePnl e))) l
  | _ => []
  end
  = [("alice", 0); ("bob", 0); ("Anonymous", 0)]%Q.
Proof. vm_compute. reflexivity. Qed.

(** Only Bob and Carol are asked for upstream. *)
Example sample_requests :
  requests Sample.afterQuery
  = [closedUrl "0xb0b" None; valueUrl "0xb0b";
     closedUrl "0xca01" None; valueUrl "0xca01"].
Proof. vm_compute. reflexivity. Qed.

(** * Properties of the other routes *)

(** ** X1, X2: invite codes *)

Lemma charsAt_table : forallb charsAt_ok (seq 0 36) = true.
Proof. vm_compute. reflexivity. Qed.

Lemma caseChar_table : forallb caseChar_ok (seq 0 256) = true.
Proof. vm_compute. reflexivity. Qed.

Lemma pick_char (r : Q) :
  (0 <= r)%Q -> (r < 1)%Q ->
  exists c, Text.charAt chars
              (Qfloor (r * inject_Z (Z.of_nat (String.length chars))))
            = String c EmptyString
            /\ codeChar c = true.
Proof.
  intros H0 H1. change (Z.of_nat (String.length chars)) with 36.
  set (k := Qfloor (r * inject_Z 36)).
  assert (Hk : 0 <= k < 36).
  { unfold k. destruct r as [p q]. unfold Qle, Qlt in *. cbn in *.
    unfold Qfloor, Qmult, inject_Z. cbn [Qnum Qden].
    rewrite Pos.mul_1_r. split.
    - apply Z.div_pos; lia.
    - apply Z.div_lt_upper_bound; lia. }
  pose proof (proj1 (forallb_forall _ _) charsAt_table (Z.to_nat k)) as H.
  specialize (H ltac:(apply in_seq; lia)). unfold charsAt_ok in H.
  rewrite Z2Nat.id in H by lia.
  destruct (Text.charAt chars k) as [|c [|c' s]]; try discriminate. eauto.
Qed.

Lemma codeText_app (a b : string) :
  codeText (a +:+ b) = codeText a && codeText b.
Proof.
  induction a as [|c a IH]; [reflexivity|].
  change (String c a +:+ b) with (String c (a +:+ b)). cbn [codeText].
  now rewrite IH, andb_assoc.
Qed.

Lemma length_append (a b : string) :
  String.length (a +:+ b) = (String.length a + String.length b)%nat.
Proof.
  induction a as [|c a IH]; [reflexivity|].
  change (String c a +:+ b) with (String c (a +:+ b)). cbn. now rewrite IH.
Qed.

Lemma appendChar_fair (code : string) (r : Q) :
  (0 <= r)%Q -> (r < 1)%Q ->
  String.length (appendChar code r) = S (String.length code)
  /\ (codeText code = true -> codeText (appendChar code r) = true).
Proof.
  intros H0 H1. destruct (pick_char r H0 H1) as (c & Hc & Hok).
  unfold appendChar. rewrite Hc. split.
  - rewrite length_append. cbn. lia.
  - intros Hcode. rewrite codeText_app, Hcode. cbn. now rewrite Hok.
Qed.

Lemma generateInviteCode_shape (random : nat -> Q) :
  fairDraws random ->
  String.length (generateInviteCode random) = 6%nat
  /\ codeText (generateInviteCode random) = true.
Proof.
  intros Hfair. unfold generateInviteCode. cbn [seq fold_left].
  assert (Hstep : forall code i, (i < 6)%nat ->
            String.length (appendChar code (random i)) = S (String.length code)
            /\ (codeText code = true ->
                codeText (appendChar code (random i)) = true)).
  { intros code i Hi. destruct (Hfair i Hi). now apply appendChar_fair. }
  repeat match goal with
         | |- context [appendChar ?code (random ?i)] =>
             lazymatch goal with
             | H : String.length (appendChar code (random i)) = _ |- _ => fail
             | _ => destruct (Hstep code i ltac:(lia)) as [? ?]
             end
         end.
  split.
  - repeat match goal with H : String.length _ = _ |- _ => rewrite H; clear H end.
    reflexivity.
  - auto 10.
Qed.

(** X1. An invite code drawn with [Math.random()] in [0, 1) has six
    characters, each a capital letter or a digit. *)
Theorem invite_code_shape (random : nat -> Q) :
  fairDraws random ->
  String.length (generateInviteCode random) = 6%nat
  /\ codeText (generateInviteCode random) = true.
Proof. apply generateInviteCode_shape. Qed.

Lemma invite_code_shape_witness :
  String.length (generateInviteCode Sample2.draws) = 6%nat
  /\ codeText (generateInviteCode Sample2.draws) = true.
Proof.
  apply (invite_code_shape Sample2.draws).
  intros i Hi. unfold Sample2.draws, Qle, Qlt. cbn. lia.
Defined.

Lemma trimStart_blank (pre s : string) :
  blank pre = true -> Text.trimStart (pre +:+ s) = Text.trimStart s.
Proof.
  induction pre as [|c pre IH]; [reflexivity|].
  change (String c pre +:+ s) with (String c (pre +:+ s)). cbn.
  intros H. apply andb_prop in H as [Hc Hpre]. now rewrite Hc, IH.
Qed.

Lemma trimEnd_blank (post : string) :
  blank post = true -> Text.trimEnd post = EmptyString.
Proof.
  induction post as [|c post IH]; [reflexivity|]. cbn.
  intros H. apply andb_prop in H as [Hc Hpost]. now rewrite IH, Hc.
Qed.

Lemma trimEnd_solid (t post : string) :
  solid t = true -> blank post = true -> Text.trimEnd (t +:+ post) = t.
Proof.
  intros Ht Hpost. induction t as [|c t IH].
  - now apply trimEnd_blank.
  - change (String c t +:+ post) with (String c (t +:+ post)).
    cbn in *. apply andb_prop in Ht as [Hc Ht]. rewrite (IH Ht).
    apply negb_true_iff in Hc. rewrite Hc. now destruct t.
Qed.

Lemma trimStart_solid (t post : string) :
  solid t = true -> blank post = true ->
  Text.trimEnd (Text.trimStart (t +:+ post)) = t.
Proof.
  intros Ht Hpost. destruct t as [|c t].
  - change ("" +:+ post) with post.
    assert (H : Text.trimStart post = EmptyString).
    { clear Ht. induction post as [|c post IH]; [reflexivity|]. cbn in *.
      apply andb_prop in Hpost as [Hc Hpost]. now rewrite Hc, IH. }
    now rewrite H.
  - change (String c t +:+ post) with (String c (t +:+ post)).
    pose proof Ht as Hc. cbn in Hc. apply andb_prop in Hc as [Hc _].
    apply negb_true_iff in Hc. cbn [Text.trimStart]. rewrite Hc.
    change (String c (t +:+ post)) with (String c t +:+ post).
    now apply trimEnd_solid.
Qed.

(** White space around a text without white space is trimmed away. *)
Lemma trim_padded (pre t post : string) :
  blank pre = true -> solid t = true -> blank post = true ->
  Text.trim (pre +:+ t +:+ post) = t.
Proof.
  intros Hpre Ht Hpost. unfold Text.trim.
  rewrite (trimStart_blank _ _ Hpre). now apply trimStart_solid.
Qed.

Lemma codeChar_case (c : ascii) :
  codeChar c = true ->
  Text.upper (Text.lower c) = c /\ Text.upper c = c
  /\ Text.is_space c = false /\ Text.is_space (Text.lower c) = false.
Proof.
  intros Hc.
  pose proof (proj1 (forallb_forall _ _) caseChar_table (nat_of_ascii c)) as H.
  specialize (H ltac:(apply in_seq; pose proof (nat_ascii_bounded c); lia)).
  unfold caseChar_ok in H. rewrite ascii_nat_embedding, Hc in H.
  apply andb_prop in H as [H H4]. apply andb_prop in H as [H H3].
  apply andb_prop in H as [H1 H2].
  apply Ascii.eqb_eq in H1, H2. apply negb_true_iff in H3, H4. auto.
Qed.

Lemma codeText_case (s : string) :
  codeText s = true ->
  Text.toUpperCase (Text.toLowerCase s) = s /\ Text.toUpperCase s = s
  /\ solid s = true /\ solid (Text.toLowerCase s) = true.
Proof.
  induction s as [|c s IH]; [auto|]. cbn. intros H.
  apply andb_prop in H as [Hc Hs].
  destruct (codeChar_case c Hc) as (H1 & H2 & H3 & H4).
  destruct (IH Hs) as (I1 & I2 & I3 & I4).
  now rewrite H1, H2, H3, H4, I1, I2, I3, I4.
Qed.

(** X2. The text [POST /join] looks a squad up by is the generated code
    itself, whether the caller sends the code as generated or in small
    letters, and whatever white space surrounds it. *)
Theorem invite_code_normalised (random : nat -> Q) (pre post : string) :
  fairDraws random ->
  blank pre = true -> blank post = true ->
  let code := generateInviteCode random in
  normalise (pre +:+ code +:+ post) = code
  /\ normalise (pre +:+ Text.toLowerCase code +:+ post) = code.
Proof.
  intros Hfair Hpre Hpost code.
  destruct (generateInviteCode_shape random Hfair) as [_ Hcode]. fold code in Hcode.
  destruct (codeText_case code Hcode) as (H1 & H2 & H3 & H4).
  unfold normalise. now rewrite !trim_padded, H1, H2.
Qed.

Lemma invite_code_normalised_witness :
  normalise ("  " +:+ generateInviteCode Sample2.draws +:+ " ")
  = generateInviteCode Sample2.draws
  /\ normalise ("  " +:+ Text.toLowerCase (generateInviteCode Sample2.draws) +:+ " ")
     = generateInviteCode Sample2.draws.
Proof.
  apply (invite_code_normalised Sample2.draws "  " " ").
  - intros i Hi. unfold Sample2.draws, Qle, Qlt. cbn. lia.
  - reflexivity.
  - reflexivity.
Defined.

(** The code of the sample draws. *)
Example sample_code : generateInviteCode Sample2.draws = "AGMSY4".
Proof. vm_compute. reflexivity. Qed.

(** ** The tables under [POST /create] and [POST /join] *)

Lemma filter_none {A} (f : A -> bool) (l : list A) :
  Forall (fun x => f x = false) l -> List.filter f l = [].
Proof.
  induction 1 as [|x l Hx _ IH]; [reflexivity|]. cbn. rewrite Hx. exact IH.
Qed.

Lemma createSquad_run (ctx : Ctx) (userId name : string) (d : Db.t) :
  named name = true ->
  fails ctx AtInsertSquad = false -> fails ctx AtAddMember = false ->
  createSquad ctx userId (Some name) d
  = ({| code := 200;
        payload := OneSquad (getSquadWithMembers ctx (created ctx userId name d)
                               (Db.next_id d)) None |},
     created ctx userId name d).
Proof.
  unfold createSquad, named. intros Hn H1 H2.
  destruct (_ || _); [discriminate|]. rewrite H1, H2. reflexivity.
Qed.

Lemma createSquad_effect (ctx : Ctx) (userId : string) (name : option string)
    (d : Db.t) :
  let d' := snd (createSquad ctx userId name d) in
  d' = d
  \/ (exists n, d' = insertSquad (newSquad ctx n d) d)
  \/ (exists n, d' = created ctx userId n d).
Proof.
  unfold createSquad. destruct name as [n|]; [|left; reflexivity].
  destruct (_ || _); [left; reflexivity|].
  destruct (fails ctx AtInsertSquad); [left; reflexivity|].
  destruct (fails ctx AtAddMember); right; [left|right]; exists n; reflexivity.
Qed.

Lemma single_In {A} (rows : list A) (row : A) :
  single rows = Some row -> rows = [row].
Proof.
  destruct rows as [|r [|r' rows]]; cbn; intros H; try discriminate.
  injection H as ->. reflexivity.
Qed.

Lemma withCode_In (inviteCode : string) (d : Db.t) (squad : Squad.t) :
  single (withCode inviteCode d) = Some squad ->
  In squad (Db.squads d) /\ Squad.inviteCode squad = inviteCode.
Proof.
  intros H. apply single_In in H.
  assert (Hin : In squad (withCode inviteCode d)) by (rewrite H; left; reflexivity).
  unfold withCode in Hin. apply List.filter_In in Hin. destruct Hin as [Hin He].
  split; [exact Hin|]. apply String.eqb_eq. exact He.
Qed.

Lemma joinSquad_effect (ctx : Ctx) (userId : string) (inviteCode : option string)
    (d : Db.t) :
  let d' := snd (joinSquad ctx userId inviteCode d) in
  d' = d
  \/ exists squad,
       In squad (Db.squads d)
       /\ (memberCount d (Squad.id squad) < 10)%nat
       /\ (fails ctx AtExisting = false -> rowsOf d (Squad.id squad) userId = []
           \/ (2 <= length (rowsOf d (Squad.id squad) userId))%nat)
       /\ d' = insertMember (memberRow (Squad.id squad) userId) d.
Proof.
  unfold joinSquad. destruct inviteCode as [c|]; [|left; reflexivity].
  destruct (_ =? _)%nat; [left; reflexivity|].
  destruct (fails ctx AtFindByCode); [left; reflexivity|].
  fold (withCode (normalise c) d).
  destruct (single (withCode (normalise c) d)) as [squad|] eqn:Hs;
    [|left; reflexivity].
  apply withCode_In in Hs. destruct Hs as [Hin _].
  destruct (if fails ctx AtExisting then None
            else membershipOf d (Squad.id squad) userId) eqn:He;
    [left; reflexivity|].
  destruct (fails ctx AtCount); [left; reflexivity|].
  destruct (10 <=? _)%nat eqn:Hc; [left; reflexivity|].
  destruct (fails ctx AtAddMember); [left; reflexivity|].
  right. exists squad. split; [exact Hin|]. split.
  { apply Nat.leb_gt in Hc. exact Hc. }
  split; [|reflexivity].
  intros Hf. rewrite Hf in He. unfold membershipOf in He.
  fold (rowsOf d (Squad.id squad) userId) in He.
  destruct (rowsOf d (Squad.id squad) userId) as [|r [|r' rows]];
    [left; reflexivity|discriminate|right; cbn; lia].
Qed.

Lemma memberCount_insertMember (row : Member.t) (d : Db.t) (squadId : Z) :
  memberCount (insertMember row d) squadId
  = (memberCount d squadId + (if inSquad squadId row then 1 else 0))%nat.
Proof.
  unfold memberCount, userIdsOf. cbn [insertMember Db.squad_members].
  rewrite List.filter_app, List.map_app, List.length_app. cbn.
  destruct (inSquad squadId row); reflexivity.
Qed.

Lemma userIdsOf_fresh (d : Db.t) :
  wellFormed d -> userIdsOf d (Db.next_id d) = [].
Proof.
  intros [_ Hm]. unfold userIdsOf. rewrite filter_none; [reflexivity|].
  eapply List.Forall_impl; [|exact Hm]. cbn. intros m Hlt.
  unfold inSquad. apply Z.eqb_neq. lia.
Qed.

Lemma rowsOf_fresh (d : Db.t) (userId : string) :
  wellFormed d -> rowsOf d (Db.next_id d) userId = [].
Proof.
  intros [_ Hm]. unfold rowsOf. rewrite filter_none; [reflexivity|].
  eapply List.Forall_impl; [|exact Hm]. cbn. intros m Hlt.
  unfold isMembership. replace (_ =? _) with false; [reflexivity|].
  symmetry. apply Z.eqb_neq. lia.
Qed.

Lemma squad_fresh (d : Db.t) :
  wellFormed d ->
  List.filter (fun s => Squad.id s =? Db.next_id d) (Db.squads d) = [].
Proof.
  intros [Hs _]. rewrite filter_none; [reflexivity|].
  eapply List.Forall_impl; [|exact Hs]. cbn. intros s Hlt. apply Z.eqb_neq. lia.
Qed.

Lemma wellFormed_insertSquad (ctx : Ctx) (n : string) (d : Db.t) :
  wellFormed d -> wellFormed (insertSquad (newSquad ctx n d) d).
Proof.
  intros [Hs Hm]. split; cbn.
  - apply Forall_app. split.
    + eapply List.Forall_impl; [|exact Hs]. cbn. lia.
    + constructor; [cbn; lia|constructor].
  - eapply List.Forall_impl; [|exact Hm]. cbn. lia.
Qed.

Lemma wellFormed_insertMember (squadId : Z) (userId : string) (d : Db.t) :
  squadId < Db.next_id d ->
  wellFormed d -> wellFormed (insertMember (memberRow squadId userId) d).
Proof.
  intros Hlt [Hs Hm]. split; cbn; [exact Hs|].
  apply Forall_app. split; [exact Hm|]. constructor; [exact Hlt|constructor].
Qed.

Lemma wellFormed_created (ctx : Ctx) (userId n : string) (d : Db.t) :
  wellFormed d -> wellFormed (created ctx userId n d).
Proof.
  intros H. unfold created. apply wellFormed_insertMember.
  - cbn. lia.
  - apply wellFormed_insertSquad. exact H.
Qed.

Lemma createSquad_wellFormed (ctx : Ctx) (userId : string) (name : option string)
    (d : Db.t) :
  wellFormed d -> wellFormed (snd (createSquad ctx userId name d)).
Proof.
  intros H.
  destruct (createSquad_effect ctx userId name d) as [->|[[n ->]|[n ->]]].
  - exact H.
  - apply wellFormed_insertSquad. exact H.
  - apply wellFormed_created. exact H.
Qed.

Lemma joinSquad_wellFormed (ctx : Ctx) (userId : string)
    (inviteCode : option string) (d : Db.t) :
  wellFormed d -> wellFormed (snd (joinSquad ctx userId inviteCode d)).
Proof.
  intros H.
  destruct (joinSquad_effect ctx userId inviteCode d)
    as [->|(squad & Hin & _ & _ & ->)]; [exact H|].
  apply wellFormed_insertMember; [|exact H].
  destruct H as [Hs _]. rewrite List.Forall_forall in Hs. apply Hs. exact Hin.
Qed.

Lemma grown_wellFormed (d : Db.t) : grown d -> wellFormed d.
Proof.
  induction 1 as [d Hs Hm| |].
  - split; [rewrite Hs|rewrite Hm]; constructor.
  - apply createSquad_wellFormed. assumption.
  - apply joinSquad_wellFormed. assumption.
Qed.

(** X3. However the calls of [POST /create] and [POST /join] follow one
    another from empty tables, and whichever of their queries fail, no
    squad ever has more than ten member rows. *)
Theorem squad_capacity (d : Db.t) (squadId : Z) :
  grown d -> (memberCount d squadId <= 10)%nat.
Proof.
  intros H. revert squadId.
  induction H as [d Hs Hm|ctx userId name d H IH|ctx userId inviteCode d H IH];
    intros squadId.
  - unfold memberCount, userIdsOf. rewrite Hm. cbn. lia.
  - destruct (createSquad_effect ctx userId name d) as [->|[[n ->]|[n ->]]].
    + apply IH.
    + apply IH.
    + unfold created. rewrite memberCount_insertMember.
      change (memberCount (insertSquad _ d) squadId) with (memberCount d squadId).
      unfold inSquad. cbn [memberRow Member.squadId].
      destruct (Z.eqb_spec (Db.next_id d) squadId) as [<-|_].
      * unfold memberCount. rewrite userIdsOf_fresh by (apply grown_wellFormed, H).
        cbn. lia.
      * specialize (IH squadId). lia.
  - destruct (joinSquad_effect ctx userId inviteCode d)
      as [->|(squad & _ & Hc & _ & ->)]; [apply IH|].
    rewrite memberCount_insertMember. unfold inSquad. cbn [memberRow Member.squadId].
    destruct (Z.eqb_spec (Squad.id squad) squadId) as [<-|_].
    + lia.
    + specialize (IH squadId). lia.
Qed.

Lemma squad_capacity_witness :
  (memberCount Sample2.joined 1 <= 10)%nat.
Proof.
  apply (squad_capacity Sample2.joined 1).
  apply grown_join, grown_create, grown_empty; reflexivity.
Defined.

(** The sample squad has its two members. *)
Example sample_joined : userIdsOf Sample2.joined 1 = ["0xA"; "0xB"].
Proof. vm_compute. reflexivity. Qed.

(** ** Creating, then joining *)

Lemma getSquadWithMembers_works (ctx : Ctx) (d : Db.t) (squadId : Z)
    (row : Squad.t) :
  works ctx ->
  List.filter (fun s => Squad.id s =? squadId) (Db.squads d) = [row] ->
  exists members,
    getSquadWithMembers ctx d squadId = Some {| squad := row; members := members |}.
Proof.
  intros Hw Hs. unfold getSquadWithMembers. rewrite !Hw, Hs. cbn.
  destruct (userIdsOf d squadId); eauto.
Qed.

Lemma getSquad_member (ctx : Ctx) (d : Db.t) (squadId : Z) (userId : string)
    (row : Squad.t) (m : Member.t) :
  works ctx ->
  List.filter (fun s => Squad.id s =? squadId) (Db.squads d) = [row] ->
  rowsOf d squadId userId = [m] ->
  code (getSquad ctx userId (Some squadId) d) = 200.
Proof.
  intros Hw Hs Hm. unfold getSquad, membershipOf.
  fold (rowsOf d squadId userId). rewrite Hw, Hm. cbn.
  destruct (getSquadWithMembers_works ctx d squadId row Hw Hs) as [ms ->].
  reflexivity.
Qed.

Lemma normalise_nonempty (typed : string) (random : nat -> Q) :
  fairDraws random ->
  normalise typed = generateInviteCode random ->
  (String.length typed =? 0)%nat = false.
Proof.
  intros Hfair Hn. destruct typed; [|reflexivity].
  destruct (generateInviteCode_shape random Hfair) as [Hlen _].
  rewrite <- Hn in Hlen. discriminate.
Qed.

Lemma withCode_created (c : string) (ctx : Ctx) (userId n : string) (d : Db.t) :
  withCode c (created ctx userId n d)
  = withCode c d ++ (if String.eqb (codeOf ctx) c then [newSquad ctx n d] else []).
Proof.
  unfold withCode. cbn [created insertMember insertSquad Db.squads].
  rewrite List.filter_app. reflexivity.
Qed.

Lemma rowsOf_insertMember (row : Member.t) (d : Db.t) (squadId : Z)
    (userId : string) :
  rowsOf (insertMember row d) squadId userId
  = rowsOf d squadId userId
    ++ (if isMembership squadId userId row then [row] else []).
Proof.
  unfold rowsOf. cbn [insertMember Db.squad_members].
  rewrite List.filter_app. reflexivity.
Qed.

Lemma userIdsOf_insertMember (row : Member.t) (d : Db.t) (squadId : Z) :
  userIdsOf (insertMember row d) squadId
  = userIdsOf d squadId
    ++ (if inSquad squadId row then [Member.userId row] else []).
Proof.
  unfold userIdsOf. cbn [insertMember Db.squad_members].
  rewrite List.filter_app, List.map_app. cbn. destruct (inSquad squadId row); reflexivity.
Qed.

Lemma isMembership_memberRow (squadId : Z) (userId other : string) :
  isMembership squadId userId (memberRow squadId other) = String.eqb other userId.
Proof. unfold isMembership. cbn. rewrite Z.eqb_refl. reflexivity. Qed.

Lemma rowsOf_created (ctx : Ctx) (creator n userId : string) (d : Db.t) :
  wellFormed d ->
  rowsOf (created ctx creator n d) (Db.next_id d) userId
  = if String.eqb creator userId then [memberRow (Db.next_id d) creator] else [].
Proof.
  intros Hwf. unfold created. rewrite rowsOf_insertMember.
  change (rowsOf (insertSquad _ d) (Db.next_id d) userId)
    with (rowsOf d (Db.next_id d) userId).
  rewrite rowsOf_fresh by exact Hwf.
  change (Db.next_id (insertSquad (newSquad ctx n d) d)) with (Db.next_id d + 1).
  cbn [app]. rewrite isMembership_memberRow. reflexivity.
Qed.

Lemma userIdsOf_created (ctx : Ctx) (creator n : string) (d : Db.t) :
  wellFormed d ->
  userIdsOf (created ctx creator n d) (Db.next_id d) = [creator].
Proof.
  intros Hwf. unfold created. rewrite userIdsOf_insertMember.
  change (userIdsOf (insertSquad _ d) (Db.next_id d))
    with (userIdsOf d (Db.next_id d)).
  rewrite userIdsOf_fresh by exact Hwf.
  unfold inSquad. cbn. rewrite Z.eqb_refl. reflexivity.
Qed.

Lemma squad_created (ctx : Ctx) (creator n : string) (d : Db.t) :
  wellFormed d ->
  List.filter (fun s => Squad.id s =? Db.next_id d)
    (Db.squads (created ctx creator n d))
  = [newSquad ctx n d].
Proof.
  intros Hwf. cbn [created insertMember insertSquad Db.squads].
  rewrite List.filter_app, squad_fresh by exact Hwf. cbn.
  rewrite Z.eqb_refl. reflexivity.
Qed.

Lemma joinSquad_already (ctx : Ctx) (userId typed : string) (d : Db.t)
    (row : Squad.t) (m : Member.t) :
  (String.length typed =? 0)%nat = false ->
  fails ctx AtFindByCode = false -> fails ctx AtExisting = false ->
  withCode (normalise typed) d = [row] ->
  rowsOf d (Squad.id row) userId = [m] ->
  joinSquad ctx userId (Some typed) d
  = ({| code := 200;
        payload := OneSquad (getSquadWithMembers ctx d (Squad.id row))
                     (Some "You are already a member of this squad") |}, d).
Proof.
  intros Ht Hf He Hc Hm. unfold joinSquad, membershipOf.
  rewrite Ht, Hf, He. fold (withCode (normalise typed) d). rewrite Hc.
  cbn [single]. fold (rowsOf d (Squad.id row) userId). rewrite Hm. reflexivity.
Qed.

Lemma joinSquad_added (ctx : Ctx) (userId typed : string) (d : Db.t)
    (row : Squad.t) :
  (String.length typed =? 0)%nat = false ->
  fails ctx AtFindByCode = false ->
  withCode (normalise typed) d = [row] ->
  fails ctx AtExisting = true \/ single (rowsOf d (Squad.id row) userId) = None ->
  fails ctx AtCount = false ->
  (memberCount d (Squad.id row) < 10)%nat ->
  fails ctx AtAddMember = false ->
  let d1 := insertMember (memberRow (Squad.id row) userId) d in
  joinSquad ctx userId (Some typed) d
  = ({| code := 200;
        payload := OneSquad (getSquadWithMembers ctx d1 (Squad.id row)) None |}, d1).
Proof.
  intros Ht Hf Hc He Hn Hlt Ha. unfold joinSquad, membershipOf.
  rewrite Ht, Hf, Hn, Ha. fold (withCode (normalise typed) d). rewrite Hc.
  cbn [single]. fold (rowsOf d (Squad.id row) userId).
  replace (if fails ctx AtExisting then None
           else single (rowsOf d (Squad.id row) userId)) with (@None Member.t)
    by (destruct He as [->| ->]; [reflexivity|destruct (fails ctx AtExisting); reflexivity]).
  fold (memberCount d (Squad.id row)).
  replace (10 <=? memberCount d (Squad.id row))%nat with false
    by (symmetry; apply Nat.leb_gt; exact Hlt).
  reflexivity.
Qed.

(** X4. A squad created with a code no other squad has can be joined
    with that code, typed in any way that trims and capitalises to it:
    the join answers 200, the squad then has the creator and the joiner
    as its member rows, and [GET /:id] shows it to the joiner. *)
Theorem create_then_join (ctx ctx' : Ctx) (creator joiner name typed : string)
    (d : Db.t) :
  wellFormed d ->
  fairDraws (random ctx) ->
  named name = true ->
  fails ctx AtInsertSquad = false -> fails ctx AtAddMember = false ->
  withCode (codeOf ctx) d = [] ->
  normalise typed = codeOf ctx ->
  works ctx' ->
  let d1 := snd (createSquad ctx creator (Some name) d) in
  let answer := joinSquad ctx' joiner (Some typed) d1 in
  code (fst answer) = 200
  /\ userIdsOf (snd answer) (Db.next_id d)
     = (if String.eqb creator joiner then [creator] else [creator; joiner])
  /\ forall ctx'', works ctx'' ->
       code (getSquad ctx'' joiner (Some (Db.next_id d)) (snd answer)) = 200.
Proof.
  intros Hwf Hfair Hn Hi Ha Hfresh Htyped Hw. cbv zeta.
  rewrite createSquad_run by assumption. cbn [snd].
  set (d1 := created ctx creator name d).
  pose proof (normalise_nonempty typed (random ctx) Hfair Htyped) as Hne.
  assert (Hcode : withCode (normalise typed) d1 = [newSquad ctx name d]).
  { rewrite Htyped. unfold d1. rewrite withCode_created, Hfresh.
    rewrite String.eqb_refl. reflexivity. }
  pose proof (rowsOf_created ctx creator name joiner d Hwf) as Hrows.
  fold d1 in Hrows.
  pose proof (userIdsOf_created ctx creator name d Hwf) as Hids. fold d1 in Hids.
  pose proof (squad_created ctx creator name d Hwf) as Hsq. fold d1 in Hsq.
  destruct (String.eqb creator joiner) eqn:He.
  - rewrite (joinSquad_already ctx' joiner typed d1 _ _ Hne (Hw _) (Hw _) Hcode Hrows).
    cbn [fst snd code]. split; [reflexivity|]. split; [exact Hids|].
    intros ctx'' Hw''. eapply getSquad_member; eassumption.
  - rewrite (joinSquad_added ctx' joiner typed d1 _ Hne (Hw _) Hcode).
    + cbn [fst snd code newSquad Squad.id].
      split; [reflexivity|]. split.
      * rewrite userIdsOf_insertMember, Hids.
        unfold inSquad. cbn. rewrite Z.eqb_refl. reflexivity.
      * intros ctx'' Hw''.
        eapply getSquad_member; [exact Hw''|exact Hsq|].
        rewrite rowsOf_insertMember, Hrows.
        rewrite isMembership_memberRow, String.eqb_refl. reflexivity.
    + right. cbn [newSquad Squad.id]. rewrite Hrows. reflexivity.
    + apply Hw.
    + unfold memberCount. cbn [newSquad Squad.id]. rewrite Hids. cbn. lia.
    + apply Hw.
Qed.

Lemma create_then_join_witness :
  code (fst (joinSquad Sample2.ok "0xB" (Some " agmsy4") Sample2.founded)) = 200
  /\ userIdsOf Sample2.joined 1 = ["0xA"; "0xB"]
  /\ forall ctx'', works ctx'' ->
       code (getSquad ctx'' "0xB" (Some 1) Sample2.joined) = 200.
Proof.
  apply (create_then_join Sample2.ok Sample2.ok "0xA" "0xB" " Whales " " agmsy4"
           Sample2.empty).
  - split; constructor.
  - intros i Hi. unfold Sample2.ok, random, Sample2.draws, Qle, Qlt. cbn. lia.
  - reflexivity.
  - reflexivity.
  - reflexivity.
  - reflexivity.
  - vm_compute. reflexivity.
  - intros site. reflexivity.
Defined.

Lemma single_many {A} (rows : list A) :
  (2 <= length rows)%nat -> single rows = None.
Proof. destruct rows as [|r [|r' rows]]; cbn; intros H; [lia|lia|reflexivity]. Qed.

(** X5. [POST /create] does not look whether the code it drew is taken.
    When the store accepts a squad whose code another squad already
    has, no one can join either of them with that code: [POST /join]
    answers 404 and adds no row. *)
Theorem invite_code_collision (ctx ctx' : Ctx) (creator joiner name typed : string)
    (d : Db.t) (taken : Squad.t) :
  fairDraws (random ctx) ->
  named name = true ->
  fails ctx AtInsertSquad = false -> fails ctx AtAddMember = false ->
  In taken (Db.squads d) -> Squad.inviteCode taken = codeOf ctx ->
  normalise typed = codeOf ctx ->
  let d1 := snd (createSquad ctx creator (Some name) d) in
  joinSquad ctx' joiner (Some typed) d1
  = ({| code := 404; payload := Failure "Squad not found with that invite code" |},
     d1).
Proof.
  intros Hfair Hn Hi Ha Hin Hcode Htyped. cbv zeta.
  rewrite createSquad_run by assumption. cbn [snd].
  unfold joinSquad.
  rewrite (normalise_nonempty typed (random ctx) Hfair Htyped).
  fold (withCode (normalise typed) (created ctx creator name d)).
  rewrite Htyped, withCode_created, String.eqb_refl.
  rewrite single_many; [destruct (fails ctx' AtFindByCode); reflexivity|].
  rewrite List.length_app. cbn [length].
  assert (H : In taken (withCode (codeOf ctx) d)).
  { apply List.filter_In. split; [exact Hin|]. apply String.eqb_eq. exact Hcode. }
  destruct (withCode (codeOf ctx) d); [destruct H|cbn; lia].
Qed.

Lemma invite_code_collision_witness :
  joinSquad Sample2.ok "0xB" (Some "AGMSY4") Sample2.collided
  = ({| code := 404; payload := Failure "Squad not found with that invite code" |},
     Sample2.collided).
Proof.
  apply (invite_code_collision Sample2.ok Sample2.ok "0xC" "0xB" "Minnows" "AGMSY4"
           Sample2.founded
           {| Squad.id := 1; Squad.name := "Whales"; Squad.inviteCode := "AGMSY4" |}).
  - intros i Hi. unfold Sample2.ok, random, Sample2.draws, Qle, Qlt. cbn. lia.
  - reflexivity.
  - reflexivity.
  - reflexivity.
  - vm_compute. left. reflexivity.
  - vm_compute. reflexivity.
  - vm_compute. reflexivity.
Defined.

(** ** Joining again *)

Lemma joinSquad_200 (ctx : Ctx) (userId typed : string) (d : Db.t) :
  code (fst (joinSquad ctx userId (Some typed) d)) = 200 ->
  (String.length typed =? 0)%nat = false
  /\ exists row,
       withCode (normalise typed) d = [row]
       /\ ((exists m, fails ctx AtExisting = false
                      /\ rowsOf d (Squad.id row) userId = [m]
                      /\ snd (joinSquad ctx userId (Some typed) d) = d)
           \/ ((fails ctx AtExisting = true
                \/ single (rowsOf d (Squad.id row) userId) = None)
               /\ snd (joinSquad ctx userId (Some typed) d)
                  = insertMember (memberRow (Squad.id row) userId) d)).
Proof.
  unfold joinSquad.
  destruct (_ =? _)%nat; [discriminate|].
  destruct (fails ctx AtFindByCode); [discriminate|].
  fold (withCode (normalise typed) d).
  destruct (single (withCode (normalise typed) d)) as [row|] eqn:Hs; [|discriminate].
  apply single_In in Hs. unfold membershipOf.
  fold (rowsOf d (Squad.id row) userId).
  intros H. split; [reflexivity|]. exists row. split; [exact Hs|].
  destruct (fails ctx AtExisting) eqn:He.
  - right. split; [left; reflexivity|].
    destruct (fails ctx AtCount); [discriminate|].
    destruct (10 <=? _)%nat; [discriminate|].
    destruct (fails ctx AtAddMember); [discriminate|]. reflexivity.
  - destruct (single (rowsOf d (Squad.id row) userId)) as [m|] eqn:Hm.
    + left. exists m. apply single_In in Hm. auto.
    + right. split; [right; reflexivity|].
      destruct (fails ctx AtCount); [discriminate|].
      destruct (10 <=? _)%nat; [discriminate|].
      destruct (fails ctx AtAddMember); [discriminate|]. reflexivity.
Qed.

Lemma isMembership_eq (squadId : Z) (userId : string) (m : Member.t) :
  isMembership squadId userId m = true -> m = memberRow squadId userId.
Proof.
  unfold isMembership. intros H. apply andb_true_iff in H. destruct H as [Hs Hu].
  apply Z.eqb_eq in Hs. apply String.eqb_eq in Hu. destruct m. cbn in *.
  subst. reflexivity.
Qed.

(** X6. Joining is idempotent while the lookup of the caller's row
    works: where no pair of squad and user has two rows, a join that
    answers 200 leaves it so, and the same caller joining again with
    the same code is told to be a member already and no row is added. *)
Theorem join_again (ctx ctx' : Ctx) (userId typed : string) (d : Db.t) :
  uniqueRows d ->
  fails ctx AtExisting = false ->
  code (fst (joinSquad ctx userId (Some typed) d)) = 200 ->
  fails ctx' AtFindByCode = false -> fails ctx' AtExisting = false ->
  let d1 := snd (joinSquad ctx userId (Some typed) d) in
  uniqueRows d1
  /\ exists full,
       joinSquad ctx' userId (Some typed) d1
       = ({| code := 200;
             payload := OneSquad full
                          (Some "You are already a member of this squad") |}, d1).
Proof.
  intros Hu He H200 Hf' He'. cbv zeta.
  destruct (joinSquad_200 ctx userId typed d H200)
    as (Hne & row & Hcode & [(m & _ & Hm & ->)|([Hx|Hnone] & ->)]).
  - split; [exact Hu|]. eexists.
    apply (joinSquad_already ctx' userId typed d row m); assumption.
  - congruence.
  - assert (Hrows : rowsOf d (Squad.id row) userId = []).
    { specialize (Hu (Squad.id row) userId).
      destruct (rowsOf d (Squad.id row) userId) as [|r [|r' rows]];
        [reflexivity|discriminate|cbn in Hu; lia]. }
    split.
    + intros squadId user. rewrite rowsOf_insertMember, List.length_app.
      destruct (isMembership squadId user _) eqn:Hm.
      * apply isMembership_eq in Hm. injection Hm as <- <-.
        rewrite Hrows. cbn. lia.
      * specialize (Hu squadId user). cbn. lia.
    + eexists.
      apply (joinSquad_already ctx' userId typed _ row
               (memberRow (Squad.id row) userId)); try assumption.
      rewrite rowsOf_insertMember, Hrows, isMembership_memberRow, String.eqb_refl.
      reflexivity.
Qed.

Lemma join_again_witness :
  uniqueRows Sample2.joined
  /\ exists full,
       joinSquad Sample2.ok "0xB" (Some " agmsy4") Sample2.joined
       = ({| code := 200;
             payload := OneSquad full
                          (Some "You are already a member of this squad") |},
          Sample2.joined).
Proof.
  apply (join_again Sample2.ok Sample2.ok "0xB" " agmsy4" Sample2.founded).
  - intros squadId userId. unfold rowsOf.
    change (Db.squad_members Sample2.founded) with [memberRow 1 "0xA"].
    cbn [List.filter].
    destruct (isMembership squadId userId (memberRow 1 "0xA")); cbn; lia.
  - reflexivity.
  - vm_compute. reflexivity.
  - reflexivity.
  - reflexivity.
Defined.

(** ** A failing lookup of the caller's row *)

Lemma getSquad_locked (ctx : Ctx) (userId : string) (squadId : Z) (d : Db.t) :
  single (rowsOf d squadId userId) = None ->
  getSquad ctx userId (Some squadId) d = notMember.
Proof.
  intros H. unfold getSquad, membershipOf. fold (rowsOf d squadId userId).
  rewrite H. destruct (fails ctx AtMembership); reflexivity.
Qed.

Lemma getMessages_locked (ctx : Ctx) (userId : string) (squadId : Z) (d : Db.t) :
  single (rowsOf d squadId userId) = None ->
  getMessages ctx userId (Some squadId) d = notMember.
Proof.
  intros H. unfold getMessages, membershipOf. fold (rowsOf d squadId userId).
  rewrite H. destruct (fails ctx AtMembership); reflexivity.
Qed.

Lemma onTables_locked (base : Env) (ctx : Ctx) (userId : string) (squadId : Z)
    (d : Db.t) :
  single (rowsOf d squadId userId) = None ->
  hasData (db_membership (onTables base ctx d) squadId userId) = false.
Proof.
  intros H. cbn. unfold membershipOf. fold (rowsOf d squadId userId).
  rewrite H. destruct (fails ctx AtMembership); reflexivity.
Qed.

Lemma getLeaderboard_forbidden (env : Env) (req : Request) (s : Sys) (squadId : Z) :
  params_id req = Some squadId ->
  hasData (db_membership env squadId (userId req)) = false ->
  run (getLeaderboard env req) s
  = ({| status := 403; body := Message "You are not a member of this squad" |}, s).
Proof.
  intros Hid Hm. unfold run, getLeaderboard, bind, guard, respond.
  rewrite Hid, Hm. reflexivity.
Qed.

Lemma calculateWinner_forbidden (env : Env) (req : Request) (s : Sys)
    (squadId : Z) :
  params_id req = Some squadId ->
  hasData (db_membership env squadId (userId req)) = false ->
  run (calculateWinner env req) s
  = ({| status := 403; body := Message "You are not a member of this squad" |}, s).
Proof.
  intros Hid Hm. unfold run, calculateWinner, bind, guard, respond.
  rewrite Hid, Hm. reflexivity.
Qed.

(** X7. [POST /join] reads [existingMember] without its error.  When
    that lookup fails for a caller who is a member, and the store
    accepts the row, the join answers 200 and the caller has two rows;
    from then on every route of the squad refuses the caller with 403,
    since each of them asks for a single row. *)
Theorem failed_lookup_locks_out (ctx : Ctx) (userId typed : string) (d : Db.t)
    (row : Squad.t) (m : Member.t) :
  typed <> EmptyString ->
  withCode (normalise typed) d = [row] ->
  rowsOf d (Squad.id row) userId = [m] ->
  (memberCount d (Squad.id row) < 10)%nat ->
  fails ctx AtExisting = true ->
  fails ctx AtFindByCode = false -> fails ctx AtCount = false ->
  fails ctx AtAddMember = false ->
  let answer := joinSquad ctx userId (Some typed) d in
  code (fst answer) = 200
  /\ forall ctx',
       getSquad ctx' userId (Some (Squad.id row)) (snd answer) = notMember
       /\ getMessages ctx' userId (Some (Squad.id row)) (snd answer) = notMember
       /\ forall base timeframe s,
            let req := {| params_id := Some (Squad.id row); userId := userId;
                          query_timeframe := timeframe |} in
            status (fst (run (getLeaderboard (onTables base ctx' (snd answer)) req) s))
            = 403
            /\ status (fst (run (calculateWinner
                                   (onTables base ctx' (snd answer)) req) s))
               = 403.
Proof.
  intros Hne Hcode Hm Hlt He Hf Hc Ha. cbv zeta.
  assert (Ht : (String.length typed =? 0)%nat = false)
    by (destruct typed; [congruence|reflexivity]).
  rewrite (joinSquad_added ctx userId typed d row Ht Hf Hcode (or_introl He) Hc Hlt Ha).
  cbn [fst snd code]. split; [reflexivity|].
  assert (Hlocked : single (rowsOf (insertMember (memberRow (Squad.id row) userId) d)
                              (Squad.id row) userId) = None).
  { rewrite rowsOf_insertMember, Hm, isMembership_memberRow, String.eqb_refl.
    reflexivity. }
  intros ctx'. split; [apply getSquad_locked, Hlocked|].
  split; [apply getMessages_locked, Hlocked|].
  intros base timeframe s. split.
  - erewrite getLeaderboard_forbidden; [reflexivity|reflexivity|].
    apply onTables_locked, Hlocked.
  - erewrite calculateWinner_forbidden; [reflexivity|reflexivity|].
    apply onTables_locked, Hlocked.
Qed.

Lemma failed_lookup_locks_out_witness :
  code (fst (joinSquad Sample2.blind "0xB" (Some "AGMSY4") Sample2.joined)) = 200
  /\ forall ctx',
       getSquad ctx' "0xB" (Some 1)
         (snd (joinSquad Sample2.blind "0xB" (Some "AGMSY4") Sample2.joined))
       = notMember
       /\ getMessages ctx' "0xB" (Some 1)
            (snd (joinSquad Sample2.blind "0xB" (Some "AGMSY4") Sample2.joined))
          = notMember
       /\ forall base timeframe s,
            status (fst (run (getLeaderboard
                                (onTables base ctx'
                                   (snd (joinSquad Sample2.blind "0xB"
                                           (Some "AGMSY4") Sample2.joined)))
                                {| params_id := Some 1; userId := "0xB";
                                   query_timeframe := timeframe |}) s))
            = 403
            /\ status (fst (run (calculateWinner
                                   (onTables base ctx'
                                      (snd (joinSquad Sample2.blind "0xB"
                                              (Some "AGMSY4") Sample2.joined)))
                                   {| params_id := Some 1; userId := "0xB";
                                      query_timeframe := timeframe |}) s))
               = 403.
Proof.
  apply (failed_lookup_locks_out Sample2.blind "0xB" "AGMSY4" Sample2.joined
           {| Squad.id := 1; Squad.name := "Whales"; Squad.inviteCode := "AGMSY4" |}
           (memberRow 1 "0xB")).
  - discriminate.
  - vm_compute. reflexivity.
  - vm_compute. reflexivity.
  - vm_compute. lia.
  - reflexivity.
  - reflexivity.
  - reflexivity.
  - reflexivity.
Defined.

(** ** A squad without its creator *)

(** X8. [POST /create] is two inserts.  When the second is refused the
    call answers 500 but the squad stays: it has no member row, and
    [GET /:id] and [GET /:id/messages] refuse every caller. *)
Theorem create_not_atomic (ctx : Ctx) (userId name : string) (d : Db.t) :
  wellFormed d ->
  named name = true ->
  fails ctx AtInsertSquad = false -> fails ctx AtAddMember = true ->
  let answer := createSquad ctx userId (Some name) d in
  fst answer = internalError
  /\ Db.squads (snd answer) = Db.squads d ++ [newSquad ctx name d]
  /\ memberCount (snd answer) (Db.next_id d) = 0%nat
  /\ forall ctx' caller,
       getSquad ctx' caller (Some (Db.next_id d)) (snd answer) = notMember
       /\ getMessages ctx' caller (Some (Db.next_id d)) (snd answer) = notMember.
Proof.
  intros Hwf Hn Hi Ha. cbv zeta. unfold createSquad, named in *.
  destruct (_ || _); [discriminate|]. rewrite Hi, Ha. cbn [fst snd].
  split; [reflexivity|]. split; [reflexivity|]. split.
  - unfold memberCount.
    change (userIdsOf (insertSquad _ d) (Db.next_id d))
      with (userIdsOf d (Db.next_id d)).
    rewrite userIdsOf_fresh by exact Hwf. reflexivity.
  - intros ctx' caller.
    assert (H : single (rowsOf (insertSquad
                                  {| Squad.id := Db.next_id d;
                                     Squad.name := Text.trim name;
                                     Squad.inviteCode :=
                                       generateInviteCode (random ctx) |} d)
                          (Db.next_id d) caller) = None).
    { change (rowsOf (insertSquad _ d) (Db.next_id d) caller)
        with (rowsOf d (Db.next_id d) caller).
      rewrite rowsOf_fresh by exact Hwf. reflexivity. }
    split; [apply getSquad_locked, H|apply getMessages_locked, H].
Qed.

Lemma create_not_atomic_witness :
  fst (createSquad Sample2.halfway "0xA" (Some "Whales") Sample2.empty)
  = internalError
  /\ Db.squads (snd (createSquad Sample2.halfway "0xA" (Some "Whales") Sample2.empty))
     = [{| Squad.id := 1; Squad.name := "Whales"; Squad.inviteCode := "AGMSY4" |}]
  /\ memberCount (snd (createSquad Sample2.halfway "0xA" (Some "Whales")
                         Sample2.empty)) 1 = 0%nat
  /\ forall ctx' caller,
       getSquad ctx' caller (Some 1)
         (snd (createSquad Sample2.halfway "0xA" (Some "Whales") Sample2.empty))
       = notMember
       /\ getMessages ctx' caller (Some 1)
            (snd (createSquad Sample2.halfway "0xA" (Some "Whales") Sample2.empty))
          = notMember.
Proof.
  apply (create_not_atomic Sample2.halfway "0xA" "Whales" Sample2.empty).
  - split; constructor.
  - reflexivity.
  - reflexivity.
  - reflexivity.
Defined.

(** ** Reading squads *)

Lemma userIdsOf_In (d : Db.t) (squadId : Z) (userId : string) :
  In userId (userIdsOf d squadId)
  <-> In (memberRow squadId userId) (Db.squad_members d).
Proof.
  unfold userIdsOf. rewrite in_map_iff. split.
  - intros (m & Hu & Hin). apply List.filter_In in Hin. destruct Hin as [Hin Hs].
    unfold inSquad in Hs. apply Z.eqb_eq in Hs. destruct m. cbn in *. subst.
    exact Hin.
  - intros Hin. exists (memberRow squadId userId). split; [reflexivity|].
    apply List.filter_In. split; [exact Hin|]. unfold inSquad. cbn. apply Z.eqb_refl.
Qed.

Lemma usersIn_In (d : Db.t) (userIds : list string) (u : User.t) :
  In u (usersIn d userIds) <-> In u (Db.users d) /\ In (User.evmAddress u) userIds.
Proof.
  unfold usersIn. rewrite List.filter_In, existsb_exists. split.
  - intros [Hin (x & Hx & He)]. apply String.eqb_eq in He. subst x. auto.
  - intros [Hin Hx]. split; [exact Hin|]. exists (User.evmAddress u).
    split; [exact Hx|apply String.eqb_refl].
Qed.

Lemma getSquadWithMembers_sound (ctx : Ctx) (d : Db.t) (squadId : Z)
    (full : FullSquad) :
  getSquadWithMembers ctx d squadId = Some full ->
  squadsOf d squadId = [squad full]
  /\ forall u, In u (members full) ->
       exists profile,
         u = withAvatar profile /\ In profile (Db.users d)
         /\ In (memberRow squadId (User.evmAddress profile)) (Db.squad_members d).
Proof.
  unfold getSquadWithMembers. fold (squadsOf d squadId).
  destruct (fails ctx (AtSquad squadId)); [discriminate|].
  destruct (single (squadsOf d squadId)) as [row|] eqn:Hs; [|discriminate].
  apply single_In in Hs.
  destruct (fails ctx (AtMembers squadId)); [discriminate|].
  destruct (userIdsOf d squadId) as [|x ids] eqn:Hids.
  - intros H. injection H as <-. cbn. split; [exact Hs|]. intros u [].
  - destruct (fails ctx (AtUsers squadId)); [discriminate|].
    intros H. injection H as <-. cbn [squad members]. split; [exact Hs|].
    intros u Hu. apply in_map_iff in Hu. destruct Hu as (profile & <- & Hin).
    apply usersIn_In in Hin. destruct Hin as [Hin Hx].
    exists profile. split; [reflexivity|]. split; [exact Hin|].
    apply userIdsOf_In. rewrite Hids. exact Hx.
Qed.

Lemma squadsOf_In (d : Db.t) (squadId : Z) (row : Squad.t) :
  squadsOf d squadId = [row] -> In row (Db.squads d) /\ Squad.id row = squadId.
Proof.
  intros H. assert (Hin : In row (squadsOf d squadId)) by (rewrite H; left; reflexivity).
  apply List.filter_In in Hin. destruct Hin as [Hin He]. apply Z.eqb_eq in He. auto.
Qed.

Lemma rowsOf_single (d : Db.t) (squadId : Z) (userId : string) (m : Member.t) :
  rowsOf d squadId userId = [m] ->
  m = memberRow squadId userId /\ In m (Db.squad_members d).
Proof.
  intros H. assert (Hin : In m (rowsOf d squadId userId)) by (rewrite H; left; reflexivity).
  apply List.filter_In in Hin. destruct Hin as [Hin He].
  apply isMembership_eq in He. auto.
Qed.

(** X9. [GET /:id] answers 200 only to a caller with exactly one member
    row of the squad asked for; what it sends is a squad of that id,
    and every member it lists is the profile, with its generated
    avatar, of a user with a member row of that squad. *)
Theorem squad_page_access (ctx : Ctx) (userId : string) (squadId : Z) (d : Db.t) :
  code (getSquad ctx userId (Some squadId) d) = 200 ->
  exists full,
    getSquad ctx userId (Some squadId) d
    = {| code := 200; payload := OneSquad (Some full) None |}
    /\ rowsOf d squadId userId = [memberRow squadId userId]
    /\ In (squad full) (Db.squads d)
    /\ Squad.id (squad full) = squadId
    /\ forall u, In u (members full) ->
         User.avatarUrl u = Some (avatarOf (User.evmAddress u))
         /\ In (memberRow squadId (User.evmAddress u)) (Db.squad_members d)
         /\ exists profile, In profile (Db.users d) /\ u = withAvatar profile.
Proof.
  unfold getSquad, membershipOf. fold (rowsOf d squadId userId).
  destruct (fails ctx AtMembership); [discriminate|].
  destruct (single (rowsOf d squadId userId)) as [m|] eqn:Hm; [|discriminate].
  apply single_In in Hm.
  destruct (getSquadWithMembers ctx d squadId) as [full|] eqn:Hfull; [|discriminate].
  intros _. exists full. split; [reflexivity|].
  destruct (rowsOf_single d squadId userId m Hm) as [-> _].
  split; [exact Hm|].
  destruct (getSquadWithMembers_sound ctx d squadId full Hfull) as [Hs Hu].
  destruct (squadsOf_In d squadId _ Hs) as [Hin Hid].
  split; [exact Hin|]. split; [exact Hid|].
  intros u Hin'. destruct (Hu u Hin') as (profile & -> & Hp & Hrow).
  split; [reflexivity|]. split; [exact Hrow|]. exists profile. auto.
Qed.

Lemma squad_page_access_witness :
  exists full,
    getSquad Sample2.ok "0xB" (Some 1) Sample2.joined
    = {| code := 200; payload := OneSquad (Some full) None |}
    /\ rowsOf Sample2.joined 1 "0xB" = [memberRow 1 "0xB"]
    /\ In (squad full) (Db.squads Sample2.joined)
    /\ Squad.id (squad full) = 1
    /\ forall u, In u (members full) ->
         User.avatarUrl u = Some (avatarOf (User.evmAddress u))
         /\ In (memberRow 1 (User.evmAddress u)) (Db.squad_members Sample2.joined)
         /\ exists profile, In profile (Db.users Sample2.joined) /\ u = withAvatar profile.
Proof.
  apply (squad_page_access Sample2.ok "0xB" 1 Sample2.joined).
  vm_compute. reflexivity.
Defined.

Lemma getSquads_works (ctx : Ctx) (userId : string) (d : Db.t) :
  works ctx ->
  getSquads ctx userId d
  = {| code := 200;
       payload :=
         Squads (omap id
                   (map (getSquadWithMembers ctx d)
                      (map Member.squadId
                         (List.filter (fun m => String.eqb (Member.userId m) userId)
                            (Db.squad_members d))))) |}.
Proof.
  intros Hw. unfold getSquads. rewrite Hw.
  destruct (map Member.squadId _); reflexivity.
Qed.

Lemma mySquadIds_In (d : Db.t) (userId : string) (squadId : Z) :
  In squadId (map Member.squadId
                (List.filter (fun m => String.eqb (Member.userId m) userId)
                   (Db.squad_members d)))
  <-> In (memberRow squadId userId) (Db.squad_members d).
Proof.
  rewrite in_map_iff. split.
  - intros (m & Hs & Hin). apply List.filter_In in Hin. destruct Hin as [Hin Hu].
    apply String.eqb_eq in Hu. destruct m. cbn in *. subst. exact Hin.
  - intros Hin. exists (memberRow squadId userId). split; [reflexivity|].
    apply List.filter_In. split; [exact Hin|]. cbn. apply String.eqb_refl.
Qed.

(** X10. When its queries succeed and [id] is a key of [squads],
    [GET /] lists a squad exactly when the caller has a member row of
    it. *)
Theorem my_squads (ctx : Ctx) (userId : string) (d : Db.t) (row : Squad.t) :
  works ctx -> uniqueIds d ->
  In row (Db.squads d) ->
  (exists full, In full (listed (getSquads ctx userId d)) /\ squad full = row)
  <-> In (memberRow (Squad.id row) userId) (Db.squad_members d).
Proof.
  intros Hw Hu Hrow. rewrite getSquads_works by exact Hw. cbn [listed payload].
  split.
  - intros (full & Hin & <-).
    apply list_elem_of_In, list_elem_of_omap in Hin.
    destruct Hin as (o & Ho & Hsome). cbn in Hsome. subst o.
    apply list_elem_of_In, in_map_iff in Ho. destruct Ho as (squadId & Hfull & Hid).
    apply getSquadWithMembers_sound in Hfull. destruct Hfull as [Hs _].
    apply squadsOf_In in Hs. destruct Hs as [_ ->].
    apply mySquadIds_In. exact Hid.
  - intros Hin.
    assert (Hs : squadsOf d (Squad.id row) = [row]).
    { assert (H : In row (squadsOf d (Squad.id row))).
      { apply List.filter_In. split; [exact Hrow|apply Z.eqb_refl]. }
      specialize (Hu (Squad.id row)).
      destruct (squadsOf d (Squad.id row)) as [|r [|r' rows]];
        [destruct H| |cbn in Hu; lia].
      destruct H as [->|[]]. reflexivity. }
    destruct (getSquadWithMembers_works ctx d (Squad.id row) row Hw Hs) as [ms Hfull].
    exists {| squad := row; members := ms |}. split; [|reflexivity].
    apply list_elem_of_In, list_elem_of_omap.
    exists (Some {| squad := row; members := ms |}). split; [|reflexivity].
    apply list_elem_of_In, in_map_iff. exists (Squad.id row). split; [exact Hfull|].
    apply mySquadIds_In. exact Hin.
Qed.

Lemma my_squads_witness :
  (exists full, In full (listed (getSquads Sample2.ok "0xB" Sample2.joined))
                /\ squad full
                   = {| Squad.id := 1; Squad.name := "Whales";
                        Squad.inviteCode := "AGMSY4" |})
  <-> In (memberRow 1 "0xB") (Db.squad_members Sample2.joined).
Proof.
  apply (my_squads Sample2.ok "0xB" Sample2.joined
           {| Squad.id := 1; Squad.name := "Whales"; Squad.inviteCode := "AGMSY4" |}).
  - intros site. reflexivity.
  - intros squadId. unfold squadsOf.
    change (Db.squads Sample2.joined)
      with [{| Squad.id := 1; Squad.name := "Whales"; Squad.inviteCode := "AGMSY4" |}].
    cbn [List.filter Squad.id]. destruct (1 =? squadId); cbn; lia.
  - vm_compute. left. reflexivity.
Defined.

(** ** Messages *)

Lemma positive_byTimestamp (a b : Chat.t) :
  positive (byTimestamp a b) = true <-> Chat.timestamp b < Chat.timestamp a.
Proof.
  unfold positive, byTimestamp, inject_Z. cbn [Qnum]. rewrite Z.ltb_lt. lia.
Qed.

Lemma insertBy_earlier (x : Chat.t) (l : list Chat.t) :
  StronglySorted earlier l -> StronglySorted earlier (insertBy byTimestamp x l).
Proof.
  induction 1 as [|y l Hl IH Hy]; cbn [insertBy].
  - repeat constructor.
  - destruct (positive (byTimestamp x y)) eqn:E.
    + apply positive_byTimestamp in E. constructor; [exact IH|].
      rewrite <- insertBy_perm. constructor; [unfold earlier; lia|exact Hy].
    + assert (Hxy : earlier x y).
      { unfold earlier. apply Z.nlt_ge. intros Hlt.
        apply positive_byTimestamp in Hlt. congruence. }
      constructor; [now constructor|].
      constructor; [exact Hxy|].
      eapply List.Forall_impl; [|exact Hy]. cbn. unfold earlier in *. lia.
Qed.

Lemma sortBy_earlier (l : list Chat.t) :
  StronglySorted earlier (sortBy byTimestamp l).
Proof.
  induction l as [|x l IH]; cbn [sortBy fold_right]; [constructor|].
  now apply insertBy_earlier.
Qed.

Lemma In_firstn {A} (n : nat) (l : list A) (x : A) :
  In x (firstn n l) -> In x l.
Proof.
  intros H. rewrite <- (firstn_skipn n l). apply in_or_app. left. exact H.
Qed.

Lemma In_skipn {A} (n : nat) (l : list A) (x : A) :
  In x (skipn n l) -> In x l.
Proof.
  intros H. rewrite <- (firstn_skipn n l). apply in_or_app. right. exact H.
Qed.

Lemma sorted_firstn {A} (R : A -> A -> Prop) (n : nat) (l : list A) :
  StronglySorted R l ->
  StronglySorted R (firstn n l)
  /\ forall x y, In x (firstn n l) -> In y (skipn n l) -> R x y.
Proof.
  intros H. revert n. induction H as [|a l Hl IH Ha]; intros n.
  - rewrite firstn_nil, skipn_nil. split; [constructor|]. intros x y [].
  - destruct n as [|n]; cbn [firstn skipn].
    + split; [constructor|]. intros x y [].
    + destruct (IH n) as [Hs Hcut]. rewrite List.Forall_forall in Ha. split.
      * constructor; [exact Hs|]. apply List.Forall_forall. intros x Hx.
        apply Ha. eapply In_firstn. exact Hx.
      * intros x y [<-|Hx] Hy.
        -- apply Ha. eapply In_skipn. exact Hy.
        -- now apply Hcut.
Qed.

Lemma messagesOf_window (d : Db.t) (squadId : Z) :
  (length (messagesOf d squadId) <= 200)%nat
  /\ StronglySorted earlier (messagesOf d squadId)
  /\ (forall m, In m (messagesOf d squadId) ->
        In m (Db.chat_messages d) /\ Chat.squadId m = squadId)
  /\ (forall m, In m (Db.chat_messages d) -> Chat.squadId m = squadId ->
        ~ In m (messagesOf d squadId) ->
        length (messagesOf d squadId) = 200%nat
        /\ forall k, In k (messagesOf d squadId) -> earlier k m).
Proof.
  unfold messagesOf.
  set (mine := List.filter (fun m => Chat.squadId m =? squadId) (Db.chat_messages d)).
  destruct (sorted_firstn earlier 200 _ (sortBy_earlier mine)) as [Hs Hcut].
  split; [apply List.firstn_le_length|]. split; [exact Hs|]. split.
  - intros m Hin. apply In_firstn in Hin.
    apply (Permutation_in _ (Permutation_sym (sortBy_perm byTimestamp mine))) in Hin.
    apply List.filter_In in Hin. destruct Hin as [Hin He].
    apply Z.eqb_eq in He. auto.
  - intros m Hin Hid Hout.
    assert (Hm : In m (sortBy byTimestamp mine)).
    { apply In_sortBy. apply List.filter_In. split; [exact Hin|].
      apply Z.eqb_eq. exact Hid. }
    rewrite <- (firstn_skipn 200 (sortBy byTimestamp mine)) in Hm.
    apply in_app_or in Hm. destruct Hm as [Hm|Hm]; [contradiction|]. split.
    + apply List.firstn_length_le.
      destruct (le_lt_dec 200 (length (sortBy byTimestamp mine))) as [Hle|Hlt];
        [exact Hle|].
      rewrite skipn_all2 in Hm by lia. destruct Hm.
    + intros k Hk. now apply (Hcut k m).
Qed.

Lemma getMessages_200 (ctx : Ctx) (userId : string) (squadId : Z) (d : Db.t) :
  code (getMessages ctx userId (Some squadId) d) = 200 ->
  getMessages ctx userId (Some squadId) d
  = {| code := 200;
       payload :=
         Messages (map (formatMessage squadId
                          (userMapOf (usersIn d (authorAddressesOf
                                                   (messagesOf d squadId)))))
                     (messagesOf d squadId)) |}.
Proof.
  unfold getMessages.
  destruct (if fails ctx AtMembership then None else membershipOf d squadId userId);
    [|discriminate].
  destruct (fails ctx AtMessages); [discriminate|].
  destruct (fails ctx AtAuthors); [discriminate|]. reflexivity.
Qed.

Lemma sorted_map {A B} (R : A -> A -> Prop) (S : B -> B -> Prop) (f : A -> B)
    (l : list A) :
  (forall a b, R a b -> S (f a) (f b)) ->
  StronglySorted R l -> StronglySorted S (map f l).
Proof.
  intros HRS. induction 1 as [|a l Hl IH Ha]; cbn [map]; constructor.
  - exact IH.
  - apply List.Forall_forall. intros y Hy. apply in_map_iff in Hy.
    destruct Hy as (b & <- & Hb). rewrite List.Forall_forall in Ha. apply HRS, Ha, Hb.
Qed.

(** X11. What [GET /:id/messages] sends, when it answers 200, is at
    most 200 messages of the squad in ascending order of time, and a
    message of the squad that is left out is no earlier than any
    message sent: with more than 200 messages the newest ones are
    missing, not the oldest. *)
Theorem messages_window (ctx : Ctx) (userId : string) (squadId : Z) (d : Db.t) :
  code (getMessages ctx userId (Some squadId) d) = 200 ->
  let reply := getMessages ctx userId (Some squadId) d in
  (length (sent reply) <= 200)%nat
  /\ StronglySorted earlierSent (sent reply)
  /\ (forall f, In f (sent reply) ->
        exists m, In m (Db.chat_messages d) /\ Chat.squadId m = squadId
                  /\ Formatted.id f = Dec.of_Z (Chat.id m)
                  /\ Formatted.content f = Chat.content m
                  /\ Formatted.timestamp f = Chat.timestamp m)
  /\ (forall m, In m (Db.chat_messages d) -> Chat.squadId m = squadId ->
        ~ In (Dec.of_Z (Chat.id m)) (map Formatted.id (sent reply)) ->
        length (sent reply) = 200%nat
        /\ forall f, In f (sent reply) ->
             Formatted.timestamp f <= Chat.timestamp m).
Proof.
  intros H200. cbv zeta. rewrite (getMessages_200 ctx userId squadId d H200).
  cbn [sent payload].
  set (userMap := userMapOf _).
  destruct (messagesOf_window d squadId) as (Hlen & Hsorted & Hmine & Hout).
  rewrite List.length_map. split; [exact Hlen|]. split.
  { eapply sorted_map; [|exact Hsorted]. intros a b Hab. exact Hab. }
  split.
  - intros f Hf. apply in_map_iff in Hf. destruct Hf as (m & <- & Hm).
    exists m. destruct (Hmine m Hm) as [Hin Hid]. cbn. auto.
  - intros m Hin Hid Hno.
    assert (Hno' : ~ In m (messagesOf d squadId)).
    { intros Hm. apply Hno. rewrite List.map_map. apply in_map_iff.
      exists m. split; [reflexivity|exact Hm]. }
    destruct (Hout m Hin Hid Hno') as [H200' Hk]. split; [exact H200'|].
    intros f Hf. apply in_map_iff in Hf. destruct Hf as (k & <- & Hk').
    cbn. apply Hk, Hk'.
Qed.

Lemma messages_window_witness :
  (length (sent (getMessages Sample2.ok "0xB" (Some 1%Z) Sample2.chatted)) <= 200)%nat
  /\ StronglySorted earlierSent
       (sent (getMessages Sample2.ok "0xB" (Some 1) Sample2.chatted))
  /\ (forall f, In f (sent (getMessages Sample2.ok "0xB" (Some 1) Sample2.chatted)) ->
        exists m, In m (Db.chat_messages Sample2.chatted) /\ Chat.squadId m = 1
                  /\ Formatted.id f = Dec.of_Z (Chat.id m)
                  /\ Formatted.content f = Chat.content m
                  /\ Formatted.timestamp f = Chat.timestamp m)
  /\ (forall m, In m (Db.chat_messages Sample2.chatted) -> Chat.squadId m = 1 ->
        ~ In (Dec.of_Z (Chat.id m))
            (map Formatted.id
               (sent (getMessages Sample2.ok "0xB" (Some 1) Sample2.chatted))) ->
        length (sent (getMessages Sample2.ok "0xB" (Some 1) Sample2.chatted)) = 200%nat
        /\ forall f,
             In f (sent (getMessages Sample2.ok "0xB" (Some 1) Sample2.chatted)) ->
             Formatted.timestamp f <= Chat.timestamp m).
Proof.
  apply (messages_window Sample2.ok "0xB" 1 Sample2.chatted).
  vm_compute. reflexivity.
Defined.

(** The sample chat in the order it is sent. *)
Example sample_messages :
  map Formatted.content (sent (getMessages Sample2.ok "0xB" (Some 1) Sample2.chatted))
  = ["Week 1 MVP"; "hello"; "gm"].
Proof. vm_compute. reflexivity. Qed.

Lemma userMap_lookup (users : list User.t) (acc : gmap string User.t)
    (a : string) (u : User.t) :
  fold_left (fun m u => <[User.evmAddress u := u]> m) users acc !! a = Some u ->
  (In u users /\ User.evmAddress u = a) \/ acc !! a = Some u.
Proof.
  revert acc. induction users as [|v users IH]; intros acc; cbn [fold_left].
  - auto.
  - intros H. destruct (IH _ H) as [[Hin He]|Hacc].
    + left. split; [right; exact Hin|exact He].
    + destruct (decide (User.evmAddress v = a)) as [He|Hne].
      * rewrite He, lookup_insert_eq in Hacc. injection Hacc as <-.
        left. split; [left; reflexivity|exact He].
      * rewrite lookup_insert_ne in Hacc by exact Hne. right. exact Hacc.
Qed.

Lemma userMap_known (users : list User.t) (acc : gmap string User.t) (a : string) :
  (exists u, In u users /\ User.evmAddress u = a) \/ is_Some (acc !! a) ->
  is_Some (fold_left (fun m u => <[User.evmAddress u := u]> m) users acc !! a).
Proof.
  revert acc. induction users as [|v users IH]; intros acc; cbn [fold_left].
  - intros [(u & [] & _)|H]. exact H.
  - intros [(u & [->|Hin] & He)|H]; apply IH.
    + right. rewrite He, lookup_insert_eq. eauto.
    + left. eauto.
    + right. destruct (decide (User.evmAddress v = a)) as [He|Hne].
      * rewrite He, lookup_insert_eq. eauto.
      * rewrite lookup_insert_ne by exact Hne. exact H.
Qed.

Lemma authorAddressesOf_In (messages : list Chat.t) (m : Chat.t) (a : string) :
  In m messages -> Chat.authorAddress m = Some a -> a <> EmptyString ->
  In a (authorAddressesOf messages).
Proof.
  intros Hin Ha Hne. unfold authorAddressesOf.
  apply list_elem_of_In, elem_of_remove_dups, list_elem_of_omap.
  exists m. split; [apply list_elem_of_In, Hin|].
  rewrite Ha. cbn. destruct (String.eqb_spec a ""); [contradiction|reflexivity].
Qed.

(** X12. The author [GET /:id/messages] shows.  A message without an
    author address, and a message whose address has no row in [users],
    are shown as written by Bot; a message of a known address is shown
    with that address, its generated avatar, and the name of a row of
    that address, Anonymous when the row has none. *)
Theorem message_author (ctx : Ctx) (userId : string) (squadId : Z) (d : Db.t) :
  code (getMessages ctx userId (Some squadId) d) = 200 ->
  exists userMap,
    sent (getMessages ctx userId (Some squadId) d)
    = map (formatMessage squadId userMap) (messagesOf d squadId)
    /\ forall m, In m (messagesOf d squadId) ->
         let author := Formatted.author (formatMessage squadId userMap m) in
         (falsy_string (Chat.authorAddress m) = true -> author = botAuthor)
         /\ forall a, Chat.authorAddress m = Some a -> a <> EmptyString ->
              ((forall u, In u (Db.users d) -> User.evmAddress u <> a) ->
               author = botAuthor)
              /\ ((exists u, In u (Db.users d) /\ User.evmAddress u = a) ->
                  exists u, In u (Db.users d) /\ User.evmAddress u = a
                            /\ author = authorOf u).
Proof.
  intros H200. rewrite (getMessages_200 ctx userId squadId d H200).
  cbn [sent payload]. eexists. split; [reflexivity|].
  set (addresses := authorAddressesOf (messagesOf d squadId)).
  intros m Hm. cbv zeta. unfold formatMessage. cbn [Formatted.author]. split.
  - intros ->. reflexivity.
  - intros a Ha Hne. rewrite Ha. cbn [falsy_string orString].
    destruct (String.eqb_spec a ""); [contradiction|].
    unfold userMapOf. split.
    + intros Hnone.
      destruct (fold_left _ (usersIn d addresses) ∅ !! a) as [u|] eqn:Hu;
        [|reflexivity].
      apply userMap_lookup in Hu. destruct Hu as [[Hin He]|Hempty].
      * apply usersIn_In in Hin. destruct Hin as [Hin _].
        destruct (Hnone u Hin He).
      * rewrite lookup_empty in Hempty. discriminate.
    + intros (u & Hin & He).
      destruct (userMap_known (usersIn d addresses) ∅ a) as [v Hv].
      { left. exists u. split; [|exact He]. apply usersIn_In. split; [exact Hin|].
        rewrite He. apply (authorAddressesOf_In _ m); assumption. }
      rewrite Hv. apply userMap_lookup in Hv. destruct Hv as [[Hin' He']|Hempty].
      * apply usersIn_In in Hin'. destruct Hin' as [Hin' _].
        exists v. split; [exact Hin'|]. split; [exact He'|reflexivity].
      * rewrite lookup_empty in Hempty. discriminate.
Qed.

Lemma message_author_witness :
  exists userMap,
    sent (getMessages Sample2.ok "0xB" (Some 1) Sample2.chatted)
    = map (formatMessage 1 userMap) (messagesOf Sample2.chatted 1)
    /\ forall m, In m (messagesOf Sample2.chatted 1) ->
         (falsy_string (Chat.authorAddress m) = true ->
          Formatted.author (formatMessage 1 userMap m) = botAuthor)
         /\ forall a, Chat.authorAddress m = Some a -> a <> EmptyString ->
              ((forall u, In u (Db.users Sample2.chatted) -> User.evmAddress u <> a) ->
               Formatted.author (formatMessage 1 userMap m) = botAuthor)
              /\ ((exists u, In u (Db.users Sample2.chatted)
                             /\ User.evmAddress u = a) ->
                  exists u, In u (Db.users Sample2.chatted)
                            /\ User.evmAddress u = a
                            /\ Formatted.author (formatMessage 1 userMap m)
                               = authorOf u).
Proof.
  apply (message_author Sample2.ok "0xB" 1 Sample2.chatted).
  vm_compute. reflexivity.
Defined.

(** The authors of the sample chat: the bot, an address without a
    profile, and Bob. *)
Example sample_authors :
  map (fun f => Author.username (Formatted.author f))
    (sent (getMessages Sample2.ok "0xB" (Some 1) Sample2.chatted))
  = ["Bot"; "Bot"; "bob"].
Proof. vm_compute. reflexivity. Qed.

(** ** The amount of an entry, on the page and in the announcement *)

Lemma toFixed2_abs (x : Q) :
  toFixed2 (Qabs x)
  = Dec.of_N (Z.to_N (nearest_cents (Qabs x) / 100))
    +:+ "." +:+ Dec.two_digits (nearest_cents (Qabs x) mod 100).
Proof. apply toFixed2_nonneg. destruct x as [p q]. cbn. lia. Qed.

(** X13. The page and the chat announcement write the same total
    differently unless it is positive: a loss is [$-1.23] on the page
    and [-$1.23] in the announcement, and zero is [$0.00] on the page
    and [+$0.00] in the announcement. *)
Theorem panel_amount (x : Q) :
  (amountText x = pnlDisplay x <-> (0 < x)%Q)
  /\ ((x < 0)%Q ->
      amountText x = "$-" +:+ toFixed2 (Math_abs x)
      /\ pnlDisplay x = "-$" +:+ toFixed2 (Math_abs x))
  /\ ((x == 0)%Q -> amountText x = "$0.00" /\ pnlDisplay x = "+$0.00").
Proof.
  unfold amountText, pnlDisplay, positive, Math_abs.
  destruct (Qle_bool 0 x) eqn:Hle.
  - apply Qle_bool_iff in Hle.
    assert (Hn : 0 <= Qnum x) by (destruct x as [p q]; unfold Qle in Hle; cbn in *; lia).
    split; [|split].
    + destruct (0 <? Qnum x) eqn:Hpos.
      * split; [|reflexivity]. intros _. apply Z.ltb_lt in Hpos.
        destruct x as [p q]. unfold Qlt. cbn in *. lia.
      * split; [discriminate|]. intros Hlt. apply Z.ltb_ge in Hpos.
        destruct x as [p q]. unfold Qlt in Hlt. cbn in *. lia.
    + intros Hlt. destruct (Qlt_not_le _ _ Hlt Hle).
    + intros H0. assert (Hz : Qnum x = 0).
      { destruct x as [p q]. unfold Qeq in H0. cbn in *. lia. }
      rewrite toFixed2_nonneg by exact Hn. unfold nearest_cents. rewrite Hz.
      replace ((200 * 0 + Z.pos (Qden x)) / (2 * Z.pos (Qden x))) with 0
        by (symmetry; apply Z.div_small; lia).
      split; reflexivity.
  - assert (Hlt : (x < 0)%Q).
    { apply Qnot_le_lt. intros H. apply Qle_bool_iff in H. congruence. }
    assert (Hn : Qnum x < 0) by (destruct x as [p q]; unfold Qlt in Hlt; cbn in *; lia).
    replace (0 <? Qnum x) with false by (symmetry; apply Z.ltb_ge; lia).
    assert (Hneg : toFixed2 x = "-" +:+ toFixed2 (Qabs x)).
    { rewrite toFixed2_abs. unfold toFixed2.
      replace (Qnum x <? 0) with true by (symmetry; apply Z.ltb_lt; exact Hn).
      reflexivity. }
    split; [|split].
    + split; [discriminate|]. intros H. destruct (Qlt_irrefl 0).
      eapply Qlt_trans; eassumption.
    + intros _. rewrite Hneg. split; reflexivity.
    + intros H0. rewrite H0 in Hlt. destruct (Qlt_irrefl _ Hlt).
Qed.

Lemma panel_amount_witness :
  amountText (- (123 # 100)) = "$-1.23" /\ pnlDisplay (- (123 # 100)) = "-$1.23".
Proof.
  apply (proj1 (proj2 (panel_amount (- (123 # 100))))). reflexivity.
Defined.

(** ** Every leaderboard served is in order *)

Lemma cacheSorted_get (key : string) (now : Z) (c : gmap string CacheData) :
  cacheSorted c ->
  cacheSorted (snd (cache_get key now c))
  /\ forall l, fst (cache_get key now c) = Some l -> StronglySorted descending l.
Proof.
  intros Hc. unfold cache_get. destruct (c !! key) as [d|] eqn:Hd.
  - destruct (expires d <? now); cbn [fst snd].
    + split; [|discriminate]. intros k e He.
      apply lookup_delete_Some in He. destruct He as [_ He]. eapply Hc, He.
    + split; [exact Hc|]. intros l [= <-]. eapply Hc, Hd.
  - cbn. split; [exact Hc|discriminate].
Qed.

Lemma cacheSorted_set (key : string) (v : list Entry.t) (now : Z)
    (c : gmap string CacheData) :
  StronglySorted descending v -> cacheSorted c ->
  cacheSorted (cache_set key v now c).
Proof.
  intros Hv Hc k d Hd. unfold cache_set in Hd.
  destruct (decide (key = k)) as [<-|Hne].
  - rewrite lookup_insert_eq in Hd. injection Hd as <-. exact Hv.
  - rewrite lookup_insert_ne in Hd by exact Hne. eapply Hc, Hd.
Qed.

Lemma getLeaderboard_sorted (env : Env) (req : Request) (s : Sys) :
  cacheSorted (pnlCache s) ->
  cacheSorted (pnlCache (snd (run (getLeaderboard env req) s)))
  /\ forall l, body (fst (run (getLeaderboard env req) s)) = Leaderboard l ->
       StronglySorted descending l.
Proof.
  intros Hc. unfold run, getLeaderboard, bind, guard, cacheGet, respond.
  destruct (params_id req) as [squadId|]; [|split; [exact Hc|discriminate]].
  destruct (hasData _); [|split; [exact Hc|discriminate]]. cbn.
  destruct (cacheSorted_get (leaderboardKey squadId (timeframeOf req))
              (clock_read env) (pnlCache s) Hc) as [Hc' Hhit].
  destruct (cache_get _ _ _) as [[result|] c]; cbn in *.
  { split; [exact Hc'|]. intros l [= <-]. apply Hhit. reflexivity. }
  destruct (db_memberRows env squadId) as [|[|u ids]]; cbn;
    try (split; [exact Hc'|]; intros l [= <-]; constructor).
  destruct (db_users env (u :: ids)) as [|users]; cbn;
    [split; [exact Hc'|discriminate]|].
  split.
  - apply cacheSorted_set; [apply sortBy_descending|exact Hc'].
  - intros l [= <-]. apply sortBy_descending.
Qed.

Lemma calculateWinner_sorted (env : Env) (req : Request) (s : Sys) :
  cacheSorted (pnlCache s) ->
  cacheSorted (pnlCache (snd (run (calculateWinner env req) s))).
Proof.
  intros Hc. rewrite calculateWinner_run.
  destruct (params_id req) as [squadId|]; [|exact Hc].
  destruct (hasData _); [|exact Hc].
  destruct (winnerLeaderboard_frame env squadId s) as (_ & _ & _ & Hcache & _).
  destruct (winnerLeaderboard env squadId s) as [[r|[|winner rest]] s1];
    cbn [snd] in *; rewrite ?crownWinner_cache, Hcache;
    now apply cacheSorted_get.
Qed.

Lemma reachable_sorted (s : Sys) : reachable s -> cacheSorted (pnlCache s).
Proof.
  induction 1 as [s H| env req s _ IH | env req s _ IH].
  - rewrite H. intros k d Hd. rewrite lookup_empty in Hd. discriminate.
  - now apply getLeaderboard_sorted.
  - now apply calculateWinner_sorted.
Qed.

(** X14. Every leaderboard [GET /:id/leaderboard] answers with, taken
    from the cache or computed afresh, is in descending order of total,
    in every state the server reaches from an empty cache. *)
Theorem every_leaderboard_sorted (s : Sys) (env : Env) (req : Request)
    (l : list Entry.t) :
  reachable s ->
  body (fst (run (getLeaderboard env req) s)) = Leaderboard l ->
  StronglySorted descending l.
Proof.
  intros Hr. apply getLeaderboard_sorted, reachable_sorted, Hr.
Qed.

Lemma every_leaderboard_sorted_witness :
  StronglySorted descending
    (sortBy compareFn (queryEntries Sample.env (Sample.query None) Sample.squad)).
Proof.
  apply (every_leaderboard_sorted Sample.afterQuery (Sample.later 20)
           (Sample.query None)).
  - apply reach_query, reach_start. reflexivity.
  - vm_compute. reflexivity.
Defined.

(** ** The winner *)

Lemma sortBy_head (l : list Entry.t) (w : Entry.t) (rest : list Entry.t) :
  sortBy compareFn l = w :: rest ->
  exists l1 l2,
    l = l1 ++ w :: l2
    /\ (forall x, In x l1 -> (Entry.totalLivePnl x < Entry.totalLivePnl w)%Q)
    /\ (forall x, In x l2 -> (Entry.totalLivePnl x <= Entry.totalLivePnl w)%Q).
Proof.
  revert w rest. induction l as [|x l IH]; intros w rest; [discriminate|].
  cbn [sortBy fold_right]. fold (sortBy compareFn l).
  destruct (sortBy compareFn l) as [|y r] eqn:E.
  - assert (Hl : l = []).
    { apply length_zero_iff_nil. rewrite <- (sortBy_length compareFn l), E.
      reflexivity. }
    subst l. cbn. intros [= <- <-]. exists [], []. split; [reflexivity|].
    split; intros v [].
  - destruct (IH y r eq_refl) as (l1 & l2 & -> & H1 & H2).
    cbn [insertBy]. destruct (positive (compareFn x y)) eqn:Hp.
    + apply positive_compareFn in Hp. intros [= <- <-].
      exists (x :: l1), l2. split; [reflexivity|]. split; [|exact H2].
      intros v [<-|Hv]; [exact Hp|apply H1, Hv].
    + assert (Hyx : (Entry.totalLivePnl y <= Entry.totalLivePnl x)%Q).
      { apply Qnot_lt_le. intros Hlt. apply positive_compareFn in Hlt. congruence. }
      intros [= <- <-]. exists [], (l1 ++ y :: l2). split; [reflexivity|].
      split; [intros v []|]. intros v Hv. apply in_app_or in Hv.
      destruct Hv as [Hv|[<-|Hv]].
      * apply Qlt_le_weak. eapply Qlt_le_trans; [apply H1, Hv|exact Hyx].
      * exact Hyx.
      * eapply Qle_trans; [apply H2, Hv|exact Hyx].
Qed.

Lemma winnerPnl_entry (env : Env) (user : User.t) :
  fst (winnerPnl env user) = winnerEntry user (winnerTotal env user).
Proof.
  unfold winnerTotal, winnerPnl.
  destruct (falsy_string _); [reflexivity|]. cbn [fst].
  set (address := orString (User.polymarketUserAddress user) "").
  destruct (fetch env (closedUrl address None)) as [|ok1 c1 [b1|]];
    destruct (fetch env (valueUrl address)) as [|ok2 c2 [b2|]]; try reflexivity;
    destruct (negb ok1 || negb ok2); reflexivity.
Qed.

Lemma reachable_fresh (s : Sys) (env : Env) (squadId : Z) :
  reachable s -> winnerLeaderboard env squadId s = freshLeaderboard env squadId s.
Proof.
  intros Hr. pose proof (reachable_keys s Hr) as Hk.
  pose proof (keysQualified_winnerKey _ squadId Hk) as Hnone.
  unfold winnerLeaderboard, bind, cacheGet, cache_get. rewrite Hnone.
  now rewrite set_pnlCache_same.
Qed.

(** X15. The winner [POST /:id/calculate-winner] reports is a member
    with the greatest total of the squad; among members of that total
    it is the first in the order of the profile rows. *)
Theorem winner_is_best (env : Env) (req : Request) (s : Sys) (squadId : Z)
    (users : list User.t) :
  reachable s ->
  authorized env req squadId ->
  membersResolve env squadId users ->
  status (fst (run (calculateWinner env req) s)) = 200 ->
  exists before winner after,
    users = before ++ winner :: after
    /\ body (fst (run (calculateWinner env req) s))
       = WinnerCalculated "Winner calculated successfully"
           (User.evmAddress winner) (orString (User.username winner) "Anonymous")
           (winnerTotal env winner) (weekOf env)
    /\ (forall u, In u before -> (winnerTotal env u < winnerTotal env winner)%Q)
    /\ (forall u, In u after -> (winnerTotal env u <= winnerTotal env winner)%Q).
Proof.
  intros Hr [Hid Hm] Hres. rewrite calculateWinner_run, Hid, Hm.
  rewrite (reachable_fresh s env squadId Hr).
  rewrite (freshLeaderboard_run env squadId users s Hres).
  destruct (sortBy compareFn (winnerEntries env users)) as [|w rest] eqn:E;
    [discriminate|].
  rewrite crownWinner_run. destruct (insert_fails env); [discriminate|].
  intros _. cbn [fst winnerSummary body].
  destruct (sortBy_head _ _ _ E) as (l1 & l2 & Hsplit & H1 & H2).
  unfold winnerEntries in Hsplit. apply map_eq_app in Hsplit.
  destruct Hsplit as (before & tail & -> & <- & Htail).
  apply map_eq_cons in Htail. destruct Htail as (winner & after & -> & <- & <-).
  exists before, winner, after. split; [reflexivity|].
  rewrite winnerPnl_entry. cbn [winnerEntry Entry.evmAddress Entry.username
                                Entry.totalLivePnl].
  split; [reflexivity|]. split.
  - intros u Hu. specialize (H1 _ (in_map _ _ _ Hu)).
    rewrite !winnerPnl_entry in H1. exact H1.
  - intros u Hu. specialize (H2 _ (in_map _ _ _ Hu)).
    rewrite !winnerPnl_entry in H2. exact H2.
Qed.

Lemma winner_is_best_witness :
  exists before winner after,
    Sample.squad = before ++ winner :: after
    /\ body (fst (run (calculateWinner Sample.env (Sample.query None))
                    Sample.afterQuery))
       = WinnerCalculated "Winner calculated successfully"
           (User.evmAddress winner) (orString (User.username winner) "Anonymous")
           (winnerTotal Sample.env winner) (weekOf Sample.env)
    /\ (forall u, In u before ->
          (winnerTotal Sample.env u < winnerTotal Sample.env winner)%Q)
    /\ (forall u, In u after ->
          (winnerTotal Sample.env u <= winnerTotal Sample.env winner)%Q).
Proof.
  apply (winner_is_best Sample.env (Sample.query None) Sample.afterQuery 7
           Sample.squad).
  - apply reach_query, reach_start. reflexivity.
  - split; reflexivity.
  - exists "0xA", ["0xB"; "0xC"]. split; reflexivity.
  - vm_compute. reflexivity.
Defined.

(** ** A save that fails *)

Lemma filter_other {A} (f g : A -> bool) (l : list A) :
  (forall x, f x = true -> g x = false) ->
  List.filter f (List.filter (fun x => negb (g x)) l) = List.filter f l.
Proof.
  intros H. induction l as [|x l IH]; [reflexivity|]. cbn.
  destruct (g x) eqn:Hg; cbn.
  - destruct (f x) eqn:Hf; [rewrite (H x Hf) in Hg; discriminate|exact IH].
  - destruct (f x); [f_equal|]; exact IH.
Qed.

(** X16. The week's row is deleted before the new one is inserted, and
    nothing puts it back: when the insert fails, the call answers 500
    and the squad has no winner of the week any more, where it had one
    before.  The rows of other squads and weeks stay, and nothing is
    broadcast. *)
Theorem failed_save_loses_winner (env : Env) (req : Request) (s s1 : Sys)
    (squadId : Z) (winner : Entry.t) (rest : list Entry.t) (old : Winner.t) :
  authorized env req squadId ->
  winnerLeaderboard env squadId s = (Next (winner :: rest), s1) ->
  storeResponds env ->
  insert_fails env = true ->
  winnersOf squadId (weekOf env) (squad_winners s) = [old] ->
  let after := snd (run (calculateWinner env req) s) in
  status (fst (run (calculateWinner env req) s)) = 500
  /\ winnersOf squadId (weekOf env) (squad_winners after) = []
  /\ (forall squadId' week,
        (squadId', week) <> (squadId, weekOf env) ->
        winnersOf squadId' week (squad_winners after)
        = winnersOf squadId' week (squad_winners s))
  /\ broadcasts after = broadcasts s.
Proof.
  intros [Hid Hm] Hlb Hstore Hfail Hold. cbv zeta.
  pose proof (winnerLeaderboard_frame env squadId s) as (Hw & Hb & _).
  rewrite Hlb in Hw, Hb. cbn [snd] in Hw, Hb.
  rewrite calculateWinner_run, Hid, Hm, Hlb, crownWinner_run, Hfail.
  cbn [fst snd status squad_winners broadcasts].
  destruct (winnersAfterDelete_none env squadId s1 Hstore) as [Hafter _].
  { rewrite Hw, Hold. cbn. lia. }
  rewrite Hafter, Hw, Hb. split; [reflexivity|]. split.
  - apply filter_none_of_rest.
  - split; [|reflexivity]. intros squadId' week Hne. unfold winnersOf.
    apply filter_other. intros w Hsame.
    destruct (sameWeek squadId (weekOf env) w) eqn:E; [|reflexivity].
    destruct (sameWeek_inj _ _ _ _ _ E Hsame) as [-> ->]. congruence.
Qed.

Lemma failed_save_loses_winner_witness :
  status (fst (run (calculateWinner (withInsertFailure Sample.richer)
                      (Sample.query None)) Sample.afterWinner)) = 500
  /\ winnersOf 7 44
       (squad_winners (snd (run (calculateWinner (withInsertFailure Sample.richer)
                                   (Sample.query None)) Sample.afterWinner)))
     = []
  /\ (forall squadId' week,
        (squadId', week) <> (7, 44) ->
        winnersOf squadId' week
          (squad_winners (snd (run (calculateWinner (withInsertFailure Sample.richer)
                                      (Sample.query None)) Sample.afterWinner)))
        = winnersOf squadId' week (squad_winners Sample.afterWinner))
  /\ broadcasts (snd (run (calculateWinner (withInsertFailure Sample.richer)
                            (Sample.query None)) Sample.afterWinner))
     = broadcasts Sample.afterWinner.
Proof.
  apply (failed_save_loses_winner (withInsertFailure Sample.richer)
           (Sample.query None) Sample.afterWinner
           (snd (winnerLeaderboard (withInsertFailure Sample.richer) 7
                   Sample.afterWinner))
           7
           (winnerEntry Sample.bob (16550 # 100)) 
           [winnerEntry Sample.alice 0; winnerEntry Sample.carol 0]
           {| Winner.squadId := 7; Winner.winnerAddress := "0xB";
              Winner.week := 44; Winner.pnl := 15050 # 100 |}).
  - split; reflexivity.
  - vm_compute. reflexivity.
  - split; reflexivity.
  - reflexivity.
  - vm_compute. reflexivity.
Defined.

(** ** The winners a squad keeps *)

Lemma weeks_In (week : Z) : In week weeks <-> 1 <= week <= 53.
Proof.
  unfold weeks. rewrite in_map_iff. split.
  - intros (n & <- & Hn). apply in_seq in Hn. lia.
  - intros H. exists (Z.to_nat week). split; [lia|]. apply in_seq. lia.
Qed.

Lemma weeksInRange_after (env : Env) (squadId : Z) (s : Sys) :
  weeksInRange (squad_winners s) -> weeksInRange (winnersAfterDelete env squadId s).
Proof.
  intros H. unfold winnersAfterDelete.
  destruct (existingWinner env squadId s); [|exact H].
  destruct (delete_fails env); [exact H|].
  unfold weeksInRange in *. rewrite List.Forall_forall in *.
  intros w Hw. apply List.filter_In in Hw. apply H, Hw.
Qed.

Lemma calculateWinner_weeks (env : Env) (req : Request) (s : Sys) :
  weeksInRange (squad_winners s) ->
  weeksInRange (squad_winners (snd (run (calculateWinner env req) s))).
Proof.
  intros Hinv. rewrite calculateWinner_run.
  destruct (params_id req) as [squadId|]; [|exact Hinv].
  destruct (hasData _); [|exact Hinv].
  destruct (winnerLeaderboard_frame env squadId s) as (Hw & _).
  destruct (winnerLeaderboard env squadId s) as [[r|[|winner rest]] s1];
    cbn [snd] in *; try (now rewrite Hw).
  rewrite crownWinner_run. rewrite <- Hw in Hinv.
  pose proof (weeksInRange_after env squadId s1 Hinv) as Hafter.
  destruct (insert_fails env); cbn [snd squad_winners]; [exact Hafter|].
  apply Forall_app. split; [exact Hafter|].
  constructor; [|constructor]. apply weeks_In. cbn. apply weekNumber_range.
Qed.

Lemma served_weeks (s : Sys) : served s -> weeksInRange (squad_winners s).
Proof.
  induction 1 as [s H | env req s _ IH | env req s Hstore _ IH].
  - rewrite H. constructor.
  - now rewrite getLeaderboard_winners.
  - now apply calculateWinner_weeks.
Qed.

Lemma filter_filter_and {A} (f g : A -> bool) (l : list A) :
  List.filter f (List.filter g l) = List.filter (fun x => g x && f x) l.
Proof.
  induction l as [|x l IH]; [reflexivity|]. cbn.
  destruct (g x); cbn; [destruct (f x); [f_equal|]|]; exact IH.
Qed.

Lemma history_weeks_distinct (squadId : Z) (rows : list Winner.t) :
  atMostOnePerWeek rows -> List.NoDup (map Winner.week (historyOf squadId rows)).
Proof.
  intros Hone.
  assert (H : forall week,
             (length (List.filter (fun w => (Winner.week w =? week)%Z)
                        (historyOf squadId rows)) <= 1)%nat).
  { intros week. unfold historyOf. rewrite filter_filter_and. apply (Hone squadId week). }
  induction (historyOf squadId rows) as [|w l IH]; cbn [map]; constructor.
  - intros Hin. apply in_map_iff in Hin. destruct Hin as (w' & He & Hin).
    specialize (H (Winner.week w)). cbn [List.filter] in H.
    rewrite Z.eqb_refl in H. cbn [length] in H.
    assert (Hw' : In w' (List.filter (fun w0 => Winner.week w0 =? Winner.week w) l)).
    { apply List.filter_In. split; [exact Hin|]. apply Z.eqb_eq. exact He. }
    destruct (List.filter _ l); [destruct Hw'|cbn in H; lia].
  - apply IH. intros week. specialize (H week). cbn [List.filter] in H.
    destruct (Winner.week w =? week); cbn [length] in H; lia.
Qed.

(** X17. The week of a winner row is a number from 1 to 53, without a
    year, and a squad keeps one row per week: when the calls follow one
    another from an empty table and the store responds, a squad never
    has more than 53 winner rows, each of a different week, so the
    table cannot hold the winners of one week of two years. *)
Theorem winner_history_bounded (s : Sys) (squadId : Z) :
  served s ->
  (length (historyOf squadId (squad_winners s)) <= 53)%nat
  /\ List.NoDup (map Winner.week (historyOf squadId (squad_winners s)))
  /\ forall w, In w (squad_winners s) -> 1 <= Winner.week w <= 53.
Proof.
  intros Hs.
  pose proof (history_weeks_distinct squadId _ (served_invariant s Hs)) as Hnd.
  pose proof (served_weeks s Hs) as Hrange.
  unfold weeksInRange in Hrange. rewrite List.Forall_forall in Hrange.
  split; [|split; [exact Hnd|]].
  - rewrite <- (List.length_map Winner.week).
    change 53%nat with (length weeks).
    apply NoDup_incl_length; [exact Hnd|].
    intros week Hin. apply in_map_iff in Hin. destruct Hin as (w & <- & Hw).
    apply Hrange. unfold historyOf in Hw. apply List.filter_In in Hw. apply Hw.
  - intros w Hw. apply weeks_In, Hrange, Hw.
Qed.

Lemma winner_history_bounded_witness :
  (length (historyOf 7%Z (squad_winners Sample.afterWinner)) <= 53)%nat
  /\ List.NoDup (map Winner.week (historyOf 7 (squad_winners Sample.afterWinner)))
  /\ forall w, In w (squad_winners Sample.afterWinner) -> 1 <= Winner.week w <= 53.
Proof.
  apply (winner_history_bounded Sample.afterWinner 7).
  apply served_winner; [split; reflexivity|]. apply served_start. reflexivity.
Defined.

(** ** A timeframe the query does not know *)



(** ** What the routes leave alone *)

(** X19. [GET /:id/leaderboard] answers 200, 400, 403 or 500; whatever
    it answers, it writes no winner row, broadcasts nothing, and only
    adds to the requests made upstream. *)
Theorem query_writes_nothing (env : Env) (req : Request) (s : Sys) :
  let after := snd (run (getLeaderboard env req) s) in
  squad_winners after = squad_winners s
  /\ broadcasts after = broadcasts s
  /\ store_ops after = store_ops s
  /\ (exists added, requests after = requests s ++ added)
  /\ answers [200; 400; 403; 500] (fst (run (getLeaderboard env req) s)).
Proof.
  unfold run, getLeaderboard, bind, guard, cacheGet, respond, answers.
  assert (Hnil : exists added, requests s = requests s ++ added)
    by (exists []; symmetry; apply app_nil_r).
  destruct (params_id req) as [squadId|]; [|cbn; auto 10].
  destruct (hasData _); [|cbn; auto 10]. cbn.
  destruct (cache_get _ _ _) as [[result|] c]; cbn; [auto 10|].
  destruct (db_memberRows env squadId) as [|[|u ids]]; cbn; [auto 10|auto 10|].
  destruct (db_users env (u :: ids)) as [|users]; cbn; [auto 10|].
  repeat split; eauto.
Qed.

(** X20. [POST /:id/calculate-winner] answers 200, 400, 403 or 500.  It
    broadcasts exactly when it answers 200, and then once; when it
    answers 400 or 403 the winner table is as it was and the store was
    not written to. *)
Theorem winner_route_effects (env : Env) (req : Request) (s : Sys) :
  let reply := fst (run (calculateWinner env req) s) in
  let after := snd (run (calculateWinner env req) s) in
  answers [200; 400; 403; 500] reply
  /\ (status reply = 200 ->
      exists winner, broadcasts after = broadcasts s ++ [winner])
  /\ (status reply <> 200 -> broadcasts after = broadcasts s)
  /\ (status reply = 400 \/ status reply = 403 ->
      squad_winners after = squad_winners s /\ store_ops after = store_ops s).
Proof.
  cbv zeta. rewrite calculateWinner_run. unfold answers.
  destruct (params_id req) as [squadId|]; [|effects].
  destruct (hasData _); [|effects].
  unfold winnerLeaderboard, freshLeaderboard, bind, cacheGet, ret, respond, fetchAll.
  destruct (cache_get _ _ _) as [[leaderboard|] c].
  - destruct leaderboard as [|winner rest]; [effects|].
    rewrite crownWinner_run. destruct (insert_fails env); effects.
  - destruct (db_memberRows env squadId) as [|[|u ids]]; [effects|effects|].
    destruct (db_users env (u :: ids)) as [|users]; [effects|].
    destruct (sortBy compareFn _) as [|winner rest]; [effects|].
    rewrite crownWinner_run. destruct (insert_fails env); effects.
Qed.

Lemma winner_route_effects_witness :
  answers [200; 400; 403; 500]
    (fst (run (calculateWinner Sample.env (Sample.query None)) Sample.start))
  /\ exists winner,
       broadcasts (snd (run (calculateWinner Sample.env (Sample.query None))
                          Sample.start))
       = broadcasts Sample.start ++ [winner].
Proof.
  destruct (winner_route_effects Sample.env (Sample.query None) Sample.start)
    as (Hcodes & Hsent & _).
  split; [exact Hcodes|]. apply Hsent. vm_compute. reflexivity.
Defined.

(** ** Windows within windows *)

Lemma keptBy_active (timeframe : string) (now c : Z) (l : list Position.t) :
  startTimestamp timeframe now = Some c -> 0 < c ->
  keptBy timeframe now l = List.filter (keepPosition c) l.
Proof.
  intros Hst Hc. unfold keptBy, filterClosed. rewrite Hst. cbn [cutoffActive].
  replace (c =? 0) with false by (symmetry; apply Z.eqb_neq; lia). reflexivity.
Qed.

(** X21. Once the clock is past 8 January 1970, the closed positions
    counted for [daily] are among those counted for [weekly], which are
    among those counted for [all], and these are all of them. *)
Theorem daily_within_weekly (now : Z) (l : list Position.t) :
  8 * Date.msPerDay <= now ->
  incl (keptBy "daily" now l) (keptBy "weekly" now l)
  /\ incl (keptBy "weekly" now l) (keptBy "all" now l)
  /\ keptBy "all" now l = l.
Proof.
  intros Hnow.
  destruct (startTimestamp_active "daily" now (or_introl eq_refl) Hnow)
    as (cd & Hd & Hcd).
  destruct (startTimestamp_active "weekly" now (or_intror eq_refl) Hnow)
    as (cw & Hw & Hcw).
  rewrite (keptBy_active "daily" now cd l Hd Hcd).
  rewrite (keptBy_active "weekly" now cw l Hw Hcw).
  assert (Hle : cw <= cd).
  { unfold startTimestamp, Date.minusDays, Date.msPerDay in Hd, Hw.
    cbn [String.eqb Ascii.eqb Bool.eqb] in Hd, Hw.
    injection Hd as <-. injection Hw as <-.
    apply Z.div_le_mono; lia. }
  split; [|split; [|reflexivity]].
  - intros pos Hin. apply List.filter_In in Hin. destruct Hin as [Hin Hk].
    apply List.filter_In. split; [exact Hin|].
    apply keepPosition_spec in Hk. destruct Hk as (ts & Hts & Ht & Hc).
    apply keepPosition_spec. exists ts. split; [exact Hts|]. split; [exact Ht|].
    eapply Qle_trans; [|exact Hc]. unfold Qle. cbn. lia.
  - intros pos Hin. apply List.filter_In in Hin. apply Hin.
Qed.

Lemma daily_within_weekly_witness :
  incl (keptBy "daily" Sample.now Sample.bobClosed)
    (keptBy "weekly" Sample.now Sample.bobClosed)
  /\ incl (keptBy "weekly" Sample.now Sample.bobClosed)
       (keptBy "all" Sample.now Sample.bobClosed)
  /\ keptBy "all" Sample.now Sample.bobClosed = Sample.bobClosed.
Proof.
  apply (daily_within_weekly Sample.now Sample.bobClosed).
  unfold Sample.now, Date.msPerDay. lia.
Defined.

(** ** Whose leaderboard the cache serves *)







(** ** The name of a squad *)








(** The sample squad was named with spaces around. *)
Example sample_name :
  map Squad.name (Db.squads Sample2.founded) = ["Whales"].
Proof. vm_compute. reflexivity. Qed.
